(** * Canvas state synchronisation of extauri: a shallow embedding

    The development embeds the two TypeScript modules that make up the
    synchronisation engine,

      - [src/storage/indexedDBService.ts]  (the local cache), and
      - [src/ExcalidrawCanvas.tsx]         (normaliser, echo flag,
                                            debouncer, poll channel,
                                            start-up restore),

    as executable Rocq functions over an explicit world state, and proves
    properties of them.

    How the program is read:

      - JavaScript values are an inductive type; numbers are IEEE doubles
        (primitive floats), objects are property lists in insertion order.
      - Every function that touches the store, the surface, a ref or a
        timer is a computation in a state-and-exception monad over the
        world; [await] is sequencing, a rejected promise is [Throw], and
        [try]/[catch] keeps what was done before the throw.
      - A handler runs to completion before the next event is delivered:
        the promises it awaits resolve at once.  The one [await] a
        statement below depends on, the poll's [await fetch], is also
        given with its two halves apart.
      - Time is the millisecond clock [Date.now()] reads.  Timers sit in a
        queue and fire, in the order they were queued, in the millisecond
        they come due.
      - What the engine does not define -- [JSON.stringify], the parsing
        of a string as a number, the random source, the surface's verdict
        on an update, the remote service's answers, the failure of a
        request of the store -- is data of the environment.
      - Of rendering only the start-up effect is kept; the JSON modal
        and logging are left out.  [put_log], [scene_log] and [fetch_log]
        are histories the statements read and the program never does. *)

From Stdlib Require Import ZArith List String Ascii Bool Lia Permutation.
From Stdlib Require Import PrimFloat Uint63 SpecFloat FloatOps FloatAxioms DecimalString.
Import ListNotations.
Open Scope string_scope.
Open Scope Z_scope.

Set Warnings "-register-all".

(** ** JavaScript values *)

Module JS.

(** The fragment of the value universe the engine manipulates.  Numbers are
    IEEE doubles; an object keeps its own enumerable properties in
    insertion order; a [Map] is a separate kind of object. *)
Inductive value : Type :=
| Undefined
| Null
| Bool (b : bool)
| Num (f : float)
| Str (s : string)
| Arr (items : list value)
| Obj (props : list (string * value))
| MapV (entries : list (value * value)).

Definition props := list (string * value).

(** [!!v] *)
Definition truthy (v : value) : bool :=
  match v with
  | Undefined | Null => false
  | Bool b => b
  | Num f => negb (PrimFloat.eqb f 0%float || PrimFloat.is_nan f)
  | Str s => negb (String.eqb s "")
  | Arr _ | Obj _ | MapV _ => true
  end.

(** [a || b] *)
Definition or (a b : value) : value := if truthy a then a else b.

(** [Boolean(v)] *)
Definition Boolean (v : value) : value := Bool (truthy v).

(** [typeof v] *)
Definition typeof (v : value) : string :=
  match v with
  | Undefined => "undefined"
  | Null => "object"
  | Bool _ => "boolean"
  | Num _ => "number"
  | Str _ => "string"
  | Arr _ | Obj _ | MapV _ => "object"
  end.

(** [Array.isArray(v)] *)
Definition isArray (v : value) : bool :=
  match v with Arr _ => true | _ => false end.

(** [v instanceof Map] *)
Definition instanceofMap (v : value) : bool :=
  match v with MapV _ => true | _ => false end.

(** Own-property lookup in a property list. *)
Fixpoint lookup (k : string) (ps : props) : option value :=
  match ps with
  | [] => None
  | (k', v) :: ps' => if String.eqb k k' then Some v else lookup k ps'
  end.

(** Writing a property: an existing key keeps its position, a new key is
    appended (the order [JSON.stringify] and spreads observe). *)
Fixpoint set (k : string) (v : value) (ps : props) : props :=
  match ps with
  | [] => [(k, v)]
  | (k', v') :: ps' =>
      if String.eqb k k' then (k, v) :: ps' else (k', v') :: set k v ps'
  end.

Definition string_of_nat (n : nat) : string :=
  NilZero.string_of_uint (Nat.to_uint n).

Definition string_of_Z (z : Z) : string :=
  NilZero.string_of_int (Z.to_int z).

Fixpoint index_from (n : nat) (l : list value) : props :=
  match l with
  | [] => []
  | x :: l' => (string_of_nat n, x) :: index_from (S n) l'
  end.

Fixpoint chars_from (n : nat) (s : string) : props :=
  match s with
  | EmptyString => []
  | String c s' =>
      (string_of_nat n, Str (String c EmptyString)) :: chars_from (S n) s'
  end.

(** The double an integer denotes (exact below 2^53). *)
Definition num_of_Z (z : Z) : float :=
  if z <? 0 then PrimFloat.opp (of_uint63 (Uint63.of_Z (- z)))
  else of_uint63 (Uint63.of_Z z).

(** The own enumerable properties an object spread [{...v}] copies. *)
Definition spread (v : value) : props :=
  match v with
  | Obj ps => ps
  | Arr l => index_from 0 l
  | Str s => chars_from 0 s
  | _ => []
  end.

(** [v.k] on a value that is not [null]/[undefined].  Arrays and strings
    answer [length]; a [Map] has no own data properties. *)
Definition get (v : value) (k : string) : value :=
  match v with
  | Obj ps => match lookup k ps with Some x => x | None => Undefined end
  | Arr l =>
      if String.eqb k "length" then Num (num_of_Z (Z.of_nat (List.length l)))
      else match lookup k (index_from 0 l) with Some x => x | None => Undefined end
  | Str s =>
      if String.eqb k "length" then Num (num_of_Z (Z.of_nat (String.length s)))
      else match lookup k (chars_from 0 s) with Some x => x | None => Undefined end
  | _ => Undefined
  end.

(** [a > b] on two numbers. *)
Definition gt (a b : float) : bool := PrimFloat.ltb b a.

End JS.

Import JS.

(** ** The platform and the outside world

    What the engine calls but does not define: the host's string-to-number
    conversion, [JSON.stringify], the random source, the drawing surface's
    own validation, and the remote service's answers. *)

(** The outcome of [fetch(url)] followed by [response.json()]: the request
    fails, or a response arrives with its [ok] bit and a body that parses
    as JSON ([Some]) or does not ([None]). *)
Inductive FetchResult : Type :=
| NetworkError
| Response (ok : bool) (body : option value).

(** The argument of one [updateScene] call; [upd_files] is [Undefined] when
    the call passes no [files] key. *)
Record SceneUpdate : Type := mkSceneUpdate {
  upd_elements : value;
  upd_appState : value;
  upd_files : value
}.

Record Env : Type := mkEnv {
  (** [Number(s)] on a string *)
  StringToNumber : string -> float;
  (** [String(a)] on an array, the first half of [Number(a)] *)
  ArrayToString : list value -> string;
  (** [JSON.stringify] *)
  JSON_stringify : value -> string;
  (** the [k]-th result of [Math.floor(Math.random() * 1000000)] *)
  random_int : nat -> Z;
  (** whether the surface's [updateScene] throws on this argument *)
  updateScene_throws : SceneUpdate -> bool;
  (** what [GET /canvas] answers when issued at a given time *)
  remote : Z -> FetchResult
}.

(** [Number(v)] *)
Definition Number (env : Env) (v : value) : float :=
  match v with
  | Undefined => PrimFloat.nan
  | Null => 0%float
  | Bool b => if b then 1%float else 0%float
  | Num f => f
  | Str s => StringToNumber env s
  | Arr l => StringToNumber env (ArrayToString env l)
  | Obj _ | MapV _ => PrimFloat.nan
  end.

(** [a === b].  Two objects are the same only by identity; every object
    compared here comes from a fresh parse, so the comparison is false. *)
Definition strict_eq (a b : value) : bool :=
  match a, b with
  | Undefined, Undefined => true
  | Null, Null => true
  | Bool x, Bool y => Bool.eqb x y
  | Num x, Num y => PrimFloat.eqb x y
  | Str x, Str y => String.eqb x y
  | _, _ => false
  end.

(** ** The durable store

    One object store, one record under the key ['current'].  The four
    failure bits are the conditions under which the corresponding IndexedDB
    request ends in [onerror]. *)

Record CanvasData : Type := mkCanvasData {
  cd_elements : value;
  cd_appState : value;
  cd_timestamp : value
}.

Record IDB : Type := mkIDB {
  open_fails : bool;
  get_fails : bool;
  put_fails : bool;
  delete_fails : bool;
  (** [this.db !== null] *)
  db : bool;
  (** the record stored under ['current'] *)
  current : option CanvasData;
  (** every record a successful [put] wrote, newest first *)
  put_log : list CanvasData
}.

(** ** Timers *)

Inductive TimerAction : Type :=
| ClearRestoreFlag
| DebouncedSave (elements appState : value)
| PollTick.

Inductive TimerKind : Type :=
| Timeout
| Interval (period : Z).

Record Timer : Type := mkTimer {
  tid : positive;
  due : Z;
  kind : TimerKind;
  action : TimerAction
}.

(** ** The world: clock, store, surface and the component's refs *)

Record World : Type := mkWorld {
  (** [Date.now()], in milliseconds *)
  now : Z;
  idb : IDB;
  (** how many random integers have been drawn *)
  rand_used : nat;
  (** [apiRef.current !== null] *)
  apiRef : bool;
  (** [isInitialized] *)
  isInitialized : bool;
  (** the [updateScene] calls the surface accepted, newest first *)
  scene_log : list SceneUpdate;
  isUpdatingFromRestore : bool;
  saveTimeoutRef : option positive;
  lastSaveDataRef : string;
  (** the poll closure's [lastUpdateTime] *)
  lastUpdateTime : value;
  timers : list Timer;
  next_timer : positive;
  (** the times at which [GET /canvas] was issued, newest first *)
  fetch_log : list Z
}.

Definition with_idb (d : IDB) (w : World) : World :=
  mkWorld (now w) d (rand_used w) (apiRef w) (isInitialized w) (scene_log w)
    (isUpdatingFromRestore w) (saveTimeoutRef w) (lastSaveDataRef w)
    (lastUpdateTime w) (timers w) (next_timer w) (fetch_log w).

Definition with_now (t : Z) (w : World) : World :=
  mkWorld t (idb w) (rand_used w) (apiRef w) (isInitialized w) (scene_log w)
    (isUpdatingFromRestore w) (saveTimeoutRef w) (lastSaveDataRef w)
    (lastUpdateTime w) (timers w) (next_timer w) (fetch_log w).

Definition with_rand_used (n : nat) (w : World) : World :=
  mkWorld (now w) (idb w) n (apiRef w) (isInitialized w) (scene_log w)
    (isUpdatingFromRestore w) (saveTimeoutRef w) (lastSaveDataRef w)
    (lastUpdateTime w) (timers w) (next_timer w) (fetch_log w).

Definition with_apiRef (b : bool) (w : World) : World :=
  mkWorld (now w) (idb w) (rand_used w) b (isInitialized w) (scene_log w)
    (isUpdatingFromRestore w) (saveTimeoutRef w) (lastSaveDataRef w)
    (lastUpdateTime w) (timers w) (next_timer w) (fetch_log w).

Definition with_isInitialized (b : bool) (w : World) : World :=
  mkWorld (now w) (idb w) (rand_used w) (apiRef w) b (scene_log w)
    (isUpdatingFromRestore w) (saveTimeoutRef w) (lastSaveDataRef w)
    (lastUpdateTime w) (timers w) (next_timer w) (fetch_log w).

Definition with_scene_log (l : list SceneUpdate) (w : World) : World :=
  mkWorld (now w) (idb w) (rand_used w) (apiRef w) (isInitialized w) l
    (isUpdatingFromRestore w) (saveTimeoutRef w) (lastSaveDataRef w)
    (lastUpdateTime w) (timers w) (next_timer w) (fetch_log w).

Definition with_flag (b : bool) (w : World) : World :=
  mkWorld (now w) (idb w) (rand_used w) (apiRef w) (isInitialized w) (scene_log w)
    b (saveTimeoutRef w) (lastSaveDataRef w)
    (lastUpdateTime w) (timers w) (next_timer w) (fetch_log w).

Definition with_saveTimeoutRef (r : option positive) (w : World) : World :=
  mkWorld (now w) (idb w) (rand_used w) (apiRef w) (isInitialized w) (scene_log w)
    (isUpdatingFromRestore w) r (lastSaveDataRef w)
    (lastUpdateTime w) (timers w) (next_timer w) (fetch_log w).

Definition with_lastSaveDataRef (s : string) (w : World) : World :=
  mkWorld (now w) (idb w) (rand_used w) (apiRef w) (isInitialized w) (scene_log w)
    (isUpdatingFromRestore w) (saveTimeoutRef w) s
    (lastUpdateTime w) (timers w) (next_timer w) (fetch_log w).

Definition with_lastUpdateTime (v : value) (w : World) : World :=
  mkWorld (now w) (idb w) (rand_used w) (apiRef w) (isInitialized w) (scene_log w)
    (isUpdatingFromRestore w) (saveTimeoutRef w) (lastSaveDataRef w)
    v (timers w) (next_timer w) (fetch_log w).

Definition with_timers (ts : list Timer) (w : World) : World :=
  mkWorld (now w) (idb w) (rand_used w) (apiRef w) (isInitialized w) (scene_log w)
    (isUpdatingFromRestore w) (saveTimeoutRef w) (lastSaveDataRef w)
    (lastUpdateTime w) ts (next_timer w) (fetch_log w).

Definition with_next_timer (n : positive) (w : World) : World :=
  mkWorld (now w) (idb w) (rand_used w) (apiRef w) (isInitialized w) (scene_log w)
    (isUpdatingFromRestore w) (saveTimeoutRef w) (lastSaveDataRef w)
    (lastUpdateTime w) (timers w) n (fetch_log w).

Definition with_fetch_log (l : list Z) (w : World) : World :=
  mkWorld (now w) (idb w) (rand_used w) (apiRef w) (isInitialized w) (scene_log w)
    (isUpdatingFromRestore w) (saveTimeoutRef w) (lastSaveDataRef w)
    (lastUpdateTime w) (timers w) (next_timer w) l.

(** ** Promises that may reject: a state-and-exception monad *)

Inductive result (A : Type) : Type :=
| Ok (a : A)
| Throw.

Arguments Ok {A} a.
Arguments Throw {A}.

Definition M (A : Type) : Type := World -> result A * World.

Definition ret {A} (a : A) : M A := fun w => (Ok a, w).

Definition throw {A} : M A := fun w => (Throw, w).

Definition bind {A B} (m : M A) (k : A -> M B) : M B :=
  fun w => match m w with
           | (Ok a, w') => k a w'
           | (Throw, w') => (Throw, w')
           end.

(** [try { body } catch { handler }]: what [body] did before it threw
    stays done. *)
Definition try_catch {A} (body handler : M A) : M A :=
  fun w => match body w with
           | (Ok a, w') => (Ok a, w')
           | (Throw, w') => handler w'
           end.

Definition modify (f : World -> World) : M unit := fun w => (Ok tt, f w).

Definition gets {A} (f : World -> A) : M A := fun w => (Ok (f w), w).

(** Running a handler whose promise nobody awaits: a rejection is dropped. *)
Definition run {A} (m : M A) (w : World) : World := snd (m w).

Declare Scope m_scope.
Delimit Scope m_scope with m.
Notation "x <- m ;; k" := (bind m (fun x => k))
  (at level 61, m at next level, right associativity) : m_scope.
Notation "m ;; k" := (bind m (fun _ => k))
  (at level 61, right associativity) : m_scope.
Open Scope m_scope.

(** ** [src/storage/indexedDBService.ts] *)

Module indexedDBService.

Definition set_db (b : bool) (d : IDB) : IDB :=
  mkIDB (open_fails d) (get_fails d) (put_fails d) (delete_fails d) b
    (current d) (put_log d).

Definition put_record (r : CanvasData) (d : IDB) : IDB :=
  mkIDB (open_fails d) (get_fails d) (put_fails d) (delete_fails d) (db d)
    (Some r) (r :: put_log d).

Definition delete_record (d : IDB) : IDB :=
  mkIDB (open_fails d) (get_fails d) (put_fails d) (delete_fails d) (db d)
    None (put_log d).

(** [init()]: [indexedDB.open]; [onerror] rejects, [onsuccess] keeps the
    handle. *)
Definition init : M unit :=
  fun w =>
    if open_fails (idb w) then (Throw, w)
    else (Ok tt, with_idb (set_db true (idb w)) w).

(** [if (!this.db) { await this.init(); }] *)
Definition ensure_db : M unit :=
  fun w => if db (idb w) then (Ok tt, w) else init w.

(** [saveCanvasData(elements, appState)]: [store.put] of
    [{ id: 'current', elements, appState, timestamp: Date.now() }]. *)
Definition saveCanvasData (elements appState : value) : M unit :=
  ensure_db ;;
  fun w =>
    if put_fails (idb w) then (Throw, w)
    else
      let canvasData := mkCanvasData elements appState (Num (num_of_Z (now w))) in
      (Ok tt, with_idb (put_record canvasData (idb w)) w).

(** [loadCanvasData()]: [store.get('current')]; a stored record is an
    object, hence truthy, and is handed back field by field; no record
    gives [null]. *)
Definition loadCanvasData : M (option CanvasData) :=
  ensure_db ;;
  fun w =>
    if get_fails (idb w) then (Throw, w)
    else
      match current (idb w) with
      | Some result =>
          (Ok (Some (mkCanvasData (cd_elements result) (cd_appState result)
                       (cd_timestamp result))), w)
      | None => (Ok None, w)
      end.

(** [clearCanvasData()]: [store.delete('current')]. *)
Definition clearCanvasData : M unit :=
  ensure_db ;;
  fun w =>
    if delete_fails (idb w) then (Throw, w)
    else (Ok tt, with_idb (delete_record (idb w)) w).

(** [getLastUpdateTime()]: [data ? data.timestamp : null]. *)
Definition getLastUpdateTime : M value :=
  data <- loadCanvasData ;;
  ret (match data with Some d => cd_timestamp d | None => Null end).

(** [shouldUpdateData(newTimestamp)] *)
Definition shouldUpdateData (env : Env) (newTimestamp : float) : M bool :=
  try_catch
    (lastUpdate <- getLastUpdateTime ;;
     if negb (truthy lastUpdate) then ret true
     else ret (JS.gt newTimestamp (Number env lastUpdate)))
    (ret true).

(** [safelyUpdateCanvasData(elements, appState, sourceTimestamp?)];
    [None] is the omitted argument. *)
Definition safelyUpdateCanvasData (env : Env) (elements appState : value)
    (sourceTimestamp : option float) : M bool :=
  try_catch
    (skip <- match sourceTimestamp with
             | Some ts =>
                 if truthy (Num ts) then
                   b <- shouldUpdateData env ts ;; ret (negb b)
                 else ret false
             | None => ret false
             end ;;
     if skip : bool then ret false
     else saveCanvasData elements appState ;; ret true)
    (ret false).

(** [repairData()] *)
Definition repairData : M bool :=
  try_catch
    (data <- loadCanvasData ;;
     match data with
     | None => ret true
     | Some data =>
         let data :=
           if negb (isArray (cd_elements data))
           then mkCanvasData (Arr []) (cd_appState data) (cd_timestamp data)
           else data in
         let data :=
           if negb (truthy (cd_appState data))
              || negb (String.eqb (typeof (cd_appState data)) "object")
           then mkCanvasData (cd_elements data) (Obj []) (cd_timestamp data)
           else data in
         now_ <- gets now ;;
         let data :=
           if negb (truthy (cd_timestamp data))
              || negb (String.eqb (typeof (cd_timestamp data)) "number")
           then mkCanvasData (cd_elements data) (cd_appState data)
                  (Num (num_of_Z now_))
           else data in
         saveCanvasData (cd_elements data) (cd_appState data) ;;
         ret true
     end)
    (try_catch (clearCanvasData ;; ret true) (ret false)).

End indexedDBService.

(** ** [src/ExcalidrawCanvas.tsx] *)

(** [type DrawPayload = { elements?, appState?, files? }]; an absent field
    reads as [Undefined]. *)
Record DrawPayload : Type := mkDrawPayload {
  p_elements : value;
  p_appState : value;
  p_files : value
}.

(** [ensureCollaboratorsMap(appState)] *)
Definition ensureCollaboratorsMap (appState : value) : value :=
  if negb (truthy appState) then Obj [("collaborators", MapV [])]
  else if instanceofMap (get appState "collaborators") then appState
  else Obj (JS.set "collaborators" (MapV []) (spread appState)).

(** [v === s] for a string literal [s]. *)
Definition is_str (v : value) (s : string) : bool :=
  match v with Str s' => String.eqb s' s | _ => false end.

(** Property writes in source order: the keys after the spread of an object
    literal, or a run of [o.k = v] assignments. *)
Definition assign (fields : props) (o : props) : props :=
  fold_left (fun acc kv => JS.set (fst kv) (snd kv) acc) fields o.

(** [Number(v) || d] *)
Definition number_or (env : Env) (v : value) (d : float) : value :=
  JS.or (Num (Number env v)) (Num d).

(** [Array.isArray(v) ? v : d] *)
Definition array_or (v d : value) : value := if isArray v then v else d.

(** [v || Math.floor(Math.random() * 1000000)]: the random source is asked
    only when [v] is falsy.  Returns the value and the advanced count of
    draws. *)
Definition or_random (env : Env) (v : value) (used : nat) : value * nat :=
  if truthy v then (v, used)
  else (Num (num_of_Z (random_int env used)), S used).

(** The body of the [elements.forEach] callback in [handleCanvasUpdate]:
    from one incoming [element] at position [index] to the element pushed
    onto [processedElements]. *)
Definition normalizeElement (env : Env) (now_ : Z) (used : nat)
    (element : value) (index : nat) : value * nat :=
  let cleanElement := spread element in
  let f := fun k => get (Obj cleanElement) k in
  let '(seed, used) := or_random env (f "seed") used in
  let '(versionNonce, used) := or_random env (f "versionNonce") used in
  let baseElement :=
    assign
      [ ("id", JS.or (f "id")
                 (Str ("element_" ++ string_of_Z now_ ++ "_" ++ string_of_nat index)));
        ("seed", seed);
        ("versionNonce", versionNonce);
        ("groupIds", array_or (f "groupIds") (Arr []));
        ("boundElements", JS.or (f "boundElements") Null);
        ("updated", JS.or (f "updated") (Num (num_of_Z now_)));
        ("link", JS.or (f "link") Null);
        ("locked", Boolean (f "locked"));
        ("frameId", JS.or (f "frameId") Null);
        ("strokeColor", JS.or (f "strokeColor") (Str "#000000"));
        ("backgroundColor", JS.or (f "backgroundColor") (Str "transparent"));
        ("isDeleted", Boolean (f "isDeleted"));
        ("opacity", number_or env (f "opacity") 100);
        ("roughness", number_or env (f "roughness") 1);
        ("strokeWidth", number_or env (f "strokeWidth") 1);
        ("angle", number_or env (f "angle") 0);
        ("version", number_or env (f "version") 1) ]
      cleanElement in
  let baseElement :=
    if is_str (f "type") "text" then
      assign
        [ ("text", JS.or (f "text") (Str ""));
          ("fontSize", number_or env (f "fontSize") 20);
          ("fontFamily", number_or env (f "fontFamily") 1);
          ("textAlign", JS.or (f "textAlign") (Str "left"));
          ("verticalAlign", JS.or (f "verticalAlign") (Str "top"));
          ("containerId", JS.or (f "containerId") Null);
          ("originalText", JS.or (JS.or (f "originalText") (f "text")) (Str ""));
          ("lineHeight", number_or env (f "lineHeight") 1.25) ]
        baseElement
    else baseElement in
  let baseElement :=
    if is_str (f "type") "arrow" || is_str (f "type") "line" then
      assign
        [ ("points", array_or (f "points")
                       (Arr [Arr [Num 0; Num 0]; Arr [Num 100; Num 100]]));
          ("lastCommittedPoint", JS.or (f "lastCommittedPoint") Null);
          ("startBinding", JS.or (f "startBinding") Null);
          ("endBinding", JS.or (f "endBinding") Null);
          ("startArrowhead", JS.or (f "startArrowhead") Null);
          ("endArrowhead", JS.or (f "endArrowhead") (Str "arrow")) ]
        baseElement
    else baseElement in
  let baseElement :=
    if is_str (f "type") "freedraw" then
      assign
        [ ("points", array_or (f "points") (Arr []));
          ("pressures", array_or (f "pressures") (Arr []));
          ("simulatePressure", Boolean (f "simulatePressure"));
          ("lastCommittedPoint", JS.or (f "lastCommittedPoint") Null) ]
        baseElement
    else baseElement in
  (Obj baseElement, used).

(** [elements.forEach((element, index) => ... processedElements.push(...))] *)
Fixpoint normalizeElements (env : Env) (now_ : Z) (used : nat)
    (elements : list value) (index : nat) : list value * nat :=
  match elements with
  | [] => ([], used)
  | element :: rest =>
      let '(e, used) := normalizeElement env now_ used element index in
      let '(es, used) := normalizeElements env now_ used rest (S index) in
      (e :: es, used)
  end.

(** [setTimeout(action, delay)]: a fresh handle, queued behind the timers
    already pending. *)
Definition setTimeout (a : TimerAction) (delay : Z) : M positive :=
  fun w =>
    let id := next_timer w in
    (Ok id,
     with_next_timer (Pos.succ id)
       (with_timers (timers w ++ [mkTimer id (now w + delay) Timeout a]) w)).

(** [setInterval(action, period)] *)
Definition setInterval (a : TimerAction) (period : Z) : M positive :=
  fun w =>
    let id := next_timer w in
    (Ok id,
     with_next_timer (Pos.succ id)
       (with_timers (timers w ++ [mkTimer id (now w + period) (Interval period) a]) w)).

(** [clearTimeout(id)] *)
Definition clearTimeout (id : positive) : M unit :=
  modify (fun w =>
    with_timers (filter (fun t => negb (Pos.eqb (tid t) id)) (timers w)) w).

(** [apiRef.current.updateScene(u)]: the surface takes the update or
    throws. *)
Definition updateScene (env : Env) (u : SceneUpdate) : M unit :=
  fun w =>
    if updateScene_throws env u then (Throw, w)
    else (Ok tt, with_scene_log (u :: scene_log w) w).

(** What the live surface shows: the elements of the last update it took,
    nothing before the first. *)
Definition surface_elements (w : World) : value :=
  match scene_log w with
  | u :: _ => upd_elements u
  | [] => Arr []
  end.

Definition ECHO_WINDOW_MS : Z := 100.
Definition DEBOUNCE_MS : Z := 300.
Definition POLL_PERIOD_MS : Z := 1000.

(** [isUpdatingFromRestore.current = true; updateScene(u);
     setTimeout(() => { isUpdatingFromRestore.current = false; }, 100)] *)
Definition applyUnderFlag (env : Env) (u : SceneUpdate) : M unit :=
  modify (with_flag true) ;;
  updateScene env u ;;
  setTimeout ClearRestoreFlag ECHO_WINDOW_MS ;;
  ret tt.

(** [handleCanvasUpdate(payload)] *)
Definition handleCanvasUpdate (env : Env) (payload : DrawPayload) : M unit :=
  fun w =>
    if apiRef w then
      try_catch
        (let elements :=
           match p_elements payload with Arr l => l | _ => [] end in
         if (0 <? Z.of_nat (List.length elements)) then
           now_ <- gets now ;;
           used <- gets rand_used ;;
           let '(processedElements, used) :=
             normalizeElements env now_ used elements 0 in
           modify (with_rand_used used) ;;
           try_catch
             (let safeAppState := ensureCollaboratorsMap (p_appState payload) in
              applyUnderFlag env
                (mkSceneUpdate (Arr processedElements) safeAppState
                   (JS.or (p_files payload) (Obj []))) ;;
              try_catch
                (indexedDBService.saveCanvasData (Arr processedElements)
                   (JS.or (p_appState payload) (Obj [])))
                (ret tt))
             (try_catch
                (let safeAppState := ensureCollaboratorsMap (p_appState payload) in
                 applyUnderFlag env
                   (mkSceneUpdate (Arr processedElements) safeAppState Undefined) ;;
                 try_catch
                   (indexedDBService.saveCanvasData (Arr processedElements)
                      (JS.or (p_appState payload) (Obj [])))
                   (ret tt))
                (ret tt))
         else
           let safeAppState := ensureCollaboratorsMap (p_appState payload) in
           applyUnderFlag env
             (mkSceneUpdate (Arr []) safeAppState
                (JS.or (p_files payload) (Obj []))) ;;
           try_catch indexedDBService.clearCanvasData (ret tt))
        (ret tt) w
    else (Ok tt, w).

(** [v.k] where [v] may be [null] or [undefined]: a [TypeError] then. *)
Definition member (v : value) (k : string) : M value :=
  match v with
  | Undefined | Null => throw
  | _ => ret (get v k)
  end.

(** [await fetch('http://localhost:31337/canvas')], logged with its time. *)
Definition fetch_canvas (env : Env) : M (bool * option value) :=
  fun w =>
    let w' := with_fetch_log (now w :: fetch_log w) w in
    match remote env (now w) with
    | NetworkError => (Throw, w')
    | Response ok body => (Ok (ok, body), w')
    end.

(** [await response.json()] *)
Definition json (body : option value) : M value :=
  match body with Some v => ret v | None => throw end.

(** The poll callback's test
    [canvas && canvas.updated_at && canvas.updated_at !== lastUpdateTime]. *)
Definition poll_detects_update (canvas last : value) : bool :=
  truthy canvas
  && truthy (get canvas "updated_at")
  && negb (strict_eq (get canvas "updated_at") last).

(** The callback of [setInterval(async () => { ... }, 1000)] *)
Definition pollTick (env : Env) : M unit :=
  try_catch
    (response <- fetch_canvas env ;;
     if fst response then
       data <- json (snd response) ;;
       canvas <- member data "canvas" ;;
       last <- gets lastUpdateTime ;;
       if poll_detects_update canvas last then
         modify (with_lastUpdateTime (get canvas "updated_at")) ;;
         handleCanvasUpdate env
           (mkDrawPayload (get canvas "elements") (get canvas "app_state")
              (get canvas "files"))
       else ret tt
     else ret tt)
    (ret tt).

(** [[...v]]: the items of an iterable; a [TypeError] on anything else. *)
Definition iter_spread (v : value) : M (list value) :=
  match v with
  | Arr l => ret l
  | Str s => ret (map snd (chars_from 0 s))
  | MapV es => ret (map (fun kv => Arr [fst kv; snd kv]) es)
  | _ => throw
  end.

(** The [onChange] handler handed to the surface. *)
Definition onChange (env : Env) (elements appState files : value) : M unit :=
  flag <- gets isUpdatingFromRestore ;;
  if flag : bool then ret tt
  else if negb (truthy elements) then ret tt
  else
    mutableElements <- iter_spread elements ;;
    let safeAppState := ensureCollaboratorsMap appState in
    let canvasData :=
      Obj [ ("elements", Arr mutableElements);
            ("appState", safeAppState);
            ("files", JS.or files (Obj [])) ] in
    let dataHash := JSON_stringify env canvasData in
    last <- gets lastSaveDataRef ;;
    if String.eqb dataHash last then ret tt
    else
      modify (with_lastSaveDataRef dataHash) ;;
      ref <- gets saveTimeoutRef ;;
      match ref with
      | Some id => clearTimeout id
      | None => ret tt
      end ;;
      id <- setTimeout (DebouncedSave (Arr mutableElements) safeAppState)
              DEBOUNCE_MS ;;
      modify (with_saveTimeoutRef (Some id)).

(** The start-up read of [initializeStorage]: the canvas object kept in
    [backendData], [Null] when there is none.  [backendData] is assigned
    before the save is awaited, so a save that rejects reaches the [catch]
    with [backendData] already set. *)
Definition fetchBackendData (env : Env) : M value :=
  try_catch
    (response <- fetch_canvas env ;;
     if fst response then
       data <- json (snd response) ;;
       canvas <- member data "canvas" ;;
       if truthy canvas && truthy (get canvas "elements") then
         try_catch
           (indexedDBService.saveCanvasData (get canvas "elements")
              (JS.or (get canvas "appState") (Obj [])))
           (ret tt) ;;
         ret canvas
       else ret Null
     else ret Null)
    (ret Null).

(** [initializeStorage()] *)
Definition initializeStorage (env : Env) : M unit :=
  try_catch
    (indexedDBService.init ;;
     indexedDBService.repairData ;;
     backendData <- fetchBackendData env ;;
     dataToRestore <-
       (if truthy backendData then
          ret (Some (mkSceneUpdate (get backendData "elements")
                       (get backendData "appState") (get backendData "files")))
        else
          savedData <- indexedDBService.loadCanvasData ;;
          match savedData with
          | Some d =>
              if truthy (cd_elements d)
              then ret (Some (mkSceneUpdate (cd_elements d) (cd_appState d) Undefined))
              else ret None
          | None => ret None
          end) ;;
     api <- gets apiRef ;;
     match dataToRestore with
     | Some d =>
         if api : bool then
           let safeAppState := ensureCollaboratorsMap (upd_appState d) in
           updateScene env
             (mkSceneUpdate (upd_elements d) safeAppState
                (JS.or (upd_files d) (Obj [])))
         else ret tt
     | None => ret tt
     end)
    (try_catch (indexedDBService.repairData ;; ret tt) (ret tt)).

(** The effect [if (apiRef.current && !isInitialized) { initializeStorage();
    setIsInitialized(true); }], run after a render.  React runs it only
    when [apiRef.current] or [isInitialized] differ from what the render
    before saw; on any other render the test fails, or [isInitialized]
    would have changed, so running it there does nothing. *)
Definition initEffect (env : Env) (w : World) : World :=
  if apiRef w && negb (isInitialized w)
  then with_isInitialized true (run (initializeStorage env) w)
  else w.

(** The [excalidrawAPI] callback: [apiRef.current = api].  It stores the
    handle and nothing more -- assigning a ref schedules no render, so the
    effect above does not run because of it.  (The callback's one-second
    timer only logs.) *)
Definition excalidrawAPI (w : World) : World := with_apiRef true w.

(** The watch effect, run once on mount: outside Tauri it starts the poll,
    inside Tauri it subscribes to [excalidraw_draw] and starts no timer. *)
Definition startWatch (isTauri : bool) (w : World) : World :=
  if negb isTauri
  then run (setInterval PollTick POLL_PERIOD_MS) (with_lastUpdateTime (Str "") w)
  else w.

(** What a timer's callback does when it comes due.  The callback is run
    to its end: what it awaits resolves at once. *)
Definition fire (env : Env) (a : TimerAction) : World -> World :=
  match a with
  | ClearRestoreFlag => with_flag false
  | DebouncedSave elements appState =>
      run (try_catch (indexedDBService.saveCanvasData elements appState) (ret tt))
  | PollTick => run (pollTick env)
  end.

Definition fire_timer (env : Env) (t : Timer) (w : World) : World :=
  let w := fire env (action t) w in
  match kind t with
  | Timeout => w
  | Interval p =>
      with_timers (timers w ++ [mkTimer (tid t) (due t + p) (Interval p) (action t)]) w
  end.

Definition is_due (t_now : Z) (t : Timer) : bool := due t <=? t_now.

(** One millisecond passes: the clock advances and every timer that has
    come due runs, in the order the timers were queued.  No callback of the
    component clears a timer, so the due ones can be picked up front. *)
Definition tick (env : Env) (w : World) : World :=
  let w1 := with_now (now w + 1) w in
  let ready := filter (is_due (now w1)) (timers w1) in
  let waiting := filter (fun t => negb (is_due (now w1) t)) (timers w1) in
  fold_left (fun acc t => fire_timer env t acc) ready (with_timers waiting w1).

Fixpoint elapse (env : Env) (ms : nat) (w : World) : World :=
  match ms with
  | O => w
  | S n => elapse env n (tick env w)
  end.

(** The world before the component mounts, over a given store and clock. *)
Definition initial (d : IDB) (t0 : Z) : World :=
  mkWorld t0 d 0 false false [] false None "" (Str "") [] 1%positive [].

(** What can happen to a mounted component: the watch effect runs
    ([Mount]), the surface hands over its API ([ApiReady]), the component
    renders again and the start-up effect is looked at ([Render]), the
    surface reports a change, a document is pushed, time passes. *)
Inductive Event : Type :=
| Mount (isTauri : bool)
| ApiReady
| Render
| Change (elements appState files : value)
| Draw (payload : DrawPayload)
| Elapse (ms : nat).

Definition step (env : Env) (w : World) (e : Event) : World :=
  match e with
  | Mount isTauri => startWatch isTauri w
  | ApiReady => excalidrawAPI w
  | Render => initEffect env w
  | Change elements appState files => run (onChange env elements appState files) w
  | Draw payload => run (handleCanvasUpdate env payload) w
  | Elapse ms => elapse env ms w
  end.

Definition run_events (env : Env) (es : list Event) (w : World) : World :=
  fold_left (step env) es w.


(** ** Unmount

    The cleanups React runs when the component goes away. *)

(** The cleanup of the debouncer's effect:
    [if (saveTimeoutRef.current) { clearTimeout(saveTimeoutRef.current); }] *)
Definition cleanupSaveTimeout : M unit :=
  ref <- gets saveTimeoutRef ;;
  match ref with
  | Some id => clearTimeout id
  | None => ret tt
  end.

(** [clearInterval(id)]: timeouts and intervals share their handles. *)
Definition clearInterval (id : positive) : M unit :=
  modify (fun w =>
    with_timers (filter (fun t => negb (Pos.eqb (tid t) id)) (timers w)) w).

(** The watch effect with what its cleanup closes over: outside Tauri the
    handle [pollInterval]; inside Tauri no timer (the cleanup calls
    [unlisten] if the subscription to [excalidraw_draw] has completed by
    then). *)
Definition watchEffect (isTauri : bool) : M (option positive) :=
  if negb isTauri then
    modify (with_lastUpdateTime (Str "")) ;;
    pollInterval <- setInterval PollTick POLL_PERIOD_MS ;;
    ret (Some pollInterval)
  else ret None.

(** The cleanup of the watch effect: [clearInterval(pollInterval)]. *)
Definition watchCleanup (pollInterval : option positive) : M unit :=
  match pollInterval with
  | Some id => clearInterval id
  | None => ret tt
  end.

(** Both cleanups, in the order the effects are declared. *)
Definition unmount (pollInterval : option positive) : M unit :=
  cleanupSaveTimeout ;; watchCleanup pollInterval.
(** ** Sample platform and scenarios

    Concrete data on which the statements below are exercised. *)

Definition dquote : string := String (ascii_of_nat 34) EmptyString.

(** A number as text: [null] for [NaN] and the infinities, as
    [JSON.stringify] has it; otherwise sign, mantissa and exponent, so that
    different numbers read differently (the two zeros apart, which read
    alike in JavaScript too). *)
Definition sample_number_string (f : float) : string :=
  match PrimFloat.classify f with
  | FloatClass.NaN | FloatClass.PInf | FloatClass.NInf => "null"
  | _ =>
      let '(m, e) := PrimFloat.frshiftexp f in
      (if PrimFloat.ltb f 0 then "-" else "")
      ++ string_of_Z (Uint63.to_Z (PrimFloat.normfr_mantissa m)) ++ "e"
      ++ string_of_Z (Uint63.to_Z e)
  end.

(** A serialiser in the shape of [JSON.stringify]: structure and keys in
    order, a [Map] as an empty object. *)
Fixpoint sample_stringify (v : value) : string :=
  match v with
  | Undefined => "undefined"
  | Null => "null"
  | Bool b => if b then "true" else "false"
  | Num f => sample_number_string f
  | Str s => dquote ++ s ++ dquote
  | Arr l => "[" ++ String.concat "," (map sample_stringify l) ++ "]"
  | Obj ps =>
      "{" ++ String.concat ","
               (map (fun kv => dquote ++ fst kv ++ dquote ++ ":"
                               ++ sample_stringify (snd kv)) ps) ++ "}"
  | MapV _ => "{}"
  end.

(** A platform whose surface takes every update and whose remote service
    always answers [fr]. *)
Definition sample_env (fr : FetchResult) : Env :=
  mkEnv (fun _ => PrimFloat.nan) (fun _ => "") sample_stringify
    (fun k => Z.of_nat k + 7) (fun _ => false) (fun _ => fr).

(** [GET /canvas] answering [{ canvas: { elements, app_state, files,
    updated_at } }]. *)
Definition canvas_response (elements : list value) (updated_at : value)
  : FetchResult :=
  Response true
    (Some (Obj [("canvas",
                 Obj [("elements", Arr elements); ("app_state", Obj []);
                      ("files", Obj []); ("updated_at", updated_at)])])).

Definition sample_rectangle : value :=
  Obj [("id", Str "r1"); ("type", Str "rectangle");
       ("x", Num 10); ("y", Num 20); ("width", Num 30); ("height", Num 40)].

(** A store on which every request succeeds. *)
Definition working_store (record : option CanvasData) : IDB :=
  mkIDB false false false false false record [].

(** A store whose reads fail. *)
Definition unreadable_store (record : option CanvasData) : IDB :=
  mkIDB false true false false false record [].

Definition sample_clock : Z := 1700000000000.

(** ** Vocabulary of the statements

    Predicates, views of the world and closed forms the lemmas below are
    stated with, grouped by the part of the engine they describe. *)

Import indexedDBService.
Open Scope list_scope.

(** *** The condition of the store *)

(** The store can be opened (or is open) and read. *)
Definition readable (d : IDB) : bool :=
  (db d || negb (open_fails d)) && negb (get_fails d).

(** No request of the store fails. *)
Definition healthy (d : IDB) : Prop :=
  open_fails d = false /\ get_fails d = false /\
  put_fails d = false /\ delete_fails d = false.

(** *** The durable store *)

(** A stored record with timestamp 200 behind a store whose reads fail,
    and a record with timestamp 0 behind a working store. *)
Definition world_unreadable_200 : World :=
  initial (unreadable_store (Some (mkCanvasData (Arr []) (Obj []) (Num 200))))
    sample_clock.

Definition world_stamped_0 : World :=
  initial (working_store (Some (mkCanvasData (Arr []) (Obj []) (Num 0))))
    sample_clock.

(** *** Repair *)

(** [!data.appState || typeof data.appState !== 'object'] *)
Definition appState_rejected (v : value) : bool :=
  negb (truthy v) || negb (String.eqb (typeof v) "object").

Definition world_with_record (r : CanvasData) : World :=
  initial (working_store (Some r)) sample_clock.

(** *** Remote observations and the poll callback *)

(** The world after an accepted programmatic apply of [u]: the flag is up,
    the surface holds [u], and the timer that lowers the flag is queued. *)
Definition applied_under_flag (u : SceneUpdate) (w : World) : World :=
  with_next_timer (Pos.succ (next_timer w))
    (with_timers
       (timers w ++ [mkTimer (next_timer w) (now w + ECHO_WINDOW_MS) Timeout
                       ClearRestoreFlag])
       (with_scene_log (u :: scene_log w) (with_flag true w))).

(** The elements [handleCanvasUpdate] reads off a payload. *)
Definition payload_elements (payload : DrawPayload) : list value :=
  match p_elements payload with Arr l => l | _ => [] end.

(** The update [handleCanvasUpdate] hands to the surface for a payload
    with at least one element, in a world [w]. *)
Definition normalized_update (env : Env) (payload : DrawPayload) (w : World)
  : SceneUpdate :=
  mkSceneUpdate
    (Arr (fst (normalizeElements env (now w) (rand_used w)
                 (payload_elements payload) 0)))
    (ensureCollaboratorsMap (p_appState payload))
    (JS.or (p_files payload) (Obj [])).

(** The update for a payload without elements. *)
Definition emptying_update (payload : DrawPayload) : SceneUpdate :=
  mkSceneUpdate (Arr []) (ensureCollaboratorsMap (p_appState payload))
    (JS.or (p_files payload) (Obj [])).

(** What a poll response makes of itself against the last token seen: the
    token and the payload forwarded, or nothing. *)
Definition poll_observation (fr : FetchResult) (last : value)
  : option (value * DrawPayload) :=
  match fr with
  | Response true (Some data) =>
      match data with
      | Undefined | Null => None
      | _ =>
          let canvas := get data "canvas" in
          if poll_detects_update canvas last
          then Some (get canvas "updated_at",
                     mkDrawPayload (get canvas "elements")
                       (get canvas "app_state") (get canvas "files"))
          else None
      end
  | _ => None
  end.

(** *** Start-up *)

(** The canvas object the start-up read keeps in [backendData]: the
    response is [ok], its body parses to something with a truthy [canvas]
    whose [elements] are truthy. *)
Definition backend_document (fr : FetchResult) : option value :=
  match fr with
  | Response true (Some data) =>
      match data with
      | Undefined | Null => None
      | _ =>
          let canvas := get data "canvas" in
          if truthy canvas && truthy (get canvas "elements")
          then Some canvas else None
      end
  | _ => None
  end.

(** The record [repairData] leaves for a stored record [r] at time [t]. *)
Definition repaired (t : Z) (r : CanvasData) : CanvasData :=
  mkCanvasData
    (if isArray (cd_elements r) then cd_elements r else Arr [])
    (if appState_rejected (cd_appState r) then Obj [] else cd_appState r)
    (Num (num_of_Z t)).

(** The store after start-up's [init] and [repairData]. *)
Definition store_after_repair (t : Z) (d : IDB) : IDB :=
  match current d with
  | Some r => put_record (repaired t r) (set_db true d)
  | None => set_db true d
  end.

(** The update start-up hands to the surface, if any: the remote document
    when there is one, else the (repaired) local record. *)
Definition restore_update (env : Env) (w : World) : option SceneUpdate :=
  match backend_document (remote env (now w)) with
  | Some canvas =>
      Some (mkSceneUpdate (get canvas "elements")
              (ensureCollaboratorsMap (get canvas "appState"))
              (JS.or (get canvas "files") (Obj [])))
  | None =>
      match current (idb w) with
      | Some r =>
          Some (mkSceneUpdate (cd_elements (repaired (now w) r))
                  (ensureCollaboratorsMap (cd_appState (repaired (now w) r)))
                  (Obj []))
      | None => None
      end
  end.

(** The store after start-up. *)
Definition restore_store (env : Env) (w : World) : IDB :=
  match backend_document (remote env (now w)) with
  | Some canvas =>
      put_record
        (mkCanvasData (get canvas "elements")
           (JS.or (get canvas "appState") (Obj []))
           (Num (num_of_Z (now w))))
        (store_after_repair (now w) (idb w))
  | None => store_after_repair (now w) (idb w)
  end.

(** *** Scenarios for the reconciler *)

(** A mounted component over a working store that holds one locally drawn
    ellipse, stamped 200. *)
Definition local_ellipse : value :=
  Obj [("id", Str "e1"); ("type", Str "ellipse")].

Definition world_local_200 : World :=
  with_apiRef true
    (world_with_record (mkCanvasData (Arr [local_ellipse]) (Obj []) (Num 200))).

(** A remote document whose one element names only its type. *)
Definition bare_rectangle : value := Obj [("type", Str "rectangle")].

(** *** Invariants of handlers *)

(** The surface was handed a proper [Map] in this update. *)
Definition collaborators_ok (u : SceneUpdate) : Prop :=
  instanceofMap (get (upd_appState u) "collaborators") = true.

Definition scene_ok (w : World) : Prop := Forall collaborators_ok (scene_log w).

(** [m] keeps an invariant of the world, whether it resolves or rejects. *)
Definition preserves {A} (P : World -> Prop) (m : M A) : Prop :=
  forall w, P w -> P (snd (m w)).

(** *** Timers *)

Definition is_save (t : Timer) : bool :=
  match action t with DebouncedSave _ _ => true | _ => false end.

Definition is_poll (t : Timer) : bool :=
  match action t with PollTick => true | _ => false end.

(** The debounced writes still pending. *)
Definition saves (ts : list Timer) : list Timer := filter is_save ts.

(** The poll timers pending. *)
Definition polls (ts : list Timer) : list Timer := filter is_poll ts.

(** The record a debounced write leaves when it runs at time [t]. *)
Definition save_record (t : Z) (s : Timer) : CanvasData :=
  match action s with
  | DebouncedSave elements appState =>
      mkCanvasData elements appState (Num (num_of_Z t))
  | _ => mkCanvasData Undefined Undefined Undefined
  end.

(** No poll at any time would detect an update against the token [last]. *)
Definition remote_silent (env : Env) (last : value) : Prop :=
  forall t, poll_observation (remote env t) last = None.

(** The refs and clock the debouncer and the echo flag live on. *)
Definition core (w : World)
  : Z * bool * option positive * string * value * positive :=
  (now w, isUpdatingFromRestore w, saveTimeoutRef w, lastSaveDataRef w,
   lastUpdateTime w, next_timer w).

(** *** The debouncer *)

(** One change notification of the surface, with [elements] the array the
    surface reports. *)
Record Notification : Type := mkNotification {
  n_elements : list value;
  n_appState : value;
  n_files : value
}.

Definition notify (env : Env) (n : Notification) (w : World) : World :=
  run (onChange env (Arr (n_elements n)) (n_appState n) (n_files n)) w.

(** The serialisation [onChange] compares: [JSON.stringify] of
    [{ elements, appState: safeAppState, files: files || {} }]. *)
Definition dataHash (env : Env) (n : Notification) : string :=
  JSON_stringify env
    (Obj [ ("elements", Arr (n_elements n));
           ("appState", ensureCollaboratorsMap (n_appState n));
           ("files", JS.or (n_files n) (Obj [])) ]).

(** The timer a content-changing notification queues. *)
Definition save_timer (id : positive) (due_at : Z) (n : Notification) : Timer :=
  mkTimer id due_at Timeout
    (DebouncedSave (Arr (n_elements n)) (ensureCollaboratorsMap (n_appState n))).

(** The record that timer writes when it runs at [t]. *)
Definition written (n : Notification) (t : Z) : CanvasData :=
  mkCanvasData (Arr (n_elements n)) (ensureCollaboratorsMap (n_appState n))
    (Num (num_of_Z t)).

(** Every pending debounced write is the one [saveTimeoutRef] names. *)
Definition tracked (w : World) : Prop :=
  Forall (fun t => saveTimeoutRef w = Some (tid t) /\ kind t = Timeout)
    (saves (timers w)).

(** The debouncer holds exactly one pending write, for [n], due at
    [due_at]; the flag is down, the store works, the remote is silent. *)
Definition armed (env : Env) (n : Notification) (due_at : Z) (w : World) : Prop :=
  isUpdatingFromRestore w = false
  /\ healthy (idb w)
  /\ remote_silent env (lastUpdateTime w)
  /\ lastSaveDataRef w = dataHash env n
  /\ now w < due_at
  /\ exists id, saveTimeoutRef w = Some id
                /\ saves (timers w) = [save_timer id due_at n].

(** The debouncer holds no pending write. *)
Definition idle (env : Env) (w : World) : Prop :=
  isUpdatingFromRestore w = false
  /\ healthy (idb w)
  /\ remote_silent env (lastUpdateTime w)
  /\ saves (timers w) = [].

(** *** Pending polls *)

(** Every pending poll timer carries the handle the watch effect keeps. *)
Definition polls_under (h : option positive) (w : World) : Prop :=
  Forall (fun t => h = Some (tid t)) (polls (timers w)).

(** *** Bursts of edits *)

(** Notifications arriving one after another, each [gap] milliseconds
    after the one before. *)
Fixpoint burst (env : Env) (rest : list (nat * Notification)) (w : World)
  : World :=
  match rest with
  | [] => w
  | (gap, n) :: rest' => burst env rest' (notify env n (elapse env gap w))
  end.

(** Each notification serialises differently from the one before it,
    [prev] being the serialisation before the first. *)
Fixpoint changing (env : Env) (prev : string) (ns : list Notification) : Prop :=
  match ns with
  | [] => True
  | n :: ns' => dataHash env n <> prev /\ changing env (dataHash env n) ns'
  end.

(** The same platform with the remote service out of reach. *)
Definition offline (env : Env) : Env :=
  mkEnv (StringToNumber env) (ArrayToString env) (JSON_stringify env)
    (random_int env) (updateScene_throws env) (fun _ => NetworkError).

(** Three edits 50 ms and 120 ms apart on a freshly mounted component. *)
Definition sample_burst_first : Notification :=
  mkNotification [sample_rectangle] Undefined Undefined.

Definition sample_burst_rest : list (nat * Notification) :=
  [ (50%nat, mkNotification [sample_rectangle; local_ellipse] Undefined Undefined);
    (120%nat, mkNotification [local_ellipse] Undefined Undefined) ].

Definition sample_mounted : World :=
  with_apiRef true (initial (working_store None) sample_clock).

(** *** The poll channel *)

(** The times of the first [count] polls of a channel started at [t0],
    newest first. *)
Fixpoint poll_times (t0 : Z) (count : nat) : list Z :=
  match count with
  | O => []
  | S k => (t0 + POLL_PERIOD_MS * Z.of_nat (S k)) :: poll_times t0 k
  end.

(** What the handlers leave alone: the clock, the fetch log and the poll
    timers. *)
Definition poll_view (w : World) : Z * list Z * list Timer :=
  (now w, fetch_log w, polls (timers w)).

(** The timer an interval leaves behind when it fires. *)
Definition rearmed (t : Timer) : list Timer :=
  match kind t with
  | Timeout => []
  | Interval p => [mkTimer (tid t) (due t + p) (Interval p) (action t)]
  end.

(** The channel started at [t0] has polled [count] times and its interval
    is queued for the next period. *)
Definition polling (t0 : Z) (base : list Z) (count : nat) (w : World) : Prop :=
  t0 + POLL_PERIOD_MS * Z.of_nat count <= now w
  /\ now w < t0 + POLL_PERIOD_MS * (Z.of_nat count + 1)
  /\ fetch_log w = poll_times t0 count ++ base
  /\ exists id,
       polls (timers w) =
       [mkTimer id (t0 + POLL_PERIOD_MS * (Z.of_nat count + 1))
          (Interval POLL_PERIOD_MS) PollTick].

(** *** Scenarios for the watch channel and the echo flag *)

(** A channel that last forwarded token 150, facing a remote that now
    reports one rectangle under token 100. *)
Definition world_seen_150 : World :=
  with_lastUpdateTime (Num 150) sample_mounted.

(** The surface's notification after it was handed [sample_rectangle]. *)
Definition echo_of_rectangle : Event :=
  Change (Arr [sample_rectangle]) (Obj [("collaborators", MapV [])]) (Obj []).

(** *** The echo window *)

Definition is_clear (t : Timer) : bool :=
  match action t with ClearRestoreFlag => true | _ => false end.

(** The flag resets still pending. *)
Definition clears (ts : list Timer) : list Timer := filter is_clear ts.

(** What the echo flag lives on. *)
Definition flag_view (w : World) : Z * bool * value * list Timer :=
  (now w, isUpdatingFromRestore w, lastUpdateTime w, clears (timers w)).

(** The flag is up and its one reset is due at [due_at]. *)
Definition suppressing (env : Env) (due_at : Z) (w : World) : Prop :=
  isUpdatingFromRestore w = true
  /\ remote_silent env (lastUpdateTime w)
  /\ now w < due_at
  /\ exists id, clears (timers w) = [mkTimer id due_at Timeout ClearRestoreFlag].

(** Two remote observations 50 ms apart, the surface's echo of the second
    70 ms after it. *)
Definition overlapping_applies : list Event :=
  [ Draw (mkDrawPayload (Arr [sample_rectangle]) Undefined Undefined);
    Elapse 50;
    Draw (mkDrawPayload (Arr [local_ellipse]) Undefined Undefined);
    Elapse 70 ].

Definition echo_of_ellipse : Event :=
  Change (Arr [local_ellipse]) (Obj [("collaborators", MapV [])]) (Obj []).

(** *** Laws of the store *)

(** The connection is there or can be made: [this.db] is set, or
    [indexedDB.open] succeeds. *)
Definition openable (d : IDB) : bool := db d || negb (open_fails d).

(** What the outside can tell of a store: its record and what was written. *)
Definition contents (d : IDB) : option CanvasData * list CanvasData :=
  (current d, put_log d).

(** *** The guarded save *)

(** A save would go through: the connection can be made and the [put]
    succeeds. *)
Definition writable (d : IDB) : bool := openable d && negb (put_fails d).

(** *** What normalisation keeps *)

(** The keys the normaliser writes: the common ones, then those of text,
    of arrows and lines, and of free drawings. *)
Definition normaliser_keys : list string :=
  [ "id"; "seed"; "versionNonce"; "groupIds"; "boundElements"; "updated";
    "link"; "locked"; "frameId"; "strokeColor"; "backgroundColor";
    "isDeleted"; "opacity"; "roughness"; "strokeWidth"; "angle"; "version";
    "text"; "fontSize"; "fontFamily"; "textAlign"; "verticalAlign";
    "containerId"; "originalText"; "lineHeight";
    "points"; "lastCommittedPoint"; "startBinding"; "endBinding";
    "startArrowhead"; "endArrowhead";
    "pressures"; "simulatePressure" ].

(** *** A surface that refuses *)

(** The second attempt of [handleCanvasUpdate]: the same elements and app
    state, without the [files] key. *)
Definition retry_update (env : Env) (payload : DrawPayload) (w : World)
  : SceneUpdate :=
  mkSceneUpdate
    (Arr (fst (normalizeElements env (now w) (rand_used w)
                 (payload_elements payload) 0)))
    (ensureCollaboratorsMap (p_appState payload))
    Undefined.

(** The surface throws on whatever [handleCanvasUpdate] would hand it for
    this payload: on the emptying update, or on both attempts. *)
Definition refuses (env : Env) (payload : DrawPayload) (w : World) : Prop :=
  match payload_elements payload with
  | [] => updateScene_throws env (emptying_update payload) = true
  | _ :: _ =>
      updateScene_throws env (normalized_update env payload w) = true
      /\ updateScene_throws env (retry_update env payload w) = true
  end.

(** A surface that throws on every update. *)
Definition refusing_env : Env :=
  mkEnv (fun _ => PrimFloat.nan) (fun _ => "") sample_stringify
    (fun k => Z.of_nat k + 7) (fun _ => true) (fun _ => NetworkError).

(** A surface that throws on an update that carries a truthy [files]. *)
Definition files_averse_env : Env :=
  mkEnv (fun _ => PrimFloat.nan) (fun _ => "") sample_stringify
    (fun k => Z.of_nat k + 7) (fun u => truthy (upd_files u))
    (fun _ => NetworkError).

(** *** A store that refuses writes *)

(** A store that can be opened and read, and refuses every [put]. *)
Definition read_only_store (record : option CanvasData) : IDB :=
  mkIDB false false true false false record [].

(** *** Timer handles *)

(** The handles of the pending timers, and of a batch [rest] that has been
    taken off the queue to be run, are distinct and were all handed out
    before. *)
Definition handles_ok (rest : list Timer) (w : World) : Prop :=
  NoDup (map tid (timers w ++ rest))
  /\ Forall (fun t => (tid t < next_timer w)%positive) (timers w ++ rest).

(** *** Unmount *)

Definition is_mount (e : Event) : bool :=
  match e with Mount _ => true | _ => false end.

(** Nothing is pending but resets of the echo flag. *)
Definition only_resets (w : World) : Prop :=
  Forall (fun t => action t = ClearRestoreFlag) (timers w).

(** What the poll callback does once [await fetch(...)] has returned
    [response]: the rest of its [try] block, under the same [catch]. *)
Definition pollAnswered (env : Env) (response : bool * option value) : M unit :=
  try_catch
    (if fst response then
       data <- json (snd response) ;;
       canvas <- member data "canvas" ;;
       last <- gets lastUpdateTime ;;
       if poll_detects_update canvas last then
         modify (with_lastUpdateTime (get canvas "updated_at")) ;;
         handleCanvasUpdate env
           (mkDrawPayload (get canvas "elements") (get canvas "app_state")
              (get canvas "files"))
       else ret tt
     else ret tt)
    (ret tt).

(** A minute in the life of the component in a browser: the API is handed
    over, a document is pushed, a poll fires, the user edits. *)
Definition sample_session : list Event :=
  [ ApiReady;
    Draw (mkDrawPayload (Arr [sample_rectangle]) Undefined Undefined);
    Elapse 1200;
    Change (Arr [sample_rectangle; local_ellipse]) Undefined Undefined;
    Elapse 100 ].

(** The answer to a poll sent before the cleanups, reporting the token
    [v2]. *)
Definition late_response : bool * option value :=
  (true,
   Some (Obj [("canvas",
               Obj [("elements", Arr [local_ellipse]); ("app_state", Obj []);
                    ("files", Obj []); ("updated_at", Str "v2")])])).

(** *** Change notifications *)

(** What [[...v]] accepts. *)
Definition iterable (v : value) : bool :=
  match v with Arr _ | Str _ | MapV _ => true | _ => false end.

(** *** Inside Tauri *)

(** What the request count depends on: the log of requests and whether
    start-up has run. *)
Definition asked (w : World) : list Z * bool := (fetch_log w, isInitialized w).

(** *** The echo flag comes down *)

(** If the flag is up, a reset of it is on its way: pending and due within
    the echo window, or in the batch being run. *)
Definition reset_pending (rest : list Timer) (w : World) : Prop :=
  isUpdatingFromRestore w = true ->
  exists t,
    action t = ClearRestoreFlag
    /\ due t <= now w + ECHO_WINDOW_MS
    /\ ((In t (timers w) /\ now w < due t) \/ In t rest).

(** * Properties *)

Open Scope list_scope.

(** ** Property lists *)

Lemma lookup_set (k k' : string) (v : value) (ps : props) :
  lookup k (JS.set k' v ps) = if String.eqb k k' then Some v else lookup k ps.
Proof.
  induction ps as [|[k0 v0] ps IH]; simpl.
  - destruct (String.eqb k k'); reflexivity.
  - destruct (String.eqb_spec k' k0) as [->|Hne]; simpl.
    + destruct (String.eqb k k0); reflexivity.
    + destruct (String.eqb_spec k k0) as [->|Hne'].
      * destruct (String.eqb_spec k0 k') as [->|_]; [congruence|reflexivity].
      * exact IH.
Qed.

(** After a run of writes, a key reads as its last write, or as before the
    run when no write names it. *)
Lemma lookup_assign (k : string) (fields o : props) :
  lookup k (assign fields o) =
  match lookup k (rev fields) with
  | Some v => Some v
  | None => lookup k o
  end.
Proof.
  unfold assign. revert o.
  induction fields as [|[k' v'] fields IH]; intros o; simpl; [reflexivity|].
  rewrite IH, lookup_set.
  assert (Happ : forall l1 l2 : props, lookup k (l1 ++ l2) =
            match lookup k l1 with Some v => Some v | None => lookup k l2 end).
  { induction l1 as [|[a b] l1 IHl]; intros l2; simpl; [reflexivity|].
    destruct (String.eqb k a); [reflexivity|apply IHl]. }
  rewrite Happ. simpl.
  destruct (lookup k (rev fields)); [reflexivity|].
  destruct (String.eqb k k'); reflexivity.
Qed.

Lemma get_assign (k : string) (fields o : props) :
  get (Obj (assign fields o)) k =
  match lookup k (rev fields) with
  | Some v => v
  | None => get (Obj o) k
  end.
Proof.
  simpl. rewrite lookup_assign.
  destruct (lookup k (rev fields)); reflexivity.
Qed.

(** ** The normaliser's falsy-as-missing defaults *)

Lemma number_or_falsy (env : Env) (f d : float) :
  truthy (Num f) = false -> number_or env (Num f) d = Num d.
Proof.
  intros H. unfold number_or, JS.or. simpl Number. rewrite H. reflexivity.
Qed.

Lemma zero_is_falsy (f : float) :
  PrimFloat.eqb f 0 = true -> truthy (Num f) = false.
Proof. intros H. simpl. rewrite H. reflexivity. Qed.

(** The common fields of a normalised element do not depend on the
    type-specific additions: the text, arrow/line and freedraw blocks write
    other keys. *)
Lemma normalizeElement_common (env : Env) (now_ : Z) (used : nat)
    (element : value) (index : nat) (k : string) (d : float) :
  In (k, d) [("opacity", 100%float); ("roughness", 1%float);
             ("strokeWidth", 1%float); ("angle", 0%float);
             ("version", 1%float)] ->
  get (fst (normalizeElement env now_ used element index)) k =
  number_or env (get (Obj (spread element)) k) d.
Proof.
  intros Hin. unfold normalizeElement.
  destruct (or_random env (get (Obj (spread element)) "seed") used) as [seed u1].
  destruct (or_random env (get (Obj (spread element)) "versionNonce") u1)
    as [nonce u2].
  cbv zeta.
  set (ty := get (Obj (spread element)) "type").
  simpl in Hin.
  destruct (is_str ty "text"), (is_str ty "arrow" || is_str ty "line"),
    (is_str ty "freedraw");
    cbn [fst];
    repeat (destruct Hin as [Hin|Hin];
            [injection Hin as <- <-; repeat rewrite get_assign; reflexivity|]);
    contradiction.
Qed.

(** ** The durable store *)

Import indexedDBService.

Ltac unfold_m :=
  unfold bind, ret, throw, try_catch, modify, gets, run in *.

Lemma set_db_idem (d : IDB) : db d = true -> set_db true d = d.
Proof. destruct d; simpl; intros ->; reflexivity. Qed.

Lemma with_idb_same (w : World) : with_idb (idb w) w = w.
Proof. destruct w; reflexivity. Qed.

Lemma ensure_db_ok (w : World) :
  db (idb w) = true \/ open_fails (idb w) = false ->
  ensure_db w = (Ok tt, with_idb (set_db true (idb w)) w).
Proof.
  intros H. unfold ensure_db, init.
  destruct (db (idb w)) eqn:Hdb.
  - rewrite set_db_idem by assumption. rewrite with_idb_same. reflexivity.
  - destruct H as [H|H]; [discriminate|]. rewrite H. reflexivity.
Qed.

Lemma canvasData_eta (r : CanvasData) :
  mkCanvasData (cd_elements r) (cd_appState r) (cd_timestamp r) = r.
Proof. destruct r; reflexivity. Qed.

Lemma loadCanvasData_readable (w : World) :
  readable (idb w) = true ->
  loadCanvasData w = (Ok (current (idb w)), with_idb (set_db true (idb w)) w).
Proof.
  unfold readable. intros H.
  apply andb_true_iff in H as [Hopen Hget].
  apply negb_true_iff in Hget.
  unfold loadCanvasData, bind.
  rewrite ensure_db_ok.
  - simpl. rewrite Hget.
    destruct (current (idb w)) as [r|]; [rewrite canvasData_eta|]; reflexivity.
  - apply orb_true_iff in Hopen as [H|H]; [left; exact H|right].
    now apply negb_true_iff in H.
Qed.

Lemma loadCanvasData_unreadable (w : World) :
  readable (idb w) = false ->
  exists w', loadCanvasData w = (Throw, w') /\
             current (idb w') = current (idb w) /\
             put_log (idb w') = put_log (idb w).
Proof.
  unfold readable. intros H.
  unfold loadCanvasData, bind, ensure_db, init.
  destruct (db (idb w)) eqn:Hdb; simpl in H.
  - apply negb_false_iff in H. rewrite H. eauto.
  - destruct (open_fails (idb w)) eqn:Hop; simpl in H.
    + eauto.
    + apply negb_false_iff in H. simpl. rewrite H. simpl. eauto.
Qed.

Lemma saveCanvasData_healthy (elements appState : value) (w : World) :
  healthy (idb w) ->
  saveCanvasData elements appState w =
  (Ok tt,
   with_idb (put_record (mkCanvasData elements appState (Num (num_of_Z (now w))))
               (set_db true (idb w))) w).
Proof.
  intros (Hop & _ & Hput & _).
  unfold saveCanvasData, bind.
  rewrite ensure_db_ok by (right; exact Hop).
  simpl. rewrite Hput. destruct w; reflexivity.
Qed.

Lemma clearCanvasData_healthy (w : World) :
  healthy (idb w) ->
  clearCanvasData w = (Ok tt, with_idb (delete_record (set_db true (idb w))) w).
Proof.
  intros (Hop & _ & _ & Hdel).
  unfold clearCanvasData, bind.
  rewrite ensure_db_ok by (right; exact Hop).
  simpl. rewrite Hdel. destruct w; reflexivity.
Qed.

Lemma healthy_readable (d : IDB) : healthy d -> readable d = true.
Proof.
  intros (Hop & Hget & _). unfold readable. rewrite Hop, Hget.
  now rewrite orb_true_r.
Qed.

(** C10: an incoming element whose [opacity] is present and equal to 0
    leaves normalisation with opacity 100 (the falsy value is read as
    missing), so its transparency is never preserved; likewise a [version]
    equal to 0 becomes 1. *)
Theorem normalize_zero_opacity_and_version (env : Env) (now_ : Z) (used : nat)
    (element : value) (index : nat) (zero : float) :
  PrimFloat.eqb zero 0 = true ->
  (lookup "opacity" (spread element) = Some (Num zero) ->
   get (fst (normalizeElement env now_ used element index)) "opacity" = Num 100
   /\ get (fst (normalizeElement env now_ used element index)) "opacity"
      <> Num zero)
  /\
  (lookup "version" (spread element) = Some (Num zero) ->
   get (fst (normalizeElement env now_ used element index)) "version" = Num 1).
Proof.
  intros Hzero. split.
  - intros Hop.
    rewrite (@normalizeElement_common env now_ used element index "opacity" 100)
      by (simpl; auto).
    simpl get. rewrite Hop.
    rewrite number_or_falsy by now apply zero_is_falsy.
    split; [reflexivity|].
    intros Heq.
    apply (f_equal (fun v => match v with
                             | Num x => PrimFloat.eqb x 0
                             | _ => false
                             end)) in Heq.
    rewrite Hzero in Heq. vm_compute in Heq. discriminate.
  - intros Hv.
    rewrite (@normalizeElement_common env now_ used element index "version" 1)
      by (simpl; auto 10).
    simpl get. rewrite Hv.
    now rewrite number_or_falsy by now apply zero_is_falsy.
Qed.

Lemma normalize_zero_opacity_and_version_witness :
  let element :=
    Obj [("type", Str "rectangle"); ("opacity", Num 0); ("version", Num 0)] in
  let out := fst (normalizeElement (sample_env NetworkError) sample_clock 0 element 0) in
  get out "opacity" = Num 100 /\ get out "version" = Num 1.
Proof.
  cbv zeta.
  destruct (@normalize_zero_opacity_and_version (sample_env NetworkError)
              sample_clock 0
              (Obj [("type", Str "rectangle"); ("opacity", Num 0);
                    ("version", Num 0)]) 0 0%float eq_refl) as [Hop Hv].
  split; [exact (proj1 (Hop eq_refl))|exact (Hv eq_refl)].
Defined.

(** ** [shouldUpdateData] *)

Lemma gt_irrefl (t : float) : JS.gt t t = false.
Proof.
  unfold JS.gt. rewrite FloatAxioms.ltb_spec. unfold SFltb.
  destruct (Prim2SF t) as [s|s| |s m e]; simpl.
  - reflexivity.
  - destruct s; reflexivity.
  - reflexivity.
  - destruct s; rewrite Z.compare_refl, Pos.compare_refl; reflexivity.
Qed.

(** What [shouldUpdateData] answers, by cases on the store. *)
Lemma shouldUpdateData_value (env : Env) (newTimestamp : float) (w : World) :
  fst (shouldUpdateData env newTimestamp w) =
  Ok (negb (readable (idb w))
      || match current (idb w) with
         | None => true
         | Some r =>
             negb (truthy (cd_timestamp r))
             || JS.gt newTimestamp (Number env (cd_timestamp r))
         end).
Proof.
  unfold shouldUpdateData, getLastUpdateTime, try_catch, bind.
  destruct (readable (idb w)) eqn:Hr.
  - rewrite loadCanvasData_readable by assumption. simpl.
    destruct (current (idb w)) as [r|]; simpl; [|reflexivity].
    destruct (truthy (cd_timestamp r)); reflexivity.
  - destruct (loadCanvasData_unreadable w Hr) as (w' & -> & _). reflexivity.
Qed.

(** C6 (as the code has it): [shouldUpdateData] never rejects; it answers
    true exactly when the cache cannot be read, no record is stored, the
    stored timestamp is falsy, or [newTimestamp] is strictly greater than
    the stored timestamp; on a readable cache whose record carries a
    non-zero number, a [newTimestamp] equal to it answers false. *)
Theorem shouldUpdateData_characterised (env : Env) (newTimestamp : float)
    (w : World) :
  (exists b, fst (shouldUpdateData env newTimestamp w) = Ok b)
  /\
  (fst (shouldUpdateData env newTimestamp w) = Ok true <->
   readable (idb w) = false
   \/ current (idb w) = None
   \/ exists r, current (idb w) = Some r
        /\ (truthy (cd_timestamp r) = false
            \/ JS.gt newTimestamp (Number env (cd_timestamp r)) = true))
  /\
  (forall r, readable (idb w) = true ->
     current (idb w) = Some r ->
     cd_timestamp r = Num newTimestamp ->
     truthy (Num newTimestamp) = true ->
     fst (shouldUpdateData env newTimestamp w) = Ok false).
Proof.
  rewrite shouldUpdateData_value.
  split; [eauto|split].
  - split.
    + intros H. injection H as H.
      destruct (readable (idb w)); [|now left]. simpl in H.
      destruct (current (idb w)) as [r|]; [|now right; left].
      right; right. exists r. split; [reflexivity|].
      apply orb_true_iff in H as [H|H]; [left|right; exact H].
      now apply negb_true_iff in H.
    + intros [H|[H|(r & H & Hr)]].
      * rewrite H. reflexivity.
      * rewrite H. now rewrite orb_true_r.
      * rewrite H. destruct Hr as [Hr|Hr]; rewrite Hr;
          simpl; now rewrite ?orb_true_r.
  - intros r Hread Hcur Hts Htruthy.
    rewrite Hread, Hcur, Hts, Htruthy. simpl Number.
    now rewrite gt_irrefl.
Qed.

(** C6 (as stated) fails: with a record stamped 200 in a cache that cannot
    be read, [shouldUpdateData(100)] answers true although a record exists
    and 100 is not greater than 200; and with a record stamped 0,
    [shouldUpdateData(0)] answers true on a tie. *)
Lemma shouldUpdateData_not_only_newer :
  (fst (shouldUpdateData (sample_env NetworkError) 100 world_unreadable_200)
     = Ok true
   /\ current (idb world_unreadable_200) <> None
   /\ JS.gt 100 200 = false)
  /\
  (fst (shouldUpdateData (sample_env NetworkError) 0 world_stamped_0) = Ok true
   /\ current (idb world_stamped_0)
      = Some (mkCanvasData (Arr []) (Obj []) (Num 0))).
Proof.
  repeat split; try reflexivity. discriminate.
Qed.

(** ** [repairData] *)

(** A handler whose [catch] cannot throw does not throw. *)
Lemma try_catch_total {A} (body handler : M A) :
  (forall w, exists a w', handler w = (Ok a, w')) ->
  forall w, exists a w', try_catch body handler w = (Ok a, w').
Proof.
  intros Hh w. unfold try_catch.
  destruct (body w) as [[a|] w']; eauto.
Qed.

Lemma ret_total {A} (a : A) : forall w, exists a' w', ret a w = (Ok a', w').
Proof. intros w. unfold ret. eauto. Qed.

Lemma repairData_total (w : World) :
  exists b w', repairData w = (Ok b, w').
Proof.
  unfold repairData.
  apply try_catch_total. apply try_catch_total. apply ret_total.
Qed.

Lemma repairData_record (w : World) (r : CanvasData) :
  healthy (idb w) ->
  current (idb w) = Some r ->
  repairData w =
  (Ok true,
   with_idb
     (put_record
        (mkCanvasData
           (if isArray (cd_elements r) then cd_elements r else Arr [])
           (if appState_rejected (cd_appState r) then Obj [] else cd_appState r)
           (Num (num_of_Z (now w))))
        (set_db true (idb w))) w).
Proof.
  intros Hh Hcur.
  unfold repairData, try_catch, bind at 1.
  rewrite loadCanvasData_readable by now apply healthy_readable.
  rewrite Hcur. unfold gets, bind at 1.
  set (w1 := with_idb (set_db true (idb w)) w).
  assert (Hh1 : healthy (idb w1)) by (destruct w; exact Hh).
  unfold appState_rejected.
  destruct (isArray (cd_elements r)) eqn:E1;
    destruct (truthy (cd_appState r)) eqn:E2;
    destruct (String.eqb (typeof (cd_appState r)) "object") eqn:E3;
    destruct (truthy (cd_timestamp r)) eqn:E4;
    destruct (String.eqb (typeof (cd_timestamp r)) "number") eqn:E5;
    repeat (cbn [negb orb cd_elements cd_appState cd_timestamp];
            rewrite ?E1, ?E2, ?E3, ?E4, ?E5);
    unfold bind, ret;
    rewrite saveCanvasData_healthy by exact Hh1;
    subst w1; destruct w; reflexivity.
Qed.




(** ** What one remote observation does *)

Lemma applyUnderFlag_accepted (env : Env) (u : SceneUpdate) (w : World) :
  updateScene_throws env u = false ->
  applyUnderFlag env u w = (Ok tt, applied_under_flag u w).
Proof.
  intros H. unfold applyUnderFlag, updateScene, setTimeout.
  unfold_m. simpl. rewrite H. destruct w; reflexivity.
Qed.

Lemma applyUnderFlag_refused (env : Env) (u : SceneUpdate) (w : World) :
  updateScene_throws env u = true ->
  applyUnderFlag env u w = (Throw, with_flag true w).
Proof.
  intros H. unfold applyUnderFlag, updateScene. unfold_m. simpl.
  rewrite H. reflexivity.
Qed.

Lemma handleCanvasUpdate_nonempty (env : Env) (payload : DrawPayload) (w : World) :
  apiRef w = true ->
  payload_elements payload <> [] ->
  updateScene_throws env (normalized_update env payload w) = false ->
  healthy (idb w) ->
  let processed :=
    normalizeElements env (now w) (rand_used w) (payload_elements payload) 0 in
  let record :=
    mkCanvasData (Arr (fst processed)) (JS.or (p_appState payload) (Obj []))
      (Num (num_of_Z (now w))) in
  handleCanvasUpdate env payload w =
  (Ok tt,
   with_idb (put_record record (set_db true (idb w)))
     (applied_under_flag (normalized_update env payload w)
        (with_rand_used (snd processed) w))).
Proof.
  intros Hapi Hne Hacc Hh. cbv zeta.
  unfold handleCanvasUpdate, normalized_update, payload_elements in *.
  rewrite Hapi.
  destruct (p_elements payload) as [| | | | |l| |]; try congruence.
  destruct l as [|e l]; [congruence|].
  assert (Hlen : (0 <? Z.of_nat (List.length (e :: l))) = true).
  { apply Z.ltb_lt. simpl List.length. lia. }
  rewrite Hlen.
  unfold try_catch at 1, bind at 1, gets at 1, bind at 1, gets at 1.
  destruct (normalizeElements env (now w) (rand_used w) (e :: l) 0)
    as [processed used'] eqn:Hn.
  simpl fst in *. simpl snd.
  unfold bind at 1, modify at 1.
  unfold try_catch at 1, bind at 1.
  rewrite applyUnderFlag_accepted by exact Hacc.
  unfold try_catch.
  rewrite saveCanvasData_healthy by (destruct w; exact Hh).
  destruct w; reflexivity.
Qed.

Lemma handleCanvasUpdate_empty (env : Env) (payload : DrawPayload) (w : World) :
  apiRef w = true ->
  payload_elements payload = [] ->
  updateScene_throws env (emptying_update payload) = false ->
  healthy (idb w) ->
  handleCanvasUpdate env payload w =
  (Ok tt,
   with_idb (delete_record (set_db true (idb w)))
     (applied_under_flag (emptying_update payload) w)).
Proof.
  intros Hapi He Hacc Hh.
  unfold handleCanvasUpdate, emptying_update in *.
  rewrite Hapi. fold (payload_elements payload). rewrite He.
  change (0 <? Z.of_nat (List.length (@nil value))) with false. cbv iota.
  unfold try_catch at 1, bind at 1.
  rewrite applyUnderFlag_accepted by exact Hacc.
  unfold try_catch.
  rewrite clearCanvasData_healthy by (destruct w; exact Hh).
  destruct w; reflexivity.
Qed.

(** [handleCanvasUpdate] never rejects. *)
Lemma handleCanvasUpdate_total (env : Env) (payload : DrawPayload) (w : World) :
  fst (handleCanvasUpdate env payload w) = Ok tt.
Proof.
  unfold handleCanvasUpdate. destruct (apiRef w); [|reflexivity].
  unfold try_catch, ret.
  match goal with |- fst (match ?m with _ => _ end) = _ =>
    destruct m as [[[]|] w'] end; reflexivity.
Qed.

(** ** The poll callback *)

Lemma pollTick_value (env : Env) (w : World) :
  let logged := with_fetch_log (now w :: fetch_log w) w in
  pollTick env w =
  match poll_observation (remote env (now w)) (lastUpdateTime w) with
  | Some (token, payload) =>
      handleCanvasUpdate env payload (with_lastUpdateTime token logged)
  | None => (Ok tt, logged)
  end.
Proof.
  cbv zeta. unfold pollTick, fetch_canvas, poll_observation.
  unfold try_catch at 1, bind at 1.
  destruct (remote env (now w)) as [|ok body]; [reflexivity|].
  simpl fst. simpl snd. destruct ok; [|reflexivity].
  destruct body as [data|]; [|reflexivity].
  unfold json, bind at 1, ret at 1.
  destruct data; unfold member, bind, throw, ret, gets, modify;
    try reflexivity.
  all: cbn [fst snd]; cbv beta iota;
    match goal with
    | |- context [lastUpdateTime (with_fetch_log ?l ?w0)] =>
        change (lastUpdateTime (with_fetch_log l w0)) with (lastUpdateTime w0)
    end;
    match goal with
    | |- context [poll_detects_update ?c ?l] =>
        destruct (poll_detects_update c l)
    end; try reflexivity;
    match goal with
    | |- context [handleCanvasUpdate ?e ?p ?w0] =>
        pose proof (handleCanvasUpdate_total e p w0) as Ht;
        destruct (handleCanvasUpdate e p w0) as [[[]|] w']
    end; simpl in Ht; solve [reflexivity | discriminate].
Qed.

Lemma pollTick_total (env : Env) (w : World) : fst (pollTick env w) = Ok tt.
Proof.
  rewrite pollTick_value.
  destruct (poll_observation _ _) as [[token payload]|]; [|reflexivity].
  apply handleCanvasUpdate_total.
Qed.

(** ** Start-up *)

Lemma backend_document_truthy (fr : FetchResult) (canvas : value) :
  backend_document fr = Some canvas -> truthy canvas = true.
Proof.
  unfold backend_document.
  destruct fr as [|[] [data|]]; try discriminate.
  destruct data; try discriminate;
    match goal with |- context [truthy ?c && _] =>
      destruct (truthy c) eqn:E end; simpl; try discriminate;
    match goal with |- context [if ?c then _ else _] =>
      destruct c end; try discriminate;
    intros H; injection H as <-; exact E.
Qed.

Lemma fetchBackendData_value (env : Env) (w : World) :
  healthy (idb w) ->
  let logged := with_fetch_log (now w :: fetch_log w) w in
  fetchBackendData env w =
  match backend_document (remote env (now w)) with
  | Some canvas =>
      (Ok canvas,
       with_idb
         (put_record
            (mkCanvasData (get canvas "elements")
               (JS.or (get canvas "appState") (Obj []))
               (Num (num_of_Z (now w))))
            (set_db true (idb w))) logged)
  | None => (Ok Null, logged)
  end.
Proof.
  intros Hh. cbv zeta.
  unfold fetchBackendData, fetch_canvas, backend_document.
  unfold try_catch at 1, bind at 1.
  destruct (remote env (now w)) as [|ok body]; [reflexivity|].
  cbn [fst snd]. destruct ok; [|reflexivity].
  destruct body as [data|]; [|reflexivity].
  unfold json, bind at 1, ret at 1.
  destruct data; unfold member, bind at 1, throw, ret at 1; try reflexivity;
    cbv beta iota;
    match goal with |- context [truthy ?c && truthy ?e] =>
      destruct (truthy c && truthy e) end; try reflexivity;
    unfold bind, try_catch, ret;
    rewrite saveCanvasData_healthy by (destruct w; exact Hh);
    destruct w; reflexivity.
Qed.

Lemma repairData_healthy (w : World) :
  healthy (idb w) ->
  repairData w = (Ok true, with_idb (store_after_repair (now w) (idb w)) w).
Proof.
  intros Hh. unfold store_after_repair.
  destruct (current (idb w)) as [r|] eqn:Hcur.
  - exact (repairData_record w r Hh Hcur).
  - unfold repairData, try_catch, bind.
    rewrite loadCanvasData_readable by now apply healthy_readable.
    rewrite Hcur. reflexivity.
Qed.

Lemma initializeStorage_value (env : Env) (w : World) :
  apiRef w = true ->
  healthy (idb w) ->
  (forall u, restore_update env w = Some u -> updateScene_throws env u = false) ->
  initializeStorage env w =
  (Ok tt,
   with_scene_log
     (match restore_update env w with
      | Some u => u :: scene_log w
      | None => scene_log w
      end)
     (with_idb (restore_store env w)
        (with_fetch_log (now w :: fetch_log w) w))).
Proof.
  intros Hapi Hh Hacc.
  unfold initializeStorage.
  unfold try_catch at 1, bind at 1.
  unfold init. destruct Hh as (Hop & Hget & Hput & Hdel). rewrite Hop.
  unfold bind at 1.
  set (w1 := with_idb (set_db true (idb w)) w).
  assert (Hh1 : healthy (idb w1)) by (destruct w; repeat split; assumption).
  rewrite repairData_healthy by exact Hh1.
  set (w2 := with_idb (store_after_repair (now w1) (idb w1)) w1).
  assert (Hh2 : healthy (idb w2)).
  { subst w2 w1. destruct w as [n d]; destruct d. simpl in *.
    unfold store_after_repair. simpl. destruct current0; repeat split; assumption. }
  unfold bind at 1.
  rewrite fetchBackendData_value by exact Hh2.
  change (now w2) with (now w).
  unfold restore_update, restore_store in *.
  destruct (backend_document (remote env (now w))) as [canvas|] eqn:Hb.
  - rewrite (backend_document_truthy _ _ Hb).
    unfold bind, ret, gets. cbn [apiRef]. 
    replace (apiRef _) with true by (destruct w; simpl in *; congruence).
    unfold updateScene. cbn [upd_elements upd_appState upd_files].
    rewrite (Hacc _ eq_refl).
    subst w2 w1. destruct w as [n d]; destruct d; simpl in *.
    unfold store_after_repair. simpl. destruct current0; reflexivity.
  - cbn [truthy]. unfold bind at 1, bind at 1.
    set (w3 := with_fetch_log (now w :: fetch_log w2) w2).
    assert (Hh3 : healthy (idb w3)) by exact Hh2.
    rewrite loadCanvasData_readable by (apply healthy_readable; exact Hh3).
    assert (Hcur3 : current (idb w3) =
              match current (idb w) with
              | Some r => Some (repaired (now w) r)
              | None => None
              end).
    { subst w3 w2 w1. destruct w as [n d]; destruct d; simpl in *.
      unfold store_after_repair. simpl. destruct current0; reflexivity. }
    rewrite Hcur3.
    destruct (current (idb w)) as [r|] eqn:Hcur.
    + assert (Ht : truthy (cd_elements (repaired (now w) r)) = true).
      { simpl. destruct (cd_elements r); reflexivity. }
      rewrite Ht. unfold bind, ret, gets.
      replace (apiRef _) with true by (destruct w; simpl in *; congruence).
      unfold updateScene. cbn [upd_elements upd_appState upd_files JS.or truthy].
      rewrite (Hacc _ eq_refl).
      subst w3 w2 w1. destruct w as [n d]; destruct d; simpl in *.
      unfold store_after_repair. simpl. rewrite Hcur. reflexivity.
    + unfold bind, ret, gets.
      subst w3 w2 w1. destruct w as [n d]; destruct d; simpl in *.
      unfold store_after_repair. simpl. rewrite Hcur. reflexivity.
Qed.

(** ** Remote observations against the local timestamp *)

(** C1 (as the code has it): with the API handle stored, a store whose
    requests succeed and a surface that takes the update, an observation
    handed to [handleCanvasUpdate] is applied and persisted whatever the
    local cache holds; [shouldUpdateData] and the stored timestamp are not
    consulted.  With at least one element the normalised elements reach
    the surface and replace the cached record, stamped with the current
    time; with none the surface is emptied and the cached record deleted. *)
Theorem remote_observation_applied_unconditionally (env : Env)
    (payload : DrawPayload) (w : World) :
  apiRef w = true ->
  healthy (idb w) ->
  (forall u, updateScene_throws env u = false) ->
  let w' := run (handleCanvasUpdate env payload) w in
  let processed :=
    fst (normalizeElements env (now w) (rand_used w)
           (payload_elements payload) 0) in
  let record :=
    mkCanvasData (Arr processed) (JS.or (p_appState payload) (Obj []))
      (Num (num_of_Z (now w))) in
  (payload_elements payload <> [] ->
   surface_elements w' = Arr processed
   /\ scene_log w' = normalized_update env payload w :: scene_log w
   /\ current (idb w') = Some record
   /\ put_log (idb w') = record :: put_log (idb w))
  /\
  (payload_elements payload = [] ->
   surface_elements w' = Arr []
   /\ scene_log w' = emptying_update payload :: scene_log w
   /\ current (idb w') = None
   /\ put_log (idb w') = put_log (idb w)).
Proof.
  intros Hapi Hh Hacc. cbv zeta. unfold run. split; intros He.
  - rewrite (handleCanvasUpdate_nonempty env payload w Hapi He (Hacc _) Hh).
    repeat split.
  - rewrite (handleCanvasUpdate_empty env payload w Hapi He (Hacc _) Hh).
    repeat split.
Qed.

Lemma remote_observation_applied_unconditionally_witness :
  surface_elements
    (run (handleCanvasUpdate (sample_env NetworkError)
            (mkDrawPayload (Arr [sample_rectangle]) Undefined Undefined))
       world_local_200)
  = Arr (fst (normalizeElements (sample_env NetworkError) sample_clock 0
                [sample_rectangle] 0))
  /\
  current (idb (run (handleCanvasUpdate (sample_env NetworkError)
                       (mkDrawPayload (Arr []) Undefined Undefined))
                  world_local_200)) = None.
Proof.
  pose proof (@remote_observation_applied_unconditionally
                (sample_env NetworkError)
                (mkDrawPayload (Arr [sample_rectangle]) Undefined Undefined)
                world_local_200 eq_refl
                (conj eq_refl (conj eq_refl (conj eq_refl eq_refl)))
                (fun _ => eq_refl)) as H1.
  pose proof (@remote_observation_applied_unconditionally
                (sample_env NetworkError)
                (mkDrawPayload (Arr []) Undefined Undefined)
                world_local_200 eq_refl
                (conj eq_refl (conj eq_refl (conj eq_refl eq_refl)))
                (fun _ => eq_refl)) as H2.
  cbv zeta in H1, H2. split.
  - exact (proj1 (proj1 H1 ltac:(discriminate))).
  - exact (proj1 (proj2 (proj2 (proj2 H2 eq_refl)))).
Defined.

(** C1 (as stated) fails: the cache holds a local ellipse stamped 200 and
    a poll answers one rectangle with [updated_at] 200.  [shouldUpdateData]
    says no (the timestamps tie), yet the poll replaces the surface and the
    cached record. *)
Lemma tie_is_applied_not_discarded :
  let env := sample_env (canvas_response [sample_rectangle] (Num 200)) in
  let w' := run (pollTick env) world_local_200 in
  fst (shouldUpdateData env 200 world_local_200) = Ok false
  /\ current (idb world_local_200)
     = Some (mkCanvasData (Arr [local_ellipse]) (Obj []) (Num 200))
  /\ surface_elements w'
     = Arr (fst (normalizeElements env sample_clock 0 [sample_rectangle] 0))
  /\ current (idb w')
     = Some (mkCanvasData
               (Arr (fst (normalizeElements env sample_clock 0
                            [sample_rectangle] 0)))
               (Obj []) (Num (num_of_Z sample_clock)))
  /\ current (idb w') <> current (idb world_local_200).
Proof.
  cbv zeta. repeat split; try (vm_compute; reflexivity).
  intros H. vm_compute in H. discriminate.
Qed.

(** ** Start-up restore *)

(** C4 (as the code has it): on start-up, with the API handle stored, over
    a store whose requests succeed and a surface that takes the update, a
    remote read that succeeds with a truthy canvas whose [elements] field
    is truthy (an empty array is) is authoritative: the document is
    persisted and applied with its elements as received and the
    collaborator set of its [appState] made a [Map]; in every other case
    the (repaired) local record is applied when there is one, and nothing
    is applied when there is none. *)
Theorem startup_restore (env : Env) (w : World) :
  apiRef w = true ->
  healthy (idb w) ->
  (forall u, updateScene_throws env u = false) ->
  let w' := run (initializeStorage env) w in
  match backend_document (remote env (now w)) with
  | Some canvas =>
      scene_log w' =
        mkSceneUpdate (get canvas "elements")
          (ensureCollaboratorsMap (get canvas "appState"))
          (JS.or (get canvas "files") (Obj [])) :: scene_log w
      /\ current (idb w') =
           Some (mkCanvasData (get canvas "elements")
                   (JS.or (get canvas "appState") (Obj []))
                   (Num (num_of_Z (now w))))
  | None =>
      match current (idb w) with
      | Some r =>
          scene_log w' =
            mkSceneUpdate (cd_elements (repaired (now w) r))
              (ensureCollaboratorsMap (cd_appState (repaired (now w) r)))
              (Obj []) :: scene_log w
          /\ current (idb w') = Some (repaired (now w) r)
      | None => scene_log w' = scene_log w /\ current (idb w') = None
      end
  end.
Proof.
  intros Hapi Hh Hacc. cbv zeta. unfold run.
  rewrite (initializeStorage_value env w Hapi Hh (fun u _ => Hacc u)).
  unfold restore_update, restore_store, store_after_repair. cbn [snd].
  destruct (backend_document (remote env (now w))) as [canvas|].
  - split; reflexivity.
  - destruct (current (idb w)) as [r|] eqn:Hcur; cbn; rewrite ?Hcur; split;
      reflexivity.
Qed.

Lemma startup_restore_witness :
  let env := sample_env (canvas_response [sample_rectangle] (Num 100)) in
  let w := with_apiRef true (initial (working_store None) sample_clock) in
  surface_elements (run (initializeStorage env) w) = Arr [sample_rectangle]
  /\ surface_elements
       (run (initializeStorage (sample_env NetworkError)) world_local_200)
     = Arr [local_ellipse]
  /\ scene_log (run (initializeStorage (sample_env NetworkError)) w) = [].
Proof.
  cbv zeta.
  pose proof (@startup_restore
                (sample_env (canvas_response [sample_rectangle] (Num 100)))
                (with_apiRef true (initial (working_store None) sample_clock))
                eq_refl (conj eq_refl (conj eq_refl (conj eq_refl eq_refl)))
                (fun _ => eq_refl)) as H1.
  pose proof (@startup_restore (sample_env NetworkError) world_local_200
                eq_refl (conj eq_refl (conj eq_refl (conj eq_refl eq_refl)))
                (fun _ => eq_refl)) as H2.
  pose proof (@startup_restore (sample_env NetworkError)
                (with_apiRef true (initial (working_store None) sample_clock))
                eq_refl (conj eq_refl (conj eq_refl (conj eq_refl eq_refl)))
                (fun _ => eq_refl)) as H3.
  cbv zeta in H1, H2, H3.
  split; [|split].
  - unfold surface_elements. rewrite (proj1 H1). reflexivity.
  - unfold surface_elements. rewrite (proj1 H2). reflexivity.
  - exact (proj1 H3).
Defined.

(** C4 (as stated) fails: at start-up a remote element that names only its
    type reaches the surface as it came, without the fields normalisation
    would add, and the apply is not wrapped in the echo flag: the flag is
    down afterwards and no timer is pending to lower it. *)
Lemma startup_applies_raw_and_unflagged :
  let env := sample_env (canvas_response [bare_rectangle] (Num 100)) in
  let w := with_apiRef true (initial (working_store None) sample_clock) in
  let w' := run (initializeStorage env) w in
  surface_elements w' = Arr [bare_rectangle]
  /\ surface_elements w'
     <> Arr (fst (normalizeElements env sample_clock 0 [bare_rectangle] 0))
  /\ isUpdatingFromRestore w' = false
  /\ timers w' = [].
Proof.
  cbv zeta. repeat split. intros H. vm_compute in H. discriminate.
Qed.




(** ** The collaborator set of every applied document *)

Lemma ensureCollaboratorsMap_is_map (appState : value) :
  instanceofMap (get (ensureCollaboratorsMap appState) "collaborators") = true.
Proof.
  unfold ensureCollaboratorsMap.
  destruct (truthy appState); simpl negb; cbv iota; [|reflexivity].
  destruct (instanceofMap (get appState "collaborators")) eqn:E; [exact E|].
  simpl get. rewrite lookup_set. reflexivity.
Qed.

(** An array, a plain object or an absent collaborator set is replaced by
    an empty [Map]; a [Map] stays. *)
Lemma ensureCollaboratorsMap_rebuilds (appState : value) :
  instanceofMap (get appState "collaborators") = false ->
  get (ensureCollaboratorsMap appState) "collaborators" = MapV [].
Proof.
  intros H. unfold ensureCollaboratorsMap.
  destruct (truthy appState); simpl negb; cbv iota; [|reflexivity].
  rewrite H. simpl get. rewrite lookup_set. reflexivity.
Qed.

Lemma preserves_ret {A} (P : World -> Prop) (a : A) : preserves P (ret a).
Proof. intros w H. exact H. Qed.

Lemma preserves_throw {A} (P : World -> Prop) : preserves P (@throw A).
Proof. intros w H. exact H. Qed.

Lemma preserves_gets {A} (P : World -> Prop) (f : World -> A) :
  preserves P (gets f).
Proof. intros w H. exact H. Qed.

Lemma preserves_modify (P : World -> Prop) (f : World -> World) :
  (forall w, P w -> P (f w)) -> preserves P (modify f).
Proof. intros Hf w H. apply Hf, H. Qed.

Lemma preserves_bind {A B} (P : World -> Prop) (m : M A) (k : A -> M B) :
  preserves P m -> (forall a, preserves P (k a)) -> preserves P (bind m k).
Proof.
  intros Hm Hk w H. unfold bind.
  specialize (Hm w H). destruct (m w) as [[a|] w']; simpl in *.
  - apply Hk, Hm.
  - exact Hm.
Qed.

Lemma preserves_try_catch {A} (P : World -> Prop) (body handler : M A) :
  preserves P body -> preserves P handler -> preserves P (try_catch body handler).
Proof.
  intros Hb Hh w H. unfold try_catch.
  specialize (Hb w H). destruct (body w) as [[a|] w']; simpl in *.
  - exact Hb.
  - apply Hh, Hb.
Qed.

Ltac preserves_step :=
  match goal with
  | |- preserves _ (bind _ _) => apply preserves_bind; [|intros ?]
  | |- preserves _ (try_catch _ _) => apply preserves_try_catch
  | |- preserves _ (ret _) => apply preserves_ret
  | |- preserves _ throw => apply preserves_throw
  | |- preserves _ (gets _) => apply preserves_gets
  | |- preserves _ (if ?c then _ else _) => destruct c
  | |- preserves _ (match ?x with _ => _ end) => destruct x
  end.

(** *** Handlers and invariants

    The invariants below are about parts of the world most handlers leave
    alone.  An invariant that survives a request of the store, a change of
    the echo flag, of the random count, of the poll token and of the fetch
    log, an accepted update with a proper collaborator set, and the
    queueing of a flag-lowering timer, survives every remote observation
    and the start-up. *)

Section Frame.

Variable P : World -> Prop.

Hypothesis P_idb : forall d w, P w -> P (with_idb d w).
Hypothesis P_rand : forall n w, P w -> P (with_rand_used n w).
Hypothesis P_flag : forall b w, P w -> P (with_flag b w).
Hypothesis P_token : forall v w, P w -> P (with_lastUpdateTime v w).
Hypothesis P_fetch : forall l w, P w -> P (with_fetch_log l w).
Hypothesis P_scene :
  forall u w, collaborators_ok u -> P w -> P (with_scene_log (u :: scene_log w) w).
Hypothesis P_lower :
  forall w, P w -> P (snd (setTimeout ClearRestoreFlag ECHO_WINDOW_MS w)).

Ltac store_only :=
  intros w H; cbn;
  repeat match goal with
         | |- context [if ?c then _ else _] => destruct c; cbn
         | |- context [match ?c with _ => _ end] => destruct c; cbn
         end; first [exact H | apply P_idb; exact H].

Lemma frame_init : preserves P init.
Proof. unfold init. store_only. Qed.

Lemma frame_ensure_db : preserves P ensure_db.
Proof.
  intros w H. unfold ensure_db. destruct (db (idb w)); [exact H|].
  apply frame_init, H.
Qed.

Lemma frame_saveCanvasData (elements appState : value) :
  preserves P (saveCanvasData elements appState).
Proof.
  unfold saveCanvasData. preserves_step; [apply frame_ensure_db|store_only].
Qed.

Lemma frame_loadCanvasData : preserves P loadCanvasData.
Proof.
  unfold loadCanvasData. preserves_step; [apply frame_ensure_db|store_only].
Qed.

Lemma frame_clearCanvasData : preserves P clearCanvasData.
Proof.
  unfold clearCanvasData. preserves_step; [apply frame_ensure_db|store_only].
Qed.

Lemma frame_repairData : preserves P repairData.
Proof.
  unfold repairData.
  repeat first
    [ apply frame_loadCanvasData
    | apply frame_saveCanvasData
    | apply frame_clearCanvasData
    | preserves_step ].
Qed.

Lemma frame_updateScene (env : Env) (u : SceneUpdate) :
  collaborators_ok u -> preserves P (updateScene env u).
Proof.
  intros Hu w H. unfold updateScene.
  destruct (updateScene_throws env u); cbn; [exact H|].
  apply P_scene; assumption.
Qed.

Lemma frame_applyUnderFlag (env : Env) (u : SceneUpdate) :
  collaborators_ok u -> preserves P (applyUnderFlag env u).
Proof.
  intros Hu. unfold applyUnderFlag.
  repeat first
    [ apply frame_updateScene; exact Hu
    | apply preserves_modify; intros w H; apply P_flag, H
    | exact P_lower
    | preserves_step ].
Qed.

Lemma frame_handleCanvasUpdate (env : Env) (payload : DrawPayload) :
  preserves P (handleCanvasUpdate env payload).
Proof.
  intros w H. unfold handleCanvasUpdate.
  destruct (apiRef w); [|exact H].
  match goal with
  | |- P (snd (?m w)) => assert (Hp : preserves P m); [|exact (Hp w H)]
  end.
  cbv zeta.
  repeat first
    [ apply frame_applyUnderFlag; apply ensureCollaboratorsMap_is_map
    | apply frame_saveCanvasData
    | apply frame_clearCanvasData
    | apply preserves_modify; intros w0 H0; apply P_rand, H0
    | preserves_step ].
Qed.

Lemma frame_pollTick (env : Env) : preserves P (pollTick env).
Proof.
  intros w H. rewrite pollTick_value.
  destruct (poll_observation _ _) as [[token payload]|].
  - apply frame_handleCanvasUpdate. apply P_token, P_fetch, H.
  - apply P_fetch, H.
Qed.

Lemma frame_fetch_canvas (env : Env) : preserves P (fetch_canvas env).
Proof.
  intros w H. unfold fetch_canvas.
  destruct (remote env (now w)); apply P_fetch, H.
Qed.

Lemma frame_fetchBackendData (env : Env) : preserves P (fetchBackendData env).
Proof.
  unfold fetchBackendData, json, member.
  repeat first
    [ apply frame_saveCanvasData
    | apply frame_fetch_canvas
    | preserves_step ].
Qed.

Lemma frame_initializeStorage (env : Env) : preserves P (initializeStorage env).
Proof.
  unfold initializeStorage.
  repeat first
    [ apply frame_fetchBackendData
    | apply frame_repairData
    | apply frame_loadCanvasData
    | apply frame_init
    | apply frame_updateScene; apply ensureCollaboratorsMap_is_map
    | preserves_step ].
Qed.

End Frame.

(** *** The surface's log *)

Lemma scene_ok_handleCanvasUpdate (env : Env) (payload : DrawPayload) :
  preserves scene_ok (handleCanvasUpdate env payload).
Proof.
  apply frame_handleCanvasUpdate; try (intros; assumption).
  intros u w Hu H. constructor; assumption.
Qed.

Lemma scene_ok_pollTick (env : Env) : preserves scene_ok (pollTick env).
Proof.
  apply frame_pollTick; try (intros; assumption).
  intros u w Hu H. constructor; assumption.
Qed.

Lemma scene_ok_initializeStorage (env : Env) :
  preserves scene_ok (initializeStorage env).
Proof.
  apply frame_initializeStorage; try (intros; assumption).
  intros u w Hu H. constructor; assumption.
Qed.

Lemma scene_ok_saveCanvasData (elements appState : value) :
  preserves scene_ok (saveCanvasData elements appState).
Proof. apply frame_saveCanvasData. intros; assumption. Qed.

Lemma scene_ok_onChange (env : Env) (elements appState files : value) :
  preserves scene_ok (onChange env elements appState files).
Proof.
  unfold onChange, iter_spread, clearTimeout.
  repeat first
    [ apply preserves_modify; intros w0 H0; exact H0
    | (intros w0 H0; exact H0)
    | preserves_step ].
Qed.

Lemma scene_ok_fire_timer (env : Env) (t : Timer) (w : World) :
  scene_ok w -> scene_ok (fire_timer env t w).
Proof.
  intros H. unfold fire_timer.
  assert (Hf : scene_ok (fire env (action t) w)).
  { unfold fire. destruct (action t); unfold run.
    - exact H.
    - apply preserves_try_catch;
        [apply scene_ok_saveCanvasData|apply preserves_ret|exact H].
    - apply scene_ok_pollTick, H. }
  destruct (kind t); exact Hf.
Qed.

Lemma scene_ok_tick (env : Env) (w : World) : scene_ok w -> scene_ok (tick env w).
Proof.
  intros H. unfold tick.
  set (w1 := with_timers _ _).
  assert (H1 : scene_ok w1) by exact H.
  clearbody w1. revert w1 H1.
  induction (filter _ _) as [|t ready IH]; intros w1 H1; simpl.
  - exact H1.
  - apply IH, scene_ok_fire_timer, H1.
Qed.

Lemma scene_ok_elapse (env : Env) (ms : nat) (w : World) :
  scene_ok w -> scene_ok (elapse env ms w).
Proof.
  revert w. induction ms as [|n IH]; intros w H; simpl.
  - exact H.
  - apply IH, scene_ok_tick, H.
Qed.

Lemma scene_ok_step (env : Env) (w : World) (e : Event) :
  scene_ok w -> scene_ok (step env w e).
Proof.
  intros H. destruct e as [isTauri| | |elements appState files|payload|ms]; simpl.
  - unfold startWatch. destruct isTauri; exact H.
  - exact H.
  - unfold initEffect.
    destruct (apiRef w && negb (isInitialized w)); [|exact H].
    pose proof (scene_ok_initializeStorage env) as Hp. unfold preserves in Hp.
    exact (Hp w H).
  - apply scene_ok_onChange, H.
  - apply scene_ok_handleCanvasUpdate, H.
  - apply scene_ok_elapse, H.
Qed.

(** C9: whatever happens to the component from the moment it mounts, every
    document the surface has been handed carries a [Map] as its
    collaborator set; a collaborator set that arrived as an array, a plain
    object or not at all was replaced by an empty [Map] before the apply. *)
Theorem applied_collaborators_are_maps (env : Env) (d : IDB) (t0 : Z)
    (events : list Event) :
  (forall u, In u (scene_log (run_events env events (initial d t0))) ->
     instanceofMap (get (upd_appState u) "collaborators") = true)
  /\
  (forall appState,
     instanceofMap (get (ensureCollaboratorsMap appState) "collaborators") = true
     /\ (instanceofMap (get appState "collaborators") = false ->
         get (ensureCollaboratorsMap appState) "collaborators" = MapV [])).
Proof.
  split.
  - assert (H : scene_ok (run_events env events (initial d t0))).
    { unfold run_events.
      assert (H0 : scene_ok (initial d t0)) by constructor.
      revert H0. generalize (initial d t0).
      induction events as [|e es IH]; intros w Hw; simpl.
      - exact Hw.
      - apply IH, scene_ok_step, Hw. }
    intros u Hu. unfold scene_ok in H. rewrite Forall_forall in H.
    exact (H u Hu).
  - intros appState. split.
    + apply ensureCollaboratorsMap_is_map.
    + apply ensureCollaboratorsMap_rebuilds.
Qed.

(** ** Timers: what a millisecond does *)

Lemma core_inv (w : World) (a : Z) (b : bool) (c : option positive)
    (d : string) (e : value) (f : positive) :
  core w = (a, b, c, d, e, f) ->
  now w = a /\ isUpdatingFromRestore w = b /\ saveTimeoutRef w = c
  /\ lastSaveDataRef w = d /\ lastUpdateTime w = e /\ next_timer w = f.
Proof.
  unfold core. intros H.
  pose proof (f_equal (fun p => fst (fst (fst (fst (fst p))))) H) as H1.
  pose proof (f_equal (fun p => snd (fst (fst (fst (fst p))))) H) as H2.
  pose proof (f_equal (fun p => snd (fst (fst (fst p)))) H) as H3.
  pose proof (f_equal (fun p => snd (fst (fst p))) H) as H4.
  pose proof (f_equal (fun p => snd (fst p)) H) as H5.
  pose proof (f_equal (fun p => snd p) H) as H6.
  cbn in *. auto 10.
Qed.

Lemma saves_app (l1 l2 : list Timer) : saves (l1 ++ l2) = saves l1 ++ saves l2.
Proof. apply filter_app. Qed.

Lemma polls_app (l1 l2 : list Timer) : polls (l1 ++ l2) = polls l1 ++ polls l2.
Proof. apply filter_app. Qed.

Lemma filter_comm {A} (p q : A -> bool) (l : list A) :
  filter p (filter q l) = filter q (filter p l).
Proof.
  induction l as [|x l IH]; simpl; [reflexivity|].
  destruct (p x) eqn:Hp, (q x) eqn:Hq; simpl; rewrite ?Hp, ?Hq, IH; reflexivity.
Qed.

Ltac splits := repeat match goal with |- _ /\ _ => split end.

(** One timer coming due, while the flag is down, the store works and the
    remote has nothing new: only a debounced write changes anything the
    debouncer can see, and it writes its record. *)
Lemma fire_timer_quiet (env : Env) (t : Timer) (w : World) :
  isUpdatingFromRestore w = false ->
  healthy (idb w) ->
  remote_silent env (lastUpdateTime w) ->
  (is_save t = true -> kind t = Timeout) ->
  let w' := fire_timer env t w in
  core w' = core w
  /\ healthy (idb w')
  /\ saves (timers w') = saves (timers w)
  /\ scene_log w' = scene_log w
  /\ put_log (idb w') =
       (if is_save t then [save_record (now w) t] else []) ++ put_log (idb w)
  /\ current (idb w') =
       (if is_save t then Some (save_record (now w) t) else current (idb w)).
Proof.
  intros Hflag Hh Hsilent Hkind. cbv zeta.
  unfold fire_timer, fire, is_save, save_record in *.
  destruct (action t) as [|elements appState|] eqn:Ha.
  - destruct (kind t); unfold core; cbn; rewrite ?saves_app; cbn;
      unfold is_save; cbn; rewrite ?Ha, ?app_nil_r, Hflag; splits;
      solve [reflexivity | exact Hh].
  - rewrite (Hkind eq_refl). unfold run, try_catch.
    rewrite saveCanvasData_healthy by exact Hh.
    destruct w as [n d]; destruct d. splits; solve [reflexivity | exact Hh].
  - unfold run. rewrite pollTick_value. rewrite Hsilent. cbn [snd].
    destruct (kind t); unfold core; cbn; rewrite ?saves_app; cbn;
      unfold is_save; cbn; rewrite ?Ha, ?app_nil_r; splits;
      solve [reflexivity | exact Hh].
Qed.

Lemma fold_fire_quiet (env : Env) (ready : list Timer) (w : World) :
  isUpdatingFromRestore w = false ->
  healthy (idb w) ->
  remote_silent env (lastUpdateTime w) ->
  Forall (fun t => is_save t = true -> kind t = Timeout) ready ->
  let w' := fold_left (fun acc t => fire_timer env t acc) ready w in
  core w' = core w
  /\ healthy (idb w')
  /\ saves (timers w') = saves (timers w)
  /\ scene_log w' = scene_log w
  /\ put_log (idb w') =
       rev (map (save_record (now w)) (saves ready)) ++ put_log (idb w)
  /\ current (idb w') =
       match rev (saves ready) with
       | s :: _ => Some (save_record (now w) s)
       | [] => current (idb w)
       end.
Proof.
  revert w. induction ready as [|t ready IH]; intros w Hflag Hh Hsilent Hk;
    cbv zeta; simpl fold_left.
  - splits; solve [reflexivity | exact Hh].
  - inversion Hk as [|? ? Hkt Hk']; subst.
    destruct (fire_timer_quiet env t w Hflag Hh Hsilent Hkt)
      as (Hc & Hh1 & Hs & Hsc & Hp & Hcur).
    set (w1 := fire_timer env t w) in *.
    destruct (core_inv _ _ _ _ _ _ _ Hc) as (Hnow & Hf1 & _ & _ & Hu1 & _).
    assert (Hflag1 : isUpdatingFromRestore w1 = false) by congruence.
    assert (Hsil1 : remote_silent env (lastUpdateTime w1))
      by (rewrite Hu1; exact Hsilent).
    destruct (IH w1 Hflag1 Hh1 Hsil1 Hk') as (Hc' & Hh' & Hs' & Hsc' & Hp' & Hcur').
    cbv zeta in Hc', Hh', Hs', Hsc', Hp', Hcur'.
    splits.
    + congruence.
    + exact Hh'.
    + congruence.
    + congruence.
    + rewrite Hp', Hp, Hnow. unfold saves. simpl filter.
      destruct (is_save t); simpl.
      * rewrite <- app_assoc. reflexivity.
      * reflexivity.
    + rewrite Hcur', Hcur, Hnow. unfold saves. simpl filter.
      destruct (is_save t); simpl.
      * destruct (rev (filter is_save ready)); reflexivity.
      * reflexivity.
Qed.

(** One millisecond, under the same conditions. *)
Lemma tick_quiet (env : Env) (w : World) :
  isUpdatingFromRestore w = false ->
  healthy (idb w) ->
  remote_silent env (lastUpdateTime w) ->
  Forall (fun t => kind t = Timeout) (saves (timers w)) ->
  let w' := tick env w in
  let ripe := filter (is_due (now w + 1)) (saves (timers w)) in
  core w' = (now w + 1, false, saveTimeoutRef w, lastSaveDataRef w,
             lastUpdateTime w, next_timer w)
  /\ healthy (idb w')
  /\ saves (timers w') =
       filter (fun t => negb (is_due (now w + 1) t)) (saves (timers w))
  /\ scene_log w' = scene_log w
  /\ put_log (idb w') =
       rev (map (save_record (now w + 1)) ripe) ++ put_log (idb w)
  /\ current (idb w') =
       match rev ripe with
       | s :: _ => Some (save_record (now w + 1) s)
       | [] => current (idb w)
       end.
Proof.
  intros Hflag Hh Hsilent Hk. cbv zeta. unfold tick.
  cbn [now timers with_now].
  set (w1 := with_timers _ (with_now (now w + 1) w)).
  assert (Hk' : Forall (fun t => is_save t = true -> kind t = Timeout)
                  (filter (is_due (now w + 1)) (timers w))).
  { apply Forall_forall. intros t Ht Hs.
    apply filter_In in Ht as [Ht _].
    rewrite Forall_forall in Hk. apply Hk. unfold saves.
    apply filter_In. split; assumption. }
  destruct (fold_fire_quiet env (filter (is_due (now w + 1)) (timers w)) w1
              Hflag Hh Hsilent Hk') as (Hc & Hh' & Hs & Hsc & Hp & Hcur).
  cbv zeta in Hc, Hh', Hs, Hsc, Hp, Hcur.
  assert (Hsw : saves (filter (is_due (now w + 1)) (timers w)) =
                filter (is_due (now w + 1)) (saves (timers w)))
    by apply filter_comm.
  rewrite Hsw in Hp, Hcur.
  splits.
  - rewrite Hc. unfold core, w1. cbn. rewrite Hflag. reflexivity.
  - exact Hh'.
  - rewrite Hs. unfold w1. cbn [timers with_timers]. apply filter_comm.
  - exact Hsc.
  - exact Hp.
  - exact Hcur.
Qed.

(** ** The debouncer *)

Lemma onChange_suppressed (env : Env) (elements appState files : value)
    (w : World) :
  isUpdatingFromRestore w = true ->
  onChange env elements appState files w = (Ok tt, w).
Proof.
  intros H. unfold onChange, bind, gets. rewrite H. reflexivity.
Qed.

Lemma notify_same_hash (env : Env) (n : Notification) (w : World) :
  dataHash env n = lastSaveDataRef w -> notify env n w = w.
Proof.
  intros H. unfold notify, run, onChange, bind, gets, iter_spread, ret.
  destruct (isUpdatingFromRestore w); [reflexivity|].
  cbn [truthy negb]. cbv iota. fold (dataHash env n).
  rewrite H, String.eqb_refl. reflexivity.
Qed.

Lemma notify_new_hash (env : Env) (n : Notification) (w : World) :
  isUpdatingFromRestore w = false ->
  dataHash env n <> lastSaveDataRef w ->
  notify env n w =
  with_saveTimeoutRef (Some (next_timer w))
    (with_next_timer (Pos.succ (next_timer w))
       (with_timers
          (match saveTimeoutRef w with
           | Some id => filter (fun t => negb (Pos.eqb (tid t) id)) (timers w)
           | None => timers w
           end ++ [save_timer (next_timer w) (now w + DEBOUNCE_MS) n])
          (with_lastSaveDataRef (dataHash env n) w))).
Proof.
  intros Hflag Hne.
  unfold notify, run, onChange, bind, gets, iter_spread, ret, modify,
    clearTimeout, setTimeout.
  rewrite Hflag. cbn [truthy negb]. cbv iota. fold (dataHash env n).
  destruct (String.eqb_spec (dataHash env n) (lastSaveDataRef w)) as [E|_];
    [contradiction|].
  cbn. destruct (saveTimeoutRef w); reflexivity.
Qed.

(** After an unsuppressed notification, [lastSaveDataRef] holds its
    serialisation, whether it was new or not. *)
Lemma notify_records_hash (env : Env) (n : Notification) (w : World) :
  isUpdatingFromRestore w = false ->
  lastSaveDataRef (notify env n w) = dataHash env n.
Proof.
  intros Hflag.
  destruct (String.eqb_spec (dataHash env n) (lastSaveDataRef w)) as [E|Hne].
  - rewrite (notify_same_hash env n w E). symmetry. exact E.
  - rewrite (notify_new_hash env n w Hflag Hne). reflexivity.
Qed.

(** A notification that serialises like the one just before it changes
    nothing. *)
Lemma notify_repeat (env : Env) (n n' : Notification) (w : World) :
  isUpdatingFromRestore w = false ->
  dataHash env n' = dataHash env n ->
  notify env n' (notify env n w) = notify env n w.
Proof.
  intros Hflag Heq. apply notify_same_hash.
  rewrite (notify_records_hash env n w Hflag). exact Heq.
Qed.

Lemma filter_all_false {A} (p : A -> bool) (l : list A) :
  Forall (fun x => p x = false) l -> filter p l = [].
Proof.
  induction 1 as [|x l Hx _ IH]; simpl; [reflexivity|].
  rewrite Hx. exact IH.
Qed.

Lemma notify_arms (env : Env) (n : Notification) (w : World) :
  isUpdatingFromRestore w = false ->
  healthy (idb w) ->
  remote_silent env (lastUpdateTime w) ->
  tracked w ->
  dataHash env n <> lastSaveDataRef w ->
  armed env n (now w + DEBOUNCE_MS) (notify env n w)
  /\ now (notify env n w) = now w
  /\ idb (notify env n w) = idb w.
Proof.
  intros Hflag Hh Hsil Htr Hne.
  rewrite (notify_new_hash env n w Hflag Hne).
  split; [|split; reflexivity].
  pose proof Hh as (Ho & Hg & Hp & Hd).
  unfold armed. cbn. splits; try assumption; try reflexivity.
  - unfold DEBOUNCE_MS. lia.
  - exists (next_timer w). split; [reflexivity|].
    fold (saves (match saveTimeoutRef w with
                 | Some id0 =>
                     filter (fun t => negb (Pos.eqb (tid t) id0)) (timers w)
                 | None => timers w
                 end ++ [save_timer (next_timer w) (now w + DEBOUNCE_MS) n])).
    rewrite saves_app. cbn.
    replace (saves _) with (@nil Timer); [reflexivity|].
    symmetry. unfold tracked in Htr.
    destruct (saveTimeoutRef w) as [id|] eqn:Href.
    + unfold saves. rewrite filter_comm. apply filter_all_false.
      rewrite Forall_forall in *. intros t Ht.
      destruct (Htr t Ht) as [Hid _]. injection Hid as ->.
      now rewrite Pos.eqb_refl.
    + destruct (saves (timers w)) as [|t ts]; [reflexivity|].
      inversion Htr as [|? ? [Hid _] _]. discriminate.
Qed.

Lemma armed_tracked (env : Env) (n : Notification) (due_at : Z) (w : World) :
  armed env n due_at w -> tracked w.
Proof.
  intros (_ & _ & _ & _ & _ & id & Href & Hs).
  unfold tracked. rewrite Hs. constructor; [|constructor].
  split; [exact Href|reflexivity].
Qed.

(** While the pending write is not yet due, time passing changes neither
    the store nor the debouncer. *)
Lemma elapse_armed (env : Env) (n : Notification) (due_at : Z) (ms : nat)
    (w : World) :
  armed env n due_at w ->
  now w + Z.of_nat ms < due_at ->
  armed env n due_at (elapse env ms w)
  /\ now (elapse env ms w) = now w + Z.of_nat ms
  /\ put_log (idb (elapse env ms w)) = put_log (idb w)
  /\ current (idb (elapse env ms w)) = current (idb w).
Proof.
  revert w. induction ms as [|k IH]; intros w Ha Hlt.
  - simpl elapse. splits; try exact Ha; try reflexivity. simpl. lia.
  - simpl elapse.
    pose proof Ha as (Hflag & Hh & Hsil & Hls & Hnow & id & Href & Hs).
    assert (Hk : Forall (fun t => kind t = Timeout) (saves (timers w)))
      by (rewrite Hs; repeat constructor).
    destruct (tick_quiet env w Hflag Hh Hsil Hk)
      as (Hc & Hh' & Hs' & _ & Hp & Hcur).
    cbv zeta in Hc, Hs', Hp, Hcur. set (w1 := tick env w) in *. clearbody w1.
    rewrite Hs in Hs', Hp, Hcur. cbn in Hs', Hp, Hcur.
    unfold is_due in Hs', Hp, Hcur. cbn [due save_timer] in Hs', Hp, Hcur.
    assert (Hnd : (due_at <=? now w + 1) = false) by (apply Z.leb_gt; lia).
    rewrite Hnd in Hs', Hp, Hcur. cbn in Hs', Hp, Hcur.
    destruct (core_inv _ _ _ _ _ _ _ Hc) as (Hn1 & Hf1 & Hr1 & Hl1 & Hu1 & Hnt1).
    assert (Ha1 : armed env n due_at w1).
    { unfold armed. rewrite Hf1, Hl1, Hu1, Hn1, Hr1.
      splits; try assumption; try reflexivity.
      - lia.
      - exists id. split; [exact Href|exact Hs']. }
    destruct (IH w1 Ha1) as (Ha2 & Hn2 & Hp2 & Hc2); [lia|].
    splits; try exact Ha2; try lia; congruence.
Qed.

(** When the pending write comes due it runs once and leaves the debouncer
    idle. *)
Lemma tick_fires (env : Env) (n : Notification) (w : World) :
  armed env n (now w + 1) w ->
  idle env (tick env w)
  /\ now (tick env w) = now w + 1
  /\ put_log (idb (tick env w)) = written n (now w + 1) :: put_log (idb w)
  /\ current (idb (tick env w)) = Some (written n (now w + 1)).
Proof.
  intros (Hflag & Hh & Hsil & Hls & Hnow & id & Href & Hs).
  assert (Hk : Forall (fun t => kind t = Timeout) (saves (timers w)))
    by (rewrite Hs; repeat constructor).
  destruct (tick_quiet env w Hflag Hh Hsil Hk)
    as (Hc & Hh' & Hs' & _ & Hp & Hcur).
  cbv zeta in Hc, Hs', Hp, Hcur. set (w1 := tick env w) in *. clearbody w1.
  rewrite Hs in Hs', Hp, Hcur. cbn in Hs', Hp, Hcur.
  unfold is_due in Hs', Hp, Hcur. cbn [due save_timer] in Hs', Hp, Hcur.
  rewrite Z.leb_refl in Hs', Hp, Hcur. cbn in Hs', Hp, Hcur.
  destruct (core_inv _ _ _ _ _ _ _ Hc) as (Hn1 & Hf1 & Hr1 & Hl1 & Hu1 & Hnt1).
  unfold idle. rewrite Hf1, Hu1. splits; solve [assumption | reflexivity].
Qed.

(** With nothing pending, time passing writes nothing. *)
Lemma elapse_idle (env : Env) (ms : nat) (w : World) :
  idle env w ->
  idle env (elapse env ms w)
  /\ put_log (idb (elapse env ms w)) = put_log (idb w)
  /\ current (idb (elapse env ms w)) = current (idb w).
Proof.
  revert w. induction ms as [|k IH]; intros w Hi.
  - simpl. splits; solve [exact Hi | reflexivity].
  - simpl elapse.
    pose proof Hi as (Hflag & Hh & Hsil & Hs).
    assert (Hk : Forall (fun t => kind t = Timeout) (saves (timers w)))
      by (rewrite Hs; constructor).
    destruct (tick_quiet env w Hflag Hh Hsil Hk)
      as (Hc & Hh' & Hs' & _ & Hp & Hcur).
    cbv zeta in Hc, Hs', Hp, Hcur. set (w1 := tick env w) in *. clearbody w1.
    rewrite Hs in Hs', Hp, Hcur. cbn in Hs', Hp, Hcur.
    destruct (core_inv _ _ _ _ _ _ _ Hc) as (Hn1 & Hf1 & Hr1 & Hl1 & Hu1 & Hnt1).
    assert (Hi1 : idle env w1).
    { unfold idle. rewrite Hf1, Hu1. splits; solve [assumption | reflexivity]. }
    destruct (IH w1 Hi1) as (Hi2 & Hp2 & Hc2).
    splits; try exact Hi2; congruence.
Qed.

(** ** Pending polls *)

Lemma polls_under_queue (h : option positive) (t : Timer) (w : World) :
  (is_poll t = true -> h = Some (tid t)) ->
  polls_under h w -> polls_under h (with_timers (timers w ++ [t]) w).
Proof.
  intros Ht H. unfold polls_under in *. cbn [timers with_timers].
  rewrite polls_app. apply Forall_app. split; [exact H|].
  simpl. destruct (is_poll t); constructor; auto.
Qed.

Lemma polls_under_filter (h : option positive) (p : Timer -> bool) (w : World) :
  polls_under h w -> polls_under h (with_timers (filter p (timers w)) w).
Proof.
  unfold polls_under, polls. cbn [timers with_timers]. intros H.
  rewrite filter_comm. rewrite Forall_forall in *. intros t Ht.
  apply filter_In in Ht as [Ht _]. apply H, Ht.
Qed.

Lemma polls_under_lower (h : option positive) (w : World) :
  polls_under h w ->
  polls_under h (snd (setTimeout ClearRestoreFlag ECHO_WINDOW_MS w)).
Proof.
  intros H. unfold setTimeout. cbn [snd].
  apply (polls_under_queue h _ w); [discriminate|exact H].
Qed.

Lemma polls_under_pollTick (env : Env) (h : option positive) :
  preserves (polls_under h) (pollTick env).
Proof.
  apply frame_pollTick; try (intros; assumption).
  apply polls_under_lower.
Qed.

Lemma polls_under_onChange (env : Env) (h : option positive)
    (elements appState files : value) :
  preserves (polls_under h) (onChange env elements appState files).
Proof.
  intros w H.
  unfold onChange, bind, gets, ret, modify, clearTimeout, setTimeout.
  destruct (isUpdatingFromRestore w); [exact H|].
  destruct (negb (truthy elements)); [exact H|].
  destruct (iter_spread elements w) as [[mutableElements|] w'] eqn:Hit;
    (assert (w' = w) as ->
       by (unfold iter_spread, ret, throw in Hit; destruct elements; congruence));
    [|exact H].
  cbn [lastSaveDataRef].
  match goal with |- context [String.eqb ?x (lastSaveDataRef w)] =>
    destruct (String.eqb x (lastSaveDataRef w)); [exact H|]
  end.
  cbn [snd fst saveTimeoutRef with_lastSaveDataRef].
  destruct (saveTimeoutRef w) as [id|]; cbn [snd fst].
  - apply (polls_under_queue h _
             (with_timers _ (with_lastSaveDataRef _ w))); [discriminate|].
    apply (polls_under_filter h _ (with_lastSaveDataRef _ w)), H.
  - apply (polls_under_queue h _ (with_lastSaveDataRef _ w));
      [discriminate|exact H].
Qed.

Lemma polls_under_fire_timer (env : Env) (h : option positive) (t : Timer)
    (w : World) :
  (is_poll t = true -> h = Some (tid t)) ->
  polls_under h w -> polls_under h (fire_timer env t w).
Proof.
  intros Ht H. unfold fire_timer.
  assert (Hf : polls_under h (fire env (action t) w)).
  { unfold fire. destruct (action t); unfold run.
    - exact H.
    - apply preserves_try_catch;
        [apply frame_saveCanvasData; intros; assumption
        |apply preserves_ret|exact H].
    - apply polls_under_pollTick, H. }
  destruct (kind t); [exact Hf|].
  apply (polls_under_queue h _ (fire env (action t) w)); [exact Ht|exact Hf].
Qed.

Lemma polls_under_tick (env : Env) (h : option positive) (w : World) :
  polls_under h w -> polls_under h (tick env w).
Proof.
  intros H. unfold tick. cbn [now timers with_now].
  assert (Hready : Forall (fun t => is_poll t = true -> h = Some (tid t))
                     (filter (is_due (now w + 1)) (timers w))).
  { apply Forall_forall. intros t Ht Hp.
    apply filter_In in Ht as [Ht _].
    unfold polls_under in H. rewrite Forall_forall in H.
    apply (H t). apply filter_In. split; assumption. }
  set (w1 := with_timers _ (with_now (now w + 1) w)).
  assert (H1 : polls_under h w1)
    by (apply (polls_under_filter h _ (with_now (now w + 1) w)), H).
  clearbody w1. revert w1 H1.
  induction Hready as [|t ready Ht _ IH]; intros w1 H1; simpl.
  - exact H1.
  - apply IH, polls_under_fire_timer; assumption.
Qed.

Lemma polls_under_elapse (env : Env) (h : option positive) (ms : nat)
    (w : World) :
  polls_under h w -> polls_under h (elapse env ms w).
Proof.
  revert w. induction ms as [|k IH]; intros w H; simpl.
  - exact H.
  - apply IH, polls_under_tick, H.
Qed.

(** *** Every reachable world tracks its pending write *)

Lemma tracked_frame_idb (d : IDB) (w : World) : tracked w -> tracked (with_idb d w).
Proof. exact (fun H => H). Qed.

Lemma tracked_append (t : Timer) (w : World) :
  is_save t = false -> tracked w -> tracked (with_timers (timers w ++ [t]) w).
Proof.
  intros Ht H. unfold tracked in *. cbn [timers with_timers saveTimeoutRef].
  rewrite saves_app. cbn. rewrite Ht, app_nil_r. exact H.
Qed.

Lemma tracked_lower (w : World) :
  tracked w -> tracked (snd (setTimeout ClearRestoreFlag ECHO_WINDOW_MS w)).
Proof.
  intros H. unfold setTimeout. cbn [snd].
  exact (tracked_append (mkTimer (next_timer w) (now w + ECHO_WINDOW_MS) Timeout
                           ClearRestoreFlag) w eq_refl H).
Qed.

Lemma tracked_handleCanvasUpdate (env : Env) (payload : DrawPayload) :
  preserves tracked (handleCanvasUpdate env payload).
Proof.
  apply frame_handleCanvasUpdate; try (intros; assumption).
  exact tracked_lower.
Qed.

Lemma tracked_pollTick (env : Env) : preserves tracked (pollTick env).
Proof.
  apply frame_pollTick; try (intros; assumption).
  exact tracked_lower.
Qed.

Lemma tracked_initializeStorage (env : Env) :
  preserves tracked (initializeStorage env).
Proof.
  apply frame_initializeStorage; intros; assumption.
Qed.

(** Queueing a debounced write after cancelling the one [saveTimeoutRef]
    names leaves exactly the new one pending. *)
Lemma tracked_reschedule (a : TimerAction) (hash : string) (w : World) :
  tracked w ->
  tracked
    (with_saveTimeoutRef (Some (next_timer w))
       (with_next_timer (Pos.succ (next_timer w))
          (with_timers
             (match saveTimeoutRef w with
              | Some id => filter (fun t => negb (Pos.eqb (tid t) id)) (timers w)
              | None => timers w
              end ++ [mkTimer (next_timer w) (now w + DEBOUNCE_MS) Timeout a])
             (with_lastSaveDataRef hash w)))).
Proof.
  intros Htr. unfold tracked in *.
  cbn [timers with_timers saveTimeoutRef with_saveTimeoutRef with_next_timer
       with_lastSaveDataRef].
  rewrite saves_app.
  replace (saves (match saveTimeoutRef w with
                  | Some id => filter (fun t => negb (Pos.eqb (tid t) id)) (timers w)
                  | None => timers w
                  end)) with (@nil Timer).
  - cbn. destruct (is_save _); repeat constructor.
  - symmetry. destruct (saveTimeoutRef w) as [id|] eqn:Href.
    + unfold saves. rewrite filter_comm. apply filter_all_false.
      rewrite Forall_forall in *. intros t Ht.
      destruct (Htr t Ht) as [Hid _]. injection Hid as ->.
      now rewrite Pos.eqb_refl.
    + destruct (saves (timers w)) as [|t ts]; [reflexivity|].
      inversion Htr as [|? ? [Hid _] _]. discriminate.
Qed.

Lemma tracked_onChange (env : Env) (elements appState files : value) :
  preserves tracked (onChange env elements appState files).
Proof.
  intros w Htr.
  unfold onChange, bind, gets, ret, modify, clearTimeout, setTimeout.
  destruct (isUpdatingFromRestore w); [exact Htr|].
  destruct (negb (truthy elements)); [exact Htr|].
  destruct (iter_spread elements w) as [[mutableElements|] w'] eqn:Hit.
  - assert (w' = w) as ->.
    { unfold iter_spread, ret, throw in Hit.
      destruct elements; congruence. }
    cbn [lastSaveDataRef].
    match goal with |- context [String.eqb ?h (lastSaveDataRef w)] =>
      destruct (String.eqb h (lastSaveDataRef w)); [exact Htr|];
      pose proof (tracked_reschedule
                    (DebouncedSave (Arr mutableElements)
                       (ensureCollaboratorsMap appState)) h w Htr) as Hr
    end.
    cbn. destruct (saveTimeoutRef w); exact Hr.
  - assert (w' = w) as ->.
    { unfold iter_spread, ret, throw in Hit.
      destruct elements; congruence. }
    exact Htr.
Qed.

Lemma tracked_fire_timer (env : Env) (t : Timer) (w : World) :
  (is_save t = true -> kind t = Timeout) ->
  tracked w -> tracked (fire_timer env t w).
Proof.
  intros Hk H. unfold fire_timer, fire, is_save in *.
  destruct (action t) as [|elements appState|] eqn:Ha.
  - destruct (kind t) as [|p]; [exact H|].
    apply (tracked_append _ (with_flag false w)); [reflexivity|exact H].
  - rewrite (Hk eq_refl). unfold run.
    apply preserves_try_catch;
      [apply frame_saveCanvasData, tracked_frame_idb|apply preserves_ret|exact H].
  - assert (Hp : tracked (run (pollTick env) w)) by (apply tracked_pollTick, H).
    destruct (kind t) as [|p]; [exact Hp|].
    apply (tracked_append _ (run (pollTick env) w)); [reflexivity|exact Hp].
Qed.

Lemma tracked_tick (env : Env) (w : World) : tracked w -> tracked (tick env w).
Proof.
  intros H. unfold tick. cbn [now timers with_now].
  assert (Hready : Forall (fun t => is_save t = true -> kind t = Timeout)
                     (filter (is_due (now w + 1)) (timers w))).
  { apply Forall_forall. intros t Ht Hs.
    apply filter_In in Ht as [Ht _].
    unfold tracked in H. rewrite Forall_forall in H.
    apply (H t). apply filter_In. split; assumption. }
  set (w1 := with_timers _ (with_now (now w + 1) w)).
  assert (H1 : tracked w1).
  { unfold tracked, w1 in *. cbn [timers with_timers saveTimeoutRef with_now].
    unfold saves. rewrite filter_comm.
    rewrite Forall_forall in *. intros t Ht.
    apply filter_In in Ht as [Ht _]. apply H, Ht. }
  clearbody w1. revert w1 H1.
  induction Hready as [|t ready Ht _ IH]; intros w1 H1; simpl.
  - exact H1.
  - apply IH, tracked_fire_timer; assumption.
Qed.

Lemma tracked_elapse (env : Env) (ms : nat) (w : World) :
  tracked w -> tracked (elapse env ms w).
Proof.
  revert w. induction ms as [|k IH]; intros w H; simpl.
  - exact H.
  - apply IH, tracked_tick, H.
Qed.

Lemma tracked_step (env : Env) (w : World) (e : Event) :
  tracked w -> tracked (step env w e).
Proof.
  intros H. destruct e as [isTauri| | |elements appState files|payload|ms]; simpl.
  - unfold startWatch. destruct isTauri; [exact H|].
    unfold run, setInterval. cbn [snd negb].
    exact (tracked_append
             (mkTimer (next_timer w) (now w + POLL_PERIOD_MS)
                (Interval POLL_PERIOD_MS) PollTick)
             (with_lastUpdateTime (Str "") w) eq_refl H).
  - exact H.
  - unfold initEffect.
    destruct (apiRef w && negb (isInitialized w)); [|exact H].
    pose proof (tracked_initializeStorage env) as Hp. unfold preserves in Hp.
    exact (Hp w H).
  - apply tracked_onChange, H.
  - apply tracked_handleCanvasUpdate, H.
  - apply tracked_elapse, H.
Qed.

(** Whatever has happened since the component mounted, every pending
    debounced write is the one [saveTimeoutRef] names. *)
Lemma reachable_tracked (env : Env) (d : IDB) (t0 : Z) (events : list Event) :
  tracked (run_events env events (initial d t0)).
Proof.
  unfold run_events.
  assert (H0 : tracked (initial d t0)) by constructor.
  revert H0. generalize (initial d t0).
  induction events as [|e es IH]; intros w Hw; simpl.
  - exact Hw.
  - apply IH, tracked_step, Hw.
Qed.

(** *** Bursts of edits *)

Lemma elapse_add (env : Env) (a b : nat) (w : World) :
  elapse env (a + b) w = elapse env b (elapse env a w).
Proof.
  revert w. induction a as [|a IH]; intros w; simpl; [reflexivity|apply IH].
Qed.

Lemma last_cons_default {A} (l : list A) (a d : A) :
  last (a :: l) d = last l a.
Proof.
  revert a d. induction l as [|x l IH]; intros a d; [reflexivity|].
  change (last (a :: x :: l) d) with (last (x :: l) d).
  rewrite (IH x d), (IH x a). reflexivity.
Qed.

Lemma burst_keeps_armed (env : Env) (rest : list (nat * Notification))
    (n : Notification) (w : World) :
  armed env n (now w + DEBOUNCE_MS) w ->
  changing env (dataHash env n) (map snd rest) ->
  Forall (fun gap => (gap < 300)%nat) (map fst rest) ->
  armed env (last (map snd rest) n) (now (burst env rest w) + DEBOUNCE_MS)
    (burst env rest w)
  /\ put_log (idb (burst env rest w)) = put_log (idb w)
  /\ current (idb (burst env rest w)) = current (idb w).
Proof.
  revert n w. induction rest as [|[gap n'] rest IH]; intros n w Ha Hch Hgaps.
  - simpl. splits; solve [exact Ha | reflexivity].
  - simpl in Hch. destruct Hch as [Hne Hch].
    inversion Hgaps as [|? ? Hgap Hgaps']; subst. simpl in Hgap.
    destruct (elapse_armed env n _ gap w Ha) as (Ha1 & Hn1 & Hp1 & Hc1).
    { unfold DEBOUNCE_MS. lia. }
    pose proof Ha1 as (Hflag & Hh & Hsil & Hls & _ & _).
    destruct (notify_arms env n' (elapse env gap w) Hflag Hh Hsil
                (armed_tracked env n _ _ Ha1)) as (Ha2 & Hn2 & Hi2).
    { rewrite Hls. exact Hne. }
    rewrite <- Hn2 in Ha2.
    destruct (IH n' _ Ha2 Hch Hgaps') as (Ha3 & Hp3 & Hc3).
    simpl burst.
    replace (last (map snd ((gap, n') :: rest)) n)
      with (last (map snd rest) n').
    + splits; [exact Ha3| |]; rewrite ?Hp3, ?Hc3, Hi2; assumption.
    + simpl map. symmetry. apply last_cons_default.
Qed.

(** An armed debouncer whose write is due [S ms] milliseconds from now:
    after that time, and however much longer, exactly that one record has
    been written. *)
Lemma pending_write_fires (env : Env) (n : Notification) (w : World)
    (ms extra : nat) :
  armed env n (now w + Z.of_nat (S ms)) w ->
  put_log (idb (elapse env (S ms + extra) w))
  = written n (now w + Z.of_nat (S ms)) :: put_log (idb w)
  /\ current (idb (elapse env (S ms + extra) w))
     = Some (written n (now w + Z.of_nat (S ms))).
Proof.
  intros Ha.
  replace (S ms + extra)%nat with (ms + S extra)%nat by lia.
  rewrite elapse_add.
  destruct (elapse_armed env n _ ms w Ha) as (Ha1 & Hn1 & Hp1 & Hc1); [lia|].
  generalize dependent (elapse env ms w). intros w1 Ha1 Hn1 Hp1 Hc1.
  assert (Hdue : now w + Z.of_nat (S ms) = now w1 + 1) by lia.
  rewrite Hdue in Ha1 |- *.
  destruct (tick_fires env n w1 Ha1) as (Hi & Hn2 & Hp2 & Hc2).
  change (elapse env (S extra) w1) with (elapse env extra (tick env w1)).
  destruct (elapse_idle env extra _ Hi) as (_ & Hp3 & Hc3).
  rewrite Hp3, Hc3, Hp2, Hc2, Hp1. split; reflexivity.
Qed.

Lemma window_closes (env : Env) (n : Notification) (w : World) (extra : nat) :
  armed env n (now w + DEBOUNCE_MS) w ->
  put_log (idb (elapse env (300 + extra) w))
  = written n (now w + DEBOUNCE_MS) :: put_log (idb w)
  /\ current (idb (elapse env (300 + extra) w))
     = Some (written n (now w + DEBOUNCE_MS)).
Proof.
  intros Ha.
  assert (H300 : DEBOUNCE_MS = Z.of_nat 300) by (vm_compute; reflexivity).
  rewrite H300 in *.
  exact (pending_write_fires env n w 299 extra Ha).
Qed.

(** The burst, with the remote silent. *)
Lemma burst_coalesces (env : Env) (w : World) (first : Notification)
    (rest : list (nat * Notification)) :
  isUpdatingFromRestore w = false ->
  healthy (idb w) ->
  remote_silent env (lastUpdateTime w) ->
  tracked w ->
  changing env (lastSaveDataRef w) (first :: map snd rest) ->
  Forall (fun gap => (gap < 300)%nat) (map fst rest) ->
  let w1 := burst env rest (notify env first w) in
  let final := last (map snd rest) first in
  put_log (idb w1) = put_log (idb w)
  /\ (exists id,
        saves (timers w1) = [save_timer id (now w1 + DEBOUNCE_MS) final])
  /\ forall extra,
       put_log (idb (elapse env (300 + extra) w1))
       = written final (now w1 + DEBOUNCE_MS) :: put_log (idb w)
       /\ current (idb (elapse env (300 + extra) w1))
          = Some (written final (now w1 + DEBOUNCE_MS)).
Proof.
  intros Hflag Hh Hsil Htr [Hne Hch] Hgaps.
  cbv zeta.
  destruct (notify_arms env first w Hflag Hh Hsil Htr Hne) as (Ha & Hn & Hi).
  rewrite <- Hn in Ha.
  destruct (burst_keeps_armed env rest first _ Ha Hch Hgaps) as (Ha1 & Hp1 & Hc1).
  rewrite Hi in Hp1.
  split; [exact Hp1|split].
  - destruct Ha1 as (_ & _ & _ & _ & _ & id & _ & Hs). exists id. exact Hs.
  - intros extra.
    destruct (window_closes env _ _ extra Ha1) as (Hp2 & Hc2).
    rewrite Hp2, Hc2, Hp1. split; reflexivity.
Qed.

(** *** Without a poll

    Where no poll timer is pending -- inside Tauri, or before the watch
    effect has run -- nothing reads the remote while time passes, so what
    the remote would answer does not matter. *)

Lemma offline_silent (env : Env) (last : value) :
  remote_silent (offline env) last.
Proof. intros t. reflexivity. Qed.

Lemma no_polls_under (w : World) :
  polls (timers w) = [] <-> polls_under None w.
Proof.
  unfold polls_under. split.
  - intros ->. constructor.
  - intros H. destruct (polls (timers w)) as [|t ts]; [reflexivity|].
    inversion H as [|? ? Hno _]. discriminate.
Qed.

Lemma fire_timer_offline (env : Env) (t : Timer) (w : World) :
  is_poll t = false -> fire_timer env t w = fire_timer (offline env) t w.
Proof.
  unfold fire_timer, fire, is_poll.
  destruct (action t); [reflexivity|reflexivity|discriminate].
Qed.

Lemma tick_offline (env : Env) (w : World) :
  polls (timers w) = [] -> tick env w = tick (offline env) w.
Proof.
  intros Hp. unfold tick. cbn [now timers with_now].
  assert (Hready : Forall (fun t => is_poll t = false)
                     (filter (is_due (now w + 1)) (timers w))).
  { apply Forall_forall. intros t Ht. apply filter_In in Ht as [Ht _].
    destruct (is_poll t) eqn:Hpt; [|reflexivity].
    assert (Hin : In t (polls (timers w)))
      by (apply filter_In; split; assumption).
    rewrite Hp in Hin. contradiction. }
  generalize (with_timers
                (filter (fun t => negb (is_due (now w + 1) t)) (timers w))
                (with_now (now w + 1) w)).
  induction Hready as [|t ready Ht _ IH]; intros w1; simpl; [reflexivity|].
  rewrite <- (fire_timer_offline env t w1 Ht). apply IH.
Qed.

Lemma elapse_offline (env : Env) (ms : nat) (w : World) :
  polls (timers w) = [] -> elapse env ms w = elapse (offline env) ms w.
Proof.
  revert w. induction ms as [|k IH]; intros w Hp; simpl; [reflexivity|].
  rewrite <- (tick_offline env w Hp). apply IH.
  apply no_polls_under, polls_under_tick, no_polls_under, Hp.
Qed.

Lemma elapse_no_polls (env : Env) (ms : nat) (w : World) :
  polls (timers w) = [] -> polls (timers (elapse env ms w)) = [].
Proof.
  intros Hp. apply no_polls_under, polls_under_elapse, no_polls_under, Hp.
Qed.

Lemma notify_no_polls (env : Env) (n : Notification) (w : World) :
  polls (timers w) = [] -> polls (timers (notify env n w)) = [].
Proof.
  intros Hp. apply no_polls_under. unfold notify.
  apply polls_under_onChange, no_polls_under, Hp.
Qed.

Lemma notify_offline (env : Env) (n : Notification) (w : World) :
  notify env n w = notify (offline env) n w.
Proof. reflexivity. Qed.

Lemma burst_offline (env : Env) (rest : list (nat * Notification)) (w : World) :
  polls (timers w) = [] ->
  burst env rest w = burst (offline env) rest w
  /\ polls (timers (burst env rest w)) = [].
Proof.
  revert w. induction rest as [|[gap n] rest IH]; intros w Hp; simpl.
  - split; [reflexivity|exact Hp].
  - rewrite <- notify_offline, <- (elapse_offline env gap w Hp).
    apply IH, notify_no_polls, elapse_no_polls, Hp.
Qed.

Lemma changing_offline (env : Env) (ns : list Notification) (prev : string) :
  changing env prev ns -> changing (offline env) prev ns.
Proof.
  revert prev. induction ns as [|n ns IH]; intros prev; simpl; [trivial|].
  intros [Hne Hch]. split; [exact Hne|]. apply IH, Hch.
Qed.

(** C3: a notification that serialises like the one before it (more
    generally, whose serialisation equals [lastSaveDataRef]) changes
    nothing, so it causes no write; and from a world whose flag is down,
    with no poll running or nothing new at the remote, a burst of
    content-changing notifications, each less than 300 ms
    after the one before, leaves exactly one write pending -- the earlier
    ones were cancelled -- writes nothing while it lasts, and 300 ms after
    its last notification has written exactly one record, holding the last
    notification's elements and normalised appState; nothing more is
    written afterwards. *)
Theorem debounce_coalesces (env : Env) (w : World) (first : Notification)
    (rest : list (nat * Notification)) :
  isUpdatingFromRestore w = false ->
  healthy (idb w) ->
  polls (timers w) = [] \/ remote_silent env (lastUpdateTime w) ->
  tracked w ->
  changing env (lastSaveDataRef w) (first :: map snd rest) ->
  Forall (fun gap => (gap < 300)%nat) (map fst rest) ->
  (forall n w0, dataHash env n = lastSaveDataRef w0 -> notify env n w0 = w0)
  /\
  (forall n n' w0,
     isUpdatingFromRestore w0 = false ->
     dataHash env n' = dataHash env n ->
     notify env n' (notify env n w0) = notify env n w0)
  /\
  let w1 := burst env rest (notify env first w) in
  let final := last (map snd rest) first in
  put_log (idb w1) = put_log (idb w)
  /\ (exists id,
        saves (timers w1) = [save_timer id (now w1 + DEBOUNCE_MS) final])
  /\ forall extra,
       put_log (idb (elapse env (300 + extra) w1))
       = written final (now w1 + DEBOUNCE_MS) :: put_log (idb w)
       /\ current (idb (elapse env (300 + extra) w1))
          = Some (written final (now w1 + DEBOUNCE_MS)).
Proof.
  intros Hflag Hh Hquiet Htr Hch Hgaps.
  split; [intros n w0; apply notify_same_hash|].
  split; [intros n n' w0; apply notify_repeat|].
  destruct Hquiet as [Hp|Hsil].
  - pose proof (burst_coalesces (offline env) w first rest Hflag Hh
                  (offline_silent env _) Htr (changing_offline env _ _ Hch)
                  Hgaps) as H.
    cbv zeta in H |- *.
    destruct (burst_offline env rest (notify env first w)
                (notify_no_polls env first w Hp)) as [Hb Hp1].
    rewrite <- notify_offline, <- Hb in H.
    destruct H as (H1 & H2 & H3). splits; [exact H1|exact H2|].
    intros extra. rewrite (elapse_offline env (300 + extra) _ Hp1).
    apply H3.
  - exact (burst_coalesces env w first rest Hflag Hh Hsil Htr Hch Hgaps).
Qed.

(** Inside Tauri, beside a live service that reports a document at every
    request: no poll is running, and the three edits leave one record. *)
Lemma debounce_coalesces_witness :
  let env := sample_env (canvas_response [sample_rectangle] (Str "v1")) in
  put_log (idb (elapse env 300
                  (burst env sample_burst_rest
                     (notify env sample_burst_first sample_mounted))))
  = [written (mkNotification [local_ellipse] Undefined Undefined)
       (sample_clock + 170 + 300)].
Proof.
  cbv zeta.
  assert (Hch : changing
                  (sample_env (canvas_response [sample_rectangle] (Str "v1")))
                  (lastSaveDataRef sample_mounted)
                  (sample_burst_first :: map snd sample_burst_rest)).
  { simpl. repeat split; intros H; vm_compute in H; discriminate. }
  assert (Hgaps : Forall (fun gap => (gap < 300)%nat)
                    (map fst sample_burst_rest)).
  { simpl. repeat constructor; lia. }
  destruct (debounce_coalesces
              (sample_env (canvas_response [sample_rectangle] (Str "v1")))
              sample_mounted
              sample_burst_first sample_burst_rest eq_refl
              (conj eq_refl (conj eq_refl (conj eq_refl eq_refl)))
              (or_introl eq_refl) (Forall_nil _) Hch Hgaps)
    as (_ & _ & _ & _ & Hfinal).
  exact (proj1 (Hfinal 0%nat)).
Defined.

(** ** The poll channel *)

Lemma poll_view_handleCanvasUpdate (env : Env) (payload : DrawPayload)
    (w : World) :
  poll_view (run (handleCanvasUpdate env payload) w) = poll_view w.
Proof.
  pose proof (@frame_handleCanvasUpdate (fun w' => poll_view w' = poll_view w))
    as Hf.
  unfold preserves in Hf. unfold run. apply Hf; try (intros; assumption).
  - intros w0 H0. rewrite <- H0. unfold poll_view, setTimeout. cbn.
    rewrite polls_app. cbn. now rewrite app_nil_r.
  - reflexivity.
Qed.

Lemma poll_view_pollTick (env : Env) (w : World) :
  poll_view (run (pollTick env) w)
  = (now w, now w :: fetch_log w, polls (timers w)).
Proof.
  unfold run. rewrite pollTick_value.
  destruct (poll_observation _ _) as [[token payload]|]; [|reflexivity].
  exact (poll_view_handleCanvasUpdate env payload
           (with_lastUpdateTime token (with_fetch_log (now w :: fetch_log w) w))).
Qed.

Lemma poll_view_save (elements appState : value) (w : World) :
  poll_view (run (try_catch (saveCanvasData elements appState) (ret tt)) w)
  = poll_view w.
Proof.
  pose proof (@frame_saveCanvasData (fun w' => poll_view w' = poll_view w))
    as Hf.
  unfold run.
  apply preserves_try_catch; [apply Hf|apply preserves_ret|reflexivity].
  intros; assumption.
Qed.

Lemma poll_view_fire_timer (env : Env) (t : Timer) (w : World) :
  poll_view (fire_timer env t w)
  = (now w,
     (if is_poll t then [now w] else []) ++ fetch_log w,
     polls (timers w) ++ (if is_poll t then rearmed t else [])).
Proof.
  unfold fire_timer, fire, is_poll, rearmed.
  destruct (action t) as [|elements appState|] eqn:Ha.
  - destruct (kind t); unfold poll_view; cbn; rewrite ?polls_app; cbn;
      unfold is_poll; cbn; rewrite ?Ha, ?app_nil_r; reflexivity.
  - pose proof (poll_view_save elements appState w) as Hs.
    unfold poll_view in *.
    pose proof (f_equal (fun p => fst (fst p)) Hs) as Hn.
    pose proof (f_equal (fun p => snd (fst p)) Hs) as Hf.
    pose proof (f_equal snd Hs) as Hp.
    cbn [fst snd] in Hn, Hf, Hp.
    destruct (kind t); cbn; rewrite ?polls_app; cbn; unfold is_poll; cbn;
      rewrite ?Ha, ?app_nil_r, Hn, Hf, Hp; reflexivity.
  - pose proof (poll_view_pollTick env w) as Hs.
    unfold poll_view in *.
    pose proof (f_equal (fun p => fst (fst p)) Hs) as Hn.
    pose proof (f_equal (fun p => snd (fst p)) Hs) as Hf.
    pose proof (f_equal snd Hs) as Hp.
    cbn [fst snd] in Hn, Hf, Hp.
    destruct (kind t); cbn; rewrite ?polls_app; cbn; unfold is_poll; cbn;
      rewrite ?Ha, ?app_nil_r, Hn, Hf, Hp; reflexivity.
Qed.

Lemma poll_view_fold (env : Env) (ready : list Timer) (w : World) :
  poll_view (fold_left (fun acc t => fire_timer env t acc) ready w)
  = (now w,
     rev (map (fun _ => now w) (polls ready)) ++ fetch_log w,
     polls (timers w) ++ flat_map rearmed (polls ready)).
Proof.
  revert w. induction ready as [|t ready IH]; intros w; simpl fold_left.
  - unfold poll_view. cbn. now rewrite app_nil_r.
  - rewrite IH. pose proof (poll_view_fire_timer env t w) as Hf.
    unfold poll_view in Hf.
    pose proof (f_equal (fun p => fst (fst p)) Hf) as Hn.
    pose proof (f_equal (fun p => snd (fst p)) Hf) as Hl.
    pose proof (f_equal snd Hf) as Hp.
    cbn [fst snd] in Hn, Hl, Hp.
    rewrite Hn, Hl, Hp.
    assert (Hpolls : polls (t :: ready) =
                     (if is_poll t then [t] else []) ++ polls ready).
    { unfold polls. simpl. destruct (is_poll t); reflexivity. }
    rewrite Hpolls.
    destruct (is_poll t); cbn [map rev flat_map app].
    + rewrite <- !app_assoc. reflexivity.
    + rewrite app_nil_r. reflexivity.
Qed.

Lemma poll_view_tick (env : Env) (w : World) :
  let ripe := filter (is_due (now w + 1)) (polls (timers w)) in
  poll_view (tick env w)
  = (now w + 1,
     rev (map (fun _ => now w + 1) ripe) ++ fetch_log w,
     filter (fun t => negb (is_due (now w + 1) t)) (polls (timers w))
     ++ flat_map rearmed ripe).
Proof.
  cbv zeta. unfold tick. cbn [now timers with_now].
  rewrite poll_view_fold. cbn [now fetch_log timers with_timers with_now].
  unfold polls. rewrite (filter_comm is_poll (is_due (now w + 1))).
  rewrite (filter_comm is_poll (fun t => negb (is_due (now w + 1) t))).
  reflexivity.
Qed.

Lemma polling_tick (env : Env) (t0 : Z) (base : list Z) (count : nat)
    (w : World) :
  polling t0 base count w ->
  exists count', polling t0 base count' (tick env w).
Proof.
  intros (Hlo & Hhi & Hlog & id & Hp).
  pose proof (poll_view_tick env w) as Hv. cbv zeta in Hv.
  set (w1 := tick env w) in *. clearbody w1.
  remember (t0 + POLL_PERIOD_MS * (Z.of_nat count + 1)) as next eqn:Hnext.
  rewrite Hp in Hv. unfold poll_view in Hv.
  cbn [filter] in Hv. unfold is_due in Hv. cbn [due] in Hv.
  destruct (Z.leb_spec next (now w + 1)) as [Hdue|Hnot];
    cbn [negb filter map rev flat_map app rearmed kind tid due action] in Hv;
    pose proof (f_equal (fun p => fst (fst p)) Hv) as Hn;
    pose proof (f_equal (fun p => snd (fst p)) Hv) as Hf;
    pose proof (f_equal snd Hv) as Ht;
    cbn [fst snd] in Hn, Hf, Ht.
  - exists (S count). unfold polling.
    rewrite Hn, Hf, Ht, Hlog. cbn [poll_times app].
    assert (Hnow : now w + 1 = t0 + POLL_PERIOD_MS * Z.of_nat (S count))
      by (unfold POLL_PERIOD_MS in *; lia).
    splits.
    + lia.
    + unfold POLL_PERIOD_MS in *; lia.
    + rewrite Hnow. reflexivity.
    + exists id. f_equal. f_equal. unfold POLL_PERIOD_MS in *. lia.
  - exists count. unfold polling.
    rewrite Hn, Hf, Ht, Hlog, <- Hnext. splits.
    + lia.
    + lia.
    + reflexivity.
    + exists id. reflexivity.
Qed.

Lemma polling_elapse (env : Env) (t0 : Z) (base : list Z) (ms : nat) :
  forall count w,
    polling t0 base count w ->
    exists count', polling t0 base count' (elapse env ms w)
                   /\ now (elapse env ms w) = now w + Z.of_nat ms.
Proof.
  induction ms as [|k IH]; intros count w Hp.
  - exists count. split; [exact Hp|simpl; lia].
  - simpl elapse. destruct (polling_tick env t0 base count w Hp) as (c1 & Hp1).
    destruct (IH c1 _ Hp1) as (c2 & Hp2 & Hn2).
    exists c2. split; [exact Hp2|].
    rewrite Hn2.
    pose proof (poll_view_tick env w) as Hv. cbv zeta in Hv.
    unfold poll_view in Hv.
    pose proof (f_equal (fun p => fst (fst p)) Hv) as Hn. cbn [fst] in Hn. lia.
Qed.

(** Started on a world with no poll pending, the channel has, [ms]
    milliseconds later, read the remote once per full second, at exactly
    the multiples of the period. *)
Lemma poll_is_periodic (env : Env) (w : World) (ms : nat) :
  polls (timers w) = [] ->
  fetch_log (elapse env ms (startWatch false w))
  = poll_times (now w) (ms / 1000) ++ fetch_log w.
Proof.
  intros Hnone.
  assert (H0 : polling (now w) (fetch_log w) 0 (startWatch false w)).
  { unfold polling, startWatch, run, setInterval, POLL_PERIOD_MS. cbn.
    splits; try lia; try reflexivity.
    exists (next_timer w).
    change (polls (timers w ++
              [mkTimer (next_timer w) (now w + 1000) (Interval 1000) PollTick])
            = [mkTimer (next_timer w) (now w + 1000) (Interval 1000) PollTick]).
    rewrite polls_app, Hnone. reflexivity. }
  destruct (polling_elapse env (now w) (fetch_log w) ms _ _ H0) as (c & (Hlo & Hhi & Hlog & _) & Hn).
  rewrite Hlog. f_equal. f_equal.
  assert (Hnow : now (startWatch false w) = now w) by reflexivity.
  rewrite Hnow in Hn. rewrite Hn in Hlo, Hhi. unfold POLL_PERIOD_MS in *.
  apply (Nat.div_unique ms 1000 c (ms - 1000 * c)); lia.
Qed.

Lemma poll_times_spec (t0 : Z) (count : nat) (t : Z) :
  In t (poll_times t0 count) <->
  exists k : nat, (1 <= k <= count)%nat /\ t = t0 + 1000 * Z.of_nat k.
Proof.
  induction count as [|c IH]; simpl.
  - split; [contradiction|]. intros (k & Hk & _). lia.
  - rewrite IH. unfold POLL_PERIOD_MS. split.
    + intros [H|(k & Hk & Ht)].
      * exists (S c). split; [lia|]. symmetry. exact H.
      * exists k. split; [lia|exact Ht].
    + intros (k & Hk & Ht).
      destruct (Nat.eq_dec k (S c)) as [->|Hne].
      * left. symmetry. exact Ht.
      * right. exists k. split; [lia|exact Ht].
Qed.

(** C5 (as the code has it): in poll mode the channel reads the remote at
    exactly the multiples of one second after it started.  A poll never
    rejects.  It forwards the document to [handleCanvasUpdate] exactly when
    the response is [ok], its body parses to a non-null value whose
    [canvas] is truthy and whose [updated_at] is truthy and not strictly
    equal to the token kept from the last forwarded poll -- different, not
    necessarily newer -- and then keeps [updated_at] as the new token; on a
    network failure, a non-[ok] response or an unreadable body the world is
    left as it was, but for the log of the request. *)
Theorem poll_channel (env : Env) :
  (forall w ms,
     polls (timers w) = [] ->
     fetch_log (elapse env ms (startWatch false w))
     = poll_times (now w) (ms / 1000) ++ fetch_log w
     /\ forall t,
          In t (poll_times (now w) (ms / 1000)) <->
          exists k : nat,
            (1 <= k)%nat /\ 1000 * Z.of_nat k <= Z.of_nat ms
            /\ t = now w + 1000 * Z.of_nat k)
  /\
  (forall w,
     let logged := with_fetch_log (now w :: fetch_log w) w in
     fst (pollTick env w) = Ok tt
     /\ match remote env (now w) with
        | Response true (Some data) =>
            match data with
            | Undefined | Null => run (pollTick env) w = logged
            | _ =>
                let canvas := get data "canvas" in
                let token := get canvas "updated_at" in
                if truthy canvas && truthy token
                   && negb (strict_eq token (lastUpdateTime w))
                then
                  run (pollTick env) w
                  = run (handleCanvasUpdate env
                           (mkDrawPayload (get canvas "elements")
                              (get canvas "app_state") (get canvas "files")))
                      (with_lastUpdateTime token logged)
                else run (pollTick env) w = logged
            end
        | _ => run (pollTick env) w = logged
        end).
Proof.
  split.
  - intros w ms Hnone. split; [apply poll_is_periodic, Hnone|].
    intros t. rewrite poll_times_spec. split.
    + intros (k & Hk & Ht). exists k. repeat split; try lia.
      assert (1000 * k <= ms)%nat; [|lia].
      pose proof (Nat.Div0.mul_div_le ms 1000). lia.
    + intros (k & Hk & Hle & Ht). exists k. split; [|exact Ht].
      split; [exact Hk|].
      apply Nat.div_le_lower_bound; lia.
  - intros w. cbv zeta. split; [apply pollTick_total|].
    unfold run. rewrite pollTick_value. unfold poll_observation.
    destruct (remote env (now w)) as [|[] [data|]]; try reflexivity.
    unfold poll_detects_update.
    destruct data; try reflexivity;
      match goal with |- context [if ?c then _ else _] => destruct c end;
      reflexivity.
Qed.

Lemma poll_channel_witness :
  fetch_log (elapse (sample_env NetworkError) 2500
               (startWatch false sample_mounted))
  = [sample_clock + 2000; sample_clock + 1000]
  /\ run (pollTick (sample_env NetworkError)) sample_mounted
     = with_fetch_log [sample_clock] sample_mounted.
Proof.
  destruct (poll_channel (sample_env NetworkError)) as [Hperiod Hpoll].
  split.
  - exact (proj1 (Hperiod sample_mounted 2500%nat eq_refl)).
  - exact (proj2 (Hpoll sample_mounted)).
Defined.

(** C5 (as stated) fails: the reported token 100 is not newer than the
    last seen 150, yet the poll forwards the document (the surface takes
    it) and keeps 100 as the token. *)
Lemma older_token_is_forwarded :
  let env := sample_env (canvas_response [sample_rectangle] (Num 100)) in
  let w' := run (pollTick env) world_seen_150 in
  JS.gt 100 150 = false
  /\ scene_log world_seen_150 = []
  /\ surface_elements w'
     = Arr (fst (normalizeElements env sample_clock 0 [sample_rectangle] 0))
  /\ lastUpdateTime w' = Num 100.
Proof.
  cbv zeta. repeat split; vm_compute; reflexivity.
Qed.

(** ** The echo flag at start-up *)

(** C2 at the start-up restore: the remote reports one rectangle; start-up
    applies it with the flag down and no timer queued to lower it, so the
    surface's own notification 10 ms later is taken for an edit and, 300 ms
    on, written to the cache a second time.  The same notification after
    the same document arrived through [handleCanvasUpdate] is dropped. *)
Theorem startup_echo_is_persisted :
  let env := sample_env (canvas_response [sample_rectangle] (Num 100)) in
  let started :=
    initEffect env (excalidrawAPI (initial (working_store None) sample_clock)) in
  let echoed := run_events env [Elapse 10; echo_of_rectangle; Elapse 300] started in
  let pushed :=
    run (handleCanvasUpdate env
           (mkDrawPayload (Arr [sample_rectangle]) Undefined Undefined))
      sample_mounted in
  let pushed_echoed :=
    run_events env [Elapse 10; echo_of_rectangle; Elapse 300] pushed in
  (surface_elements started = Arr [sample_rectangle]
   /\ isUpdatingFromRestore started = false
   /\ timers started = []
   /\ List.length (put_log (idb started)) = 1%nat
   /\ List.length (put_log (idb echoed)) = 2%nat
   /\ current (idb echoed)
      = Some (mkCanvasData (Arr [sample_rectangle])
                (Obj [("collaborators", MapV [])])
                (Num (num_of_Z (sample_clock + 310)))))
  /\
  (isUpdatingFromRestore pushed = true
   /\ timers pushed
      = [mkTimer 1 (sample_clock + 100) Timeout ClearRestoreFlag]
   /\ put_log (idb pushed_echoed) = put_log (idb pushed)).
Proof.
  cbv zeta. repeat split; vm_compute; reflexivity.
Qed.

(** ** The echo window *)

Lemma clears_app (l1 l2 : list Timer) :
  clears (l1 ++ l2) = clears l1 ++ clears l2.
Proof. apply filter_app. Qed.

Lemma flag_view_inv (w : World) (a : Z) (b : bool) (c : value)
    (d : list Timer) :
  flag_view w = (a, b, c, d) ->
  now w = a /\ isUpdatingFromRestore w = b /\ lastUpdateTime w = c
  /\ clears (timers w) = d.
Proof.
  unfold flag_view. intros H.
  pose proof (f_equal (fun p => fst (fst (fst p))) H) as H1.
  pose proof (f_equal (fun p => snd (fst (fst p))) H) as H2.
  pose proof (f_equal (fun p => snd (fst p)) H) as H3.
  pose proof (f_equal snd H) as H4.
  cbn in *. auto.
Qed.

Lemma flag_view_save (elements appState : value) (w : World) :
  flag_view (run (try_catch (saveCanvasData elements appState) (ret tt)) w)
  = flag_view w.
Proof.
  pose proof (@frame_saveCanvasData (fun w' => flag_view w' = flag_view w))
    as Hf.
  unfold run.
  apply preserves_try_catch; [apply Hf|apply preserves_ret|reflexivity].
  intros; assumption.
Qed.

(** One timer coming due while the remote has nothing new: only a flag
    reset touches the flag, and it lowers it. *)
Lemma flag_view_fire_timer (env : Env) (t : Timer) (w : World) :
  remote_silent env (lastUpdateTime w) ->
  flag_view (fire_timer env t w)
  = (now w,
     (if is_clear t then false else isUpdatingFromRestore w),
     lastUpdateTime w,
     clears (timers w) ++ (if is_clear t then rearmed t else [])).
Proof.
  intros Hsil. unfold fire_timer, fire, is_clear, rearmed.
  destruct (action t) as [|elements appState|] eqn:Ha.
  - destruct (kind t); unfold flag_view; cbn; rewrite ?clears_app; cbn;
      unfold is_clear; cbn; rewrite ?Ha, ?app_nil_r; reflexivity.
  - destruct (flag_view_inv _ _ _ _ _ (flag_view_save elements appState w))
      as (Hn & Hf & Hu & Hc).
    destruct (kind t); unfold flag_view; cbn; rewrite ?clears_app; cbn;
      unfold is_clear; cbn; rewrite ?Ha, ?app_nil_r, Hn, Hf, Hu, Hc;
      reflexivity.
  - unfold run. rewrite pollTick_value, Hsil. cbn [snd].
    destruct (kind t); unfold flag_view; cbn; rewrite ?clears_app; cbn;
      unfold is_clear; cbn; rewrite ?Ha, ?app_nil_r; reflexivity.
Qed.

Lemma flag_view_fold (env : Env) (ready : list Timer) (w : World) :
  remote_silent env (lastUpdateTime w) ->
  flag_view (fold_left (fun acc t => fire_timer env t acc) ready w)
  = (now w,
     (match clears ready with [] => isUpdatingFromRestore w | _ => false end),
     lastUpdateTime w,
     clears (timers w) ++ flat_map rearmed (clears ready)).
Proof.
  revert w. induction ready as [|t ready IH]; intros w Hsil; simpl fold_left.
  - unfold flag_view. cbn. now rewrite app_nil_r.
  - destruct (flag_view_inv _ _ _ _ _ (flag_view_fire_timer env t w Hsil))
      as (Hn & Hf & Hu & Hc).
    rewrite IH by (rewrite Hu; exact Hsil).
    rewrite Hn, Hf, Hu, Hc.
    assert (Hcl : clears (t :: ready) =
                  (if is_clear t then [t] else []) ++ clears ready).
    { unfold clears. simpl. destruct (is_clear t); reflexivity. }
    rewrite Hcl.
    destruct (is_clear t); cbn [flat_map app].
    + rewrite <- !app_assoc. destruct (clears ready); reflexivity.
    + rewrite app_nil_r. reflexivity.
Qed.

Lemma flag_view_tick (env : Env) (w : World) :
  remote_silent env (lastUpdateTime w) ->
  let ripe := filter (is_due (now w + 1)) (clears (timers w)) in
  flag_view (tick env w)
  = (now w + 1,
     (match ripe with [] => isUpdatingFromRestore w | _ => false end),
     lastUpdateTime w,
     filter (fun t => negb (is_due (now w + 1) t)) (clears (timers w))
     ++ flat_map rearmed ripe).
Proof.
  intros Hsil. cbv zeta. unfold tick. cbn [now timers with_now].
  rewrite flag_view_fold by exact Hsil.
  cbn [now isUpdatingFromRestore lastUpdateTime timers with_timers with_now].
  unfold clears. rewrite (filter_comm is_clear (is_due (now w + 1))).
  rewrite (filter_comm is_clear (fun t => negb (is_due (now w + 1) t))).
  reflexivity.
Qed.

Lemma suppressing_elapse (env : Env) (due_at : Z) (ms : nat) (w : World) :
  suppressing env due_at w ->
  now w + Z.of_nat ms < due_at ->
  suppressing env due_at (elapse env ms w)
  /\ now (elapse env ms w) = now w + Z.of_nat ms.
Proof.
  revert w. induction ms as [|k IH]; intros w Hs Hlt.
  - simpl elapse. split; [exact Hs|lia].
  - simpl elapse.
    pose proof Hs as (Hflag & Hsil & Hnow & id & Hc).
    pose proof (flag_view_tick env w Hsil) as Hv. cbv zeta in Hv.
    set (w1 := tick env w) in *. clearbody w1.
    rewrite Hc in Hv. cbn [filter] in Hv. unfold is_due in Hv. cbn [due] in Hv.
    assert (Hnd : (due_at <=? now w + 1) = false) by (apply Z.leb_gt; lia).
    rewrite Hnd in Hv. cbn [negb flat_map app] in Hv.
    destruct (flag_view_inv _ _ _ _ _ Hv) as (Hn1 & Hf1 & Hu1 & Hc1).
    assert (Hs1 : suppressing env due_at w1).
    { unfold suppressing. rewrite Hf1, Hu1, Hn1, Hc1.
      splits; try assumption; try lia. exists id. reflexivity. }
    destruct (IH w1 Hs1) as (Hs2 & Hn2); [lia|].
    split; [exact Hs2|lia].
Qed.

Lemma suppressing_ends (env : Env) (w : World) :
  suppressing env (now w + 1) w ->
  isUpdatingFromRestore (tick env w) = false.
Proof.
  intros (Hflag & Hsil & Hnow & id & Hc).
  pose proof (flag_view_tick env w Hsil) as Hv. cbv zeta in Hv.
  rewrite Hc in Hv. cbn [filter] in Hv. unfold is_due in Hv. cbn [due] in Hv.
  rewrite Z.leb_refl in Hv.
  destruct (flag_view_inv _ _ _ _ _ Hv) as (_ & Hf1 & _). exact Hf1.
Qed.

Lemma handleCanvasUpdate_applied (env : Env) (payload : DrawPayload)
    (w : World) :
  apiRef w = true ->
  healthy (idb w) ->
  (forall u, updateScene_throws env u = false) ->
  exists u d r,
    run (handleCanvasUpdate env payload) w
    = with_idb d (applied_under_flag u (with_rand_used r w)).
Proof.
  intros Hapi Hh Hacc. unfold run.
  destruct (payload_elements payload) as [|e l] eqn:He.
  - rewrite (handleCanvasUpdate_empty env payload w Hapi He (Hacc _) Hh).
    exists (emptying_update payload), (delete_record (set_db true (idb w))),
      (rand_used w).
    destruct w; reflexivity.
  - assert (Hne : payload_elements payload <> []) by (rewrite He; discriminate).
    rewrite (handleCanvasUpdate_nonempty env payload w Hapi Hne (Hacc _) Hh).
    eexists _, _, _. reflexivity.
Qed.

(** After a remote observation was applied, with no earlier reset of the
    flag pending and nothing new arriving from the remote: for the next
    100 ms the flag is up and every notification of the surface is dropped
    unchanged; at 100 ms the flag is down again. *)
Lemma echo_window (env : Env) (payload : DrawPayload) (w : World) :
  apiRef w = true ->
  healthy (idb w) ->
  (forall u, updateScene_throws env u = false) ->
  remote_silent env (lastUpdateTime w) ->
  clears (timers w) = [] ->
  let w' := run (handleCanvasUpdate env payload) w in
  (forall ms elements appState files,
     (ms < 100)%nat ->
     isUpdatingFromRestore (elapse env ms w') = true
     /\ run (onChange env elements appState files) (elapse env ms w')
        = elapse env ms w')
  /\ isUpdatingFromRestore (elapse env 100 w') = false.
Proof.
  intros Hapi Hh Hacc Hsil Hnone. cbv zeta.
  destruct (handleCanvasUpdate_applied env payload w Hapi Hh Hacc)
    as (u & d & r & ->).
  set (w' := with_idb d (applied_under_flag u (with_rand_used r w))).
  assert (Hs : suppressing env (now w' + ECHO_WINDOW_MS) w').
  { unfold suppressing, w', ECHO_WINDOW_MS. cbn.
    splits; try assumption; try reflexivity; try lia.
    exists (next_timer w).
    change (clears (timers w ++
              [mkTimer (next_timer w) (now w + 100) Timeout ClearRestoreFlag])
            = [mkTimer (next_timer w) (now w + 100) Timeout ClearRestoreFlag]).
    rewrite clears_app, Hnone. reflexivity. }
  clearbody w'. split.
  - intros ms elements appState files Hms.
    destruct (suppressing_elapse env _ ms w' Hs) as ((Hflag & _) & _).
    { unfold ECHO_WINDOW_MS. lia. }
    split; [exact Hflag|].
    unfold run. rewrite onChange_suppressed by exact Hflag. reflexivity.
  - change 100%nat with (99 + 1)%nat. rewrite elapse_add.
    destruct (suppressing_elapse env _ 99 w' Hs) as (Hs1 & Hn1).
    { unfold ECHO_WINDOW_MS. lia. }
    generalize dependent (elapse env 99 w'). intros w1 Hs1 Hn1.
    change (elapse env 1 w1) with (tick env w1).
    apply suppressing_ends.
    replace (now w1 + 1) with (now w' + ECHO_WINDOW_MS)
      by (unfold ECHO_WINDOW_MS; lia).
    exact Hs1.
Qed.

(** With an earlier reset still pending the window is cut short: the first
    observation's timer lowers the flag 50 ms after the second observation,
    and the second one's echo, 70 ms after it, is written as an edit. *)
Lemma overlapping_windows_cut_short :
  let env := sample_env NetworkError in
  let w := run_events env overlapping_applies sample_mounted in
  let w' := run_events env [echo_of_ellipse; Elapse 300] w in
  isUpdatingFromRestore w = false
  /\ List.length (put_log (idb w)) = 2%nat
  /\ List.length (put_log (idb w')) = 3%nat.
Proof.
  cbv zeta. repeat split; vm_compute; reflexivity.
Qed.

(** Neither a push nor a poll ever rejects: whatever the payload, the
    surface, the store and the network do, the failure is caught inside. *)
Lemma remote_handlers_never_reject (env : Env) (payload : DrawPayload)
    (w : World) :
  fst (handleCanvasUpdate env payload w) = Ok tt
  /\ fst (pollTick env w) = Ok tt.
Proof.
  split; [apply handleCanvasUpdate_total|apply pollTick_total].
Qed.

(** ** The normaliser's defaults *)

(** The fields every normalised element carries, each as the source
    computes it from the incoming element's own field. *)
Lemma normalizeElement_base (env : Env) (now_ : Z) (used : nat)
    (element : value) (index : nat) (k : string) (v : value) :
  let f := fun key => get (Obj (spread element)) key in
  In (k, v)
    [ ("id", JS.or (f "id")
               (Str ("element_" ++ string_of_Z now_ ++ "_"
                     ++ string_of_nat index)%string));
      ("groupIds", array_or (f "groupIds") (Arr []));
      ("boundElements", JS.or (f "boundElements") Null);
      ("updated", JS.or (f "updated") (Num (num_of_Z now_)));
      ("link", JS.or (f "link") Null);
      ("locked", Boolean (f "locked"));
      ("frameId", JS.or (f "frameId") Null);
      ("strokeColor", JS.or (f "strokeColor") (Str "#000000"));
      ("backgroundColor", JS.or (f "backgroundColor") (Str "transparent"));
      ("isDeleted", Boolean (f "isDeleted")) ] ->
  get (fst (normalizeElement env now_ used element index)) k = v.
Proof.
  cbv zeta. intros Hin. unfold normalizeElement.
  destruct (or_random env (get (Obj (spread element)) "seed") used) as [seed u1].
  destruct (or_random env (get (Obj (spread element)) "versionNonce") u1)
    as [nonce u2].
  cbv zeta.
  set (ty := get (Obj (spread element)) "type").
  simpl in Hin.
  destruct (is_str ty "text"), (is_str ty "arrow" || is_str ty "line"),
    (is_str ty "freedraw");
    cbn [fst];
    repeat (destruct Hin as [Hin|Hin];
            [injection Hin as <- <-; repeat rewrite get_assign; reflexivity|]);
    contradiction.
Qed.

(** An element that arrives without a field leaves normalisation with the
    default for it: opacity 100, roughness 1, strokeWidth 1, angle 0,
    version 1, black stroke, transparent background, no groups, no bound
    elements, no link, no frame, not locked, not deleted, and an id made
    of the clock and its position. *)
Lemma normalizeElement_defaults (env : Env) (now_ : Z) (used : nat)
    (element : value) (index : nat) :
  let absent := fun key => get (Obj (spread element)) key = Undefined in
  let out := fst (normalizeElement env now_ used element index) in
  (absent "opacity" -> get out "opacity" = Num 100)
  /\ (absent "roughness" -> get out "roughness" = Num 1)
  /\ (absent "strokeWidth" -> get out "strokeWidth" = Num 1)
  /\ (absent "angle" -> get out "angle" = Num 0)
  /\ (absent "version" -> get out "version" = Num 1)
  /\ (absent "strokeColor" -> get out "strokeColor" = Str "#000000")
  /\ (absent "backgroundColor" -> get out "backgroundColor" = Str "transparent")
  /\ (absent "groupIds" -> get out "groupIds" = Arr [])
  /\ (absent "boundElements" -> get out "boundElements" = Null)
  /\ (absent "link" -> get out "link" = Null)
  /\ (absent "frameId" -> get out "frameId" = Null)
  /\ (absent "locked" -> get out "locked" = Bool false)
  /\ (absent "isDeleted" -> get out "isDeleted" = Bool false)
  /\ (absent "id" ->
      get out "id"
      = Str ("element_" ++ string_of_Z now_ ++ "_" ++ string_of_nat index)%string).
Proof.
  cbv beta zeta.
  assert (Hnum : forall k d,
            In (k, d) [("opacity", 100%float); ("roughness", 1%float);
                       ("strokeWidth", 1%float); ("angle", 0%float);
                       ("version", 1%float)] ->
            get (Obj (spread element)) k = Undefined ->
            get (fst (normalizeElement env now_ used element index)) k = Num d).
  { intros k d Hin Habs.
    rewrite (normalizeElement_common env now_ used element index k d Hin).
    rewrite Habs. reflexivity. }
  assert (Hbase : forall k v v',
            In (k, v)
              [ ("id", JS.or (get (Obj (spread element)) "id")
                         (Str ("element_" ++ string_of_Z now_ ++ "_"
                               ++ string_of_nat index)%string));
                ("groupIds", array_or (get (Obj (spread element)) "groupIds") (Arr []));
                ("boundElements", JS.or (get (Obj (spread element)) "boundElements") Null);
                ("updated", JS.or (get (Obj (spread element)) "updated") (Num (num_of_Z now_)));
                ("link", JS.or (get (Obj (spread element)) "link") Null);
                ("locked", Boolean (get (Obj (spread element)) "locked"));
                ("frameId", JS.or (get (Obj (spread element)) "frameId") Null);
                ("strokeColor", JS.or (get (Obj (spread element)) "strokeColor") (Str "#000000"));
                ("backgroundColor", JS.or (get (Obj (spread element)) "backgroundColor") (Str "transparent"));
                ("isDeleted", Boolean (get (Obj (spread element)) "isDeleted")) ] ->
            v = v' ->
            get (fst (normalizeElement env now_ used element index)) k = v').
  { intros k v v' Hin <-.
    exact (normalizeElement_base env now_ used element index k v Hin). }
  splits; intros Habs.
  - apply Hnum; [simpl; auto|exact Habs].
  - apply Hnum; [simpl; auto|exact Habs].
  - apply Hnum; [simpl; auto|exact Habs].
  - apply Hnum; [simpl; auto|exact Habs].
  - apply Hnum; [simpl; auto 10|exact Habs].
  - eapply Hbase; [cbn [In]; eauto 20|rewrite Habs; reflexivity].
  - eapply Hbase; [cbn [In]; eauto 20|rewrite Habs; reflexivity].
  - eapply Hbase; [cbn [In]; eauto 20|rewrite Habs; reflexivity].
  - eapply Hbase; [cbn [In]; eauto 20|rewrite Habs; reflexivity].
  - eapply Hbase; [cbn [In]; eauto 20|rewrite Habs; reflexivity].
  - eapply Hbase; [cbn [In]; eauto 20|rewrite Habs; reflexivity].
  - eapply Hbase; [cbn [In]; eauto 20|rewrite Habs; reflexivity].
  - eapply Hbase; [cbn [In]; eauto 20|rewrite Habs; reflexivity].
  - eapply Hbase; [cbn [In]; eauto 20|rewrite Habs; reflexivity].
Qed.

Lemma echo_window_witness :
  isUpdatingFromRestore
    (elapse (sample_env NetworkError) 40
       (run (handleCanvasUpdate (sample_env NetworkError)
               (mkDrawPayload (Arr [sample_rectangle]) Undefined Undefined))
          sample_mounted)) = true
  /\ isUpdatingFromRestore
       (elapse (sample_env NetworkError) 100
          (run (handleCanvasUpdate (sample_env NetworkError)
                  (mkDrawPayload (Arr [sample_rectangle]) Undefined Undefined))
             sample_mounted)) = false.
Proof.
  destruct (echo_window (sample_env NetworkError)
              (mkDrawPayload (Arr [sample_rectangle]) Undefined Undefined)
              sample_mounted eq_refl
              (conj eq_refl (conj eq_refl (conj eq_refl eq_refl)))
              (fun _ => eq_refl) (fun _ => eq_refl) eq_refl)
    as [Hup Hdown].
  split.
  - exact (proj1 (Hup 40%nat Undefined Undefined Undefined ltac:(lia))).
  - exact Hdown.
Defined.

(** ** Laws of the store's operations *)

Lemma ensure_db_value (w : World) :
  ensure_db w =
  if openable (idb w) then (Ok tt, with_idb (set_db true (idb w)) w)
  else (Throw, w).
Proof.
  unfold openable, ensure_db, init.
  destruct (db (idb w)) eqn:Hdb; simpl.
  - rewrite set_db_idem by assumption. rewrite with_idb_same. reflexivity.
  - destruct (open_fails (idb w)); reflexivity.
Qed.

Lemma saveCanvasData_value (elements appState : value) (w : World) :
  saveCanvasData elements appState w =
  if openable (idb w) then
    if put_fails (idb w) then (Throw, with_idb (set_db true (idb w)) w)
    else (Ok tt,
          with_idb
            (put_record
               (mkCanvasData elements appState (Num (num_of_Z (now w))))
               (set_db true (idb w))) w)
  else (Throw, w).
Proof.
  unfold saveCanvasData, bind. rewrite ensure_db_value.
  destruct (openable (idb w)); [|reflexivity].
  simpl. destruct (put_fails (idb w)); [reflexivity|].
  destruct w; reflexivity.
Qed.

Lemma loadCanvasData_value (w : World) :
  loadCanvasData w =
  if openable (idb w) then
    if get_fails (idb w) then (Throw, with_idb (set_db true (idb w)) w)
    else (Ok (current (idb w)), with_idb (set_db true (idb w)) w)
  else (Throw, w).
Proof.
  unfold loadCanvasData, bind. rewrite ensure_db_value.
  destruct (openable (idb w)); [|reflexivity].
  simpl. destruct (get_fails (idb w)); [reflexivity|].
  destruct (current (idb w)) as [r|]; [rewrite canvasData_eta|]; reflexivity.
Qed.

Lemma clearCanvasData_value (w : World) :
  clearCanvasData w =
  if openable (idb w) then
    if delete_fails (idb w) then (Throw, with_idb (set_db true (idb w)) w)
    else (Ok tt, with_idb (delete_record (set_db true (idb w))) w)
  else (Throw, w).
Proof.
  unfold clearCanvasData, bind. rewrite ensure_db_value.
  destruct (openable (idb w)); [|reflexivity].
  simpl. destruct (delete_fails (idb w)); [reflexivity|].
  destruct w; reflexivity.
Qed.

Lemma readable_openable (d : IDB) :
  readable d = openable d && negb (get_fails d).
Proof. reflexivity. Qed.

(** Round trip: what [saveCanvasData] stored is what [loadCanvasData]
    hands back, stamped with the clock at the time of the save; a second
    save replaces the first (one record, the last write wins); and
    [getLastUpdateTime] is that stamp.  The connection need not have been
    opened beforehand. *)
Theorem save_then_load (elements appState elements' appState' : value)
    (w : World) :
  openable (idb w) = true ->
  put_fails (idb w) = false ->
  get_fails (idb w) = false ->
  let stamp := Num (num_of_Z (now w)) in
  fst ((saveCanvasData elements appState ;; loadCanvasData) w)
  = Ok (Some (mkCanvasData elements appState stamp))
  /\ fst ((saveCanvasData elements appState ;;
           saveCanvasData elements' appState' ;; loadCanvasData) w)
     = Ok (Some (mkCanvasData elements' appState' stamp))
  /\ fst ((saveCanvasData elements appState ;; getLastUpdateTime) w)
     = Ok stamp.
Proof.
  intros Hop Hput Hget. cbv zeta.
  unfold getLastUpdateTime, bind, ret.
  repeat (rewrite ?saveCanvasData_value, ?loadCanvasData_value;
          cbn [idb with_idb openable set_db put_record db put_fails get_fails
               current now orb fst snd];
          rewrite ?Hop, ?Hput, ?Hget).
  splits; reflexivity.
Qed.

Lemma save_then_load_witness :
  fst ((saveCanvasData (Arr [sample_rectangle]) (Obj []) ;; loadCanvasData)
         (initial (working_store None) sample_clock))
  = Ok (Some (mkCanvasData (Arr [sample_rectangle]) (Obj [])
                (Num (num_of_Z sample_clock)))).
Proof.
  exact (proj1 (save_then_load (Arr [sample_rectangle]) (Obj [])
                  (Arr []) (Obj [])
                  (initial (working_store None) sample_clock)
                  eq_refl eq_refl eq_refl)).
Defined.

(** After a successful [clearCanvasData] there is no record: the load
    gives [null], there is no last update time, and every timestamp is
    taken for newer.  Clearing writes nothing, and clearing an empty store
    succeeds as well. *)
Theorem clear_then_load (env : Env) (w : World) :
  openable (idb w) = true ->
  delete_fails (idb w) = false ->
  get_fails (idb w) = false ->
  fst (clearCanvasData w) = Ok tt
  /\ fst ((clearCanvasData ;; loadCanvasData) w) = Ok None
  /\ fst ((clearCanvasData ;; getLastUpdateTime) w) = Ok Null
  /\ (forall newTimestamp,
        fst ((clearCanvasData ;; shouldUpdateData env newTimestamp) w) = Ok true)
  /\ put_log (idb (run clearCanvasData w)) = put_log (idb w).
Proof.
  intros Hop Hdel Hget.
  unfold shouldUpdateData, getLastUpdateTime, try_catch, bind, ret, run.
  repeat (rewrite ?clearCanvasData_value, ?loadCanvasData_value;
          cbn [idb with_idb openable set_db delete_record db delete_fails
               get_fails current put_log now orb fst snd];
          rewrite ?Hop, ?Hdel, ?Hget).
  splits; reflexivity.
Qed.

Lemma clear_then_load_witness :
  fst ((clearCanvasData ;; loadCanvasData)
         (world_with_record (mkCanvasData (Arr [sample_rectangle]) (Obj []) (Num 5))))
  = Ok None.
Proof.
  exact (proj1 (proj2 (clear_then_load (sample_env NetworkError)
                         (world_with_record
                            (mkCanvasData (Arr [sample_rectangle]) (Obj []) (Num 5)))
                         eq_refl eq_refl eq_refl))).
Defined.

(** When a request is rejected: a save exactly when the connection cannot
    be made or the [put] fails, a clear exactly when the connection cannot
    be made or the [delete] fails, a load exactly when the connection
    cannot be made or the [get] fails.  A rejected request leaves the record
    and the history of writes as they were, and a load never changes them. *)
Theorem rejected_request_keeps_record (elements appState : value) (w : World) :
  (fst (saveCanvasData elements appState w) = Throw <->
   openable (idb w) = false \/ put_fails (idb w) = true)
  /\ (fst (clearCanvasData w) = Throw <->
      openable (idb w) = false \/ delete_fails (idb w) = true)
  /\ (fst (loadCanvasData w) = Throw <->
      openable (idb w) = false \/ get_fails (idb w) = true)
  /\ (fst (saveCanvasData elements appState w) = Throw ->
      contents (idb (run (saveCanvasData elements appState) w))
      = contents (idb w))
  /\ (fst (clearCanvasData w) = Throw ->
      contents (idb (run clearCanvasData w)) = contents (idb w))
  /\ contents (idb (run loadCanvasData w)) = contents (idb w).
Proof.
  unfold run.
  rewrite saveCanvasData_value, clearCanvasData_value, loadCanvasData_value.
  destruct (openable (idb w)), (put_fails (idb w)), (delete_fails (idb w)),
    (get_fails (idb w)); cbn [fst snd idb with_idb];
    splits; try reflexivity; try (intros; discriminate);
    try (split; [intros; discriminate|intros [|]; discriminate]);
    try (split; intros; auto; fail).
Qed.

(** ** The guarded save *)

Lemma shouldUpdateData_state (env : Env) (newTimestamp : float) (w : World) :
  snd (shouldUpdateData env newTimestamp w)
  = if openable (idb w) then with_idb (set_db true (idb w)) w else w.
Proof.
  unfold shouldUpdateData, getLastUpdateTime, try_catch, bind, ret.
  rewrite loadCanvasData_value.
  destruct (openable (idb w)); [|reflexivity].
  destruct (get_fails (idb w)); [reflexivity|].
  cbn [fst snd].
  destruct (negb (truthy _)); reflexivity.
Qed.

Lemma shouldUpdateData_pair (env : Env) (newTimestamp : float) (w : World) :
  exists b,
    shouldUpdateData env newTimestamp w
    = (Ok b, if openable (idb w) then with_idb (set_db true (idb w)) w else w).
Proof.
  pose proof (shouldUpdateData_value env newTimestamp w) as Hv.
  pose proof (shouldUpdateData_state env newTimestamp w) as Hs.
  destruct (shouldUpdateData env newTimestamp w) as [r w'].
  cbn [fst snd] in Hv, Hs. subst. eauto.
Qed.

(** [safelyUpdateCanvasData] never rejects.  It answers [true] exactly when
    it wrote the record (stamped with the clock, not with
    [sourceTimestamp]) and [false] exactly when it left the store as it
    was.  Without a [sourceTimestamp], or with one that is falsy (0, NaN),
    there is no conflict check and the answer is whether the save went
    through; with a truthy one the save is attempted only if
    [shouldUpdateData] agrees. *)
Theorem safelyUpdateCanvasData_characterised (env : Env)
    (elements appState : value) (sourceTimestamp : option float) (w : World) :
  let out := safelyUpdateCanvasData env elements appState sourceTimestamp w in
  let record := mkCanvasData elements appState (Num (num_of_Z (now w))) in
  (exists b, fst out = Ok b)
  /\ (fst out = Ok true ->
      contents (idb (snd out)) = (Some record, record :: put_log (idb w)))
  /\ (fst out = Ok false -> contents (idb (snd out)) = contents (idb w))
  /\ (match sourceTimestamp with
      | Some t => truthy (Num t) = false
      | None => True
      end -> fst out = Ok (writable (idb w)))
  /\ (forall t, sourceTimestamp = Some t -> truthy (Num t) = true ->
      exists b, fst (shouldUpdateData env t w) = Ok b
                /\ fst out = Ok (b && writable (idb w))).
Proof.
  cbv zeta.
  unfold safelyUpdateCanvasData, shouldUpdateData, getLastUpdateTime,
    try_catch, bind, ret, writable, contents.
  destruct sourceTimestamp as [t|]; [destruct (truthy (Num t)) eqn:Ht|];
    repeat first
      [ rewrite saveCanvasData_value
      | rewrite loadCanvasData_value
      | progress cbn [fst snd idb with_idb set_db openable db put_fails
                      get_fails open_fails current put_log now orb andb negb
                      put_record truthy]
      | progress cbv beta iota
      | match goal with
        | |- context [openable (idb w)] => destruct (openable (idb w)) eqn:?
        | |- context [get_fails (idb w)] => destruct (get_fails (idb w)) eqn:?
        | |- context [put_fails (idb w)] => destruct (put_fails (idb w)) eqn:?
        | |- context [match current (idb w) with _ => _ end] =>
            destruct (current (idb w)) as [r|] eqn:?
        | |- context [truthy (cd_timestamp ?r)] =>
            destruct (truthy (cd_timestamp r)) eqn:?
        | |- context [JS.gt t ?b] => destruct (JS.gt t b) eqn:?
        end ];
    splits;
    try solve
      [ eauto
      | intros; try discriminate; congruence
      | intros t' Ht' _; injection Ht' as <-; eexists; split;
        [reflexivity|]; rewrite ?andb_true_r, ?andb_false_r; congruence
      | intros t' Ht' Htt; injection Ht' as <-;
        change (truthy (Num t) = true) in Htt; congruence ].
Qed.

(** ** Repair, repeated *)

(** Repairing twice is repairing once: on a working store a second
    [repairData] at the same clock reading succeeds and leaves the record
    the first one left.  (It is written again all the same.) *)
Theorem repairData_idempotent (w : World) :
  healthy (idb w) ->
  let w1 := run repairData w in
  let w2 := run repairData w1 in
  fst (repairData w1) = Ok true
  /\ current (idb w2) = current (idb w1)
  /\ (forall r, current (idb w) = Some r ->
      put_log (idb w2) = repaired (now w) r :: repaired (now w) r :: put_log (idb w)).
Proof.
  intros Hh. cbv zeta. unfold run.
  rewrite (repairData_healthy w Hh). cbn [fst snd].
  assert (Hh1 : healthy (idb (with_idb (store_after_repair (now w) (idb w)) w))).
  { destruct Hh as (H1 & H2 & H3 & H4). unfold healthy, store_after_repair.
    destruct (current (idb w)); cbn; auto. }
  rewrite (repairData_healthy _ Hh1). cbn [fst snd idb with_idb now].
  assert (Hrep : forall t r, repaired t (repaired t r) = repaired t r).
  { intros t r. unfold repaired, appState_rejected. cbn [cd_elements cd_appState].
    destruct (isArray (cd_elements r)) eqn:He; [rewrite He|];
      (destruct (negb (truthy (cd_appState r))
                 || negb (String.eqb (typeof (cd_appState r)) "object")) eqn:Ha;
       [|rewrite Ha]); reflexivity. }
  unfold store_after_repair at 1 3.
  destruct (current (idb w)) as [r|] eqn:Hc.
  - cbn [store_after_repair current put_record set_db put_log].
    unfold store_after_repair. rewrite Hc.
    cbn [current put_record set_db put_log]. rewrite Hrep.
    splits; [reflexivity|reflexivity|].
    intros r0 [= <-]. reflexivity.
  - unfold store_after_repair. rewrite Hc.
    cbn [current set_db put_log]. rewrite Hc. cbn [current set_db].
    splits; [reflexivity|congruence|]. intros r0 H; discriminate.
Qed.

Lemma repairData_idempotent_witness :
  current (idb (run repairData (run repairData
     (world_with_record (mkCanvasData (Str "oops") Null (Str "yesterday"))))))
  = current (idb (run repairData
     (world_with_record (mkCanvasData (Str "oops") Null (Str "yesterday"))))).
Proof.
  refine (proj1 (proj2 (repairData_idempotent
            (world_with_record (mkCanvasData (Str "oops") Null (Str "yesterday")))
            _))).
  repeat split.
Defined.

(** ** The collaborator set, again *)

Lemma falsy_spread (v : value) : truthy v = false -> spread v = [].
Proof.
  destruct v as [| |b|f|s|l|ps|es]; simpl; try reflexivity; try discriminate.
  destruct s; [reflexivity|discriminate].
Qed.

(** [ensureCollaboratorsMap] is idempotent; it keeps every own property of
    the app state other than [collaborators]; and an app state whose
    [collaborators] is a [Map] already comes back as it is. *)
Theorem ensureCollaboratorsMap_idempotent (appState : value) :
  ensureCollaboratorsMap (ensureCollaboratorsMap appState)
  = ensureCollaboratorsMap appState
  /\ (forall k, k <> "collaborators" ->
      lookup k (spread (ensureCollaboratorsMap appState))
      = lookup k (spread appState))
  /\ (instanceofMap (get appState "collaborators") = true ->
      ensureCollaboratorsMap appState = appState).
Proof.
  unfold ensureCollaboratorsMap.
  destruct (truthy appState) eqn:Ht; cbn [negb].
  - destruct (instanceofMap (get appState "collaborators")) eqn:Hm.
    + rewrite Ht, Hm. cbn [negb]. splits; reflexivity.
    + splits.
      * cbn [truthy negb get]. rewrite lookup_set, String.eqb_refl.
        reflexivity.
      * intros k Hk. cbn [spread]. rewrite lookup_set.
        apply String.eqb_neq in Hk. rewrite Hk. reflexivity.
      * intros H; discriminate.
  - splits.
    + reflexivity.
    + intros k Hk. rewrite (falsy_spread appState Ht). cbn.
      apply String.eqb_neq in Hk. rewrite Hk. reflexivity.
    + intros Hm. exfalso.
      destruct appState as [| |b|f|s|l|ps|es]; try discriminate.
      destruct s; discriminate.
Qed.

(** ** What normalisation keeps *)

Ltac other_key H :=
  repeat match goal with
         | |- context [String.eqb ?k ?s] =>
             rewrite (H s) by (vm_compute; reflexivity)
         end.

Lemma normalizeElement_passes (env : Env) (now_ : Z) (used : nat)
    (element : value) (index : nat) (k : string) :
  ~ In k normaliser_keys ->
  get (fst (normalizeElement env now_ used element index)) k
  = get (Obj (spread element)) k.
Proof.
  intros Hk.
  assert (H : forall s, existsb (String.eqb s) normaliser_keys = true ->
                        String.eqb k s = false).
  { intros s Hs. apply String.eqb_neq. intros ->. apply Hk.
    apply existsb_exists in Hs as (x & Hx & Hxs).
    apply String.eqb_eq in Hxs. now subst. }
  unfold normalizeElement.
  destruct (or_random env (get (Obj (spread element)) "seed") used) as [seed u1].
  destruct (or_random env (get (Obj (spread element)) "versionNonce") u1)
    as [nonce u2].
  cbv zeta.
  set (ty := get (Obj (spread element)) "type").
  destruct (is_str ty "text"), (is_str ty "arrow" || is_str ty "line"),
    (is_str ty "freedraw");
    cbn [fst]; repeat rewrite get_assign;
    cbn [rev app lookup]; other_key H; reflexivity.
Qed.

Lemma normalizeElement_seeds (env : Env) (now_ : Z) (used : nat)
    (element : value) (index : nat) :
  let f := fun key => get (Obj (spread element)) key in
  let out := fst (normalizeElement env now_ used element index) in
  get out "seed" = fst (or_random env (f "seed") used)
  /\ get out "versionNonce"
     = fst (or_random env (f "versionNonce")
              (snd (or_random env (f "seed") used))).
Proof.
  cbv zeta. unfold normalizeElement.
  destruct (or_random env (get (Obj (spread element)) "seed") used) as [seed u1].
  cbn [fst snd].
  destruct (or_random env (get (Obj (spread element)) "versionNonce") u1)
    as [nonce u2].
  cbv zeta.
  set (ty := get (Obj (spread element)) "type").
  destruct (is_str ty "text"), (is_str ty "arrow" || is_str ty "line"),
    (is_str ty "freedraw");
    cbn [fst]; repeat rewrite get_assign; split; reflexivity.
Qed.

Lemma normalizeElements_nth (env : Env) (now_ : Z) (elements : list value) :
  forall (used index j : nat) (element : value),
    nth_error elements j = Some element ->
    exists used_j,
      nth_error (fst (normalizeElements env now_ used elements index)) j
      = Some (fst (normalizeElement env now_ used_j element (index + j))).
Proof.
  induction elements as [|e es IH]; intros used index j element Hj.
  - destruct j; discriminate.
  - simpl.
    destruct (normalizeElement env now_ used e index) as [e' u1] eqn:He.
    destruct (normalizeElements env now_ u1 es (S index)) as [es' u2] eqn:Hes.
    destruct j as [|j]; simpl in Hj |- *.
    + injection Hj as <-. exists used. rewrite Nat.add_0_r, He. reflexivity.
    + destruct (IH u1 (S index) j element Hj) as [uj Huj].
      rewrite Hes in Huj. cbn [fst] in Huj.
      exists uj. rewrite Huj. do 3 f_equal. lia.
Qed.

Lemma normalizeElements_length (env : Env) (now_ : Z) (elements : list value) :
  forall (used index : nat),
    List.length (fst (normalizeElements env now_ used elements index))
    = List.length elements.
Proof.
  induction elements as [|e es IH]; intros used index; simpl; [reflexivity|].
  destruct (normalizeElement env now_ used e index) as [e' u1].
  specialize (IH u1 (S index)).
  destruct (normalizeElements env now_ u1 es (S index)) as [es' u2].
  simpl in *. now rewrite IH.
Qed.

(** Normalisation neither drops nor reorders: the [j]-th element out is
    the [j]-th element in, normalised at position [j].  It leaves alone
    every property it does not own -- [type], the geometry, anything
    custom -- and an [id], [seed], [versionNonce] or [updated] that is
    truthy stays as it came. *)
Theorem normalizeElements_keeps_shape (env : Env) (now_ : Z) (used : nat)
    (elements : list value) :
  let out := fst (normalizeElements env now_ used elements 0) in
  List.length out = List.length elements
  /\ forall j element,
       nth_error elements j = Some element ->
       exists e used_j,
         nth_error out j = Some e
         /\ e = fst (normalizeElement env now_ used_j element j)
         /\ (forall k, ~ In k normaliser_keys ->
             get e k = get (Obj (spread element)) k)
         /\ (forall k, In k ["id"; "seed"; "versionNonce"; "updated"] ->
             truthy (get (Obj (spread element)) k) = true ->
             get e k = get (Obj (spread element)) k).
Proof.
  cbv zeta. split; [apply normalizeElements_length|].
  intros j element Hj.
  destruct (normalizeElements_nth env now_ elements used 0 j element Hj)
    as [uj Huj].
  exists (fst (normalizeElement env now_ uj element j)), uj.
  splits.
  - exact Huj.
  - reflexivity.
  - intros k Hk. apply normalizeElement_passes, Hk.
  - intros k Hin Ht.
    destruct (normalizeElement_seeds env now_ uj element j) as [Hseed Hnonce].
    cbv zeta in Hseed, Hnonce.
    simpl in Hin. destruct Hin as [<-|[<-|[<-|[<-|[]]]]].
    + rewrite (normalizeElement_base env now_ uj element j "id" _
                 (or_introl eq_refl)).
      unfold JS.or. rewrite Ht. reflexivity.
    + rewrite Hseed. unfold or_random. rewrite Ht. reflexivity.
    + rewrite Hnonce. unfold or_random at 1. rewrite Ht. reflexivity.
    + rewrite (normalizeElement_base env now_ uj element j "updated"
                 (JS.or (get (Obj (spread element)) "updated")
                    (Num (num_of_Z now_)))).
      * unfold JS.or. rewrite Ht. reflexivity.
      * simpl. tauto.
Qed.

(** ** Normalising what is normalised already *)

Lemma set_same (k : string) (v : value) (ps : props) :
  lookup k ps = Some v -> JS.set k v ps = ps.
Proof.
  induction ps as [|[k' v'] ps IH]; simpl; [discriminate|].
  destruct (String.eqb_spec k k') as [->|Hne].
  - intros [= ->]. reflexivity.
  - intros H. now rewrite IH.
Qed.

Lemma assign_same (fields o : props) :
  Forall (fun kv => lookup (fst kv) o = Some (snd kv)) fields ->
  assign fields o = o.
Proof.
  unfold assign. induction 1 as [|[k v] fields Hkv _ IH]; simpl; [reflexivity|].
  rewrite set_same by exact Hkv. exact IH.
Qed.

Lemma or_truthy (v d : value) : truthy v = true -> JS.or v d = v.
Proof. unfold JS.or. now intros ->. Qed.

Lemma or_idem (v d : value) : JS.or (JS.or v d) d = JS.or v d.
Proof.
  unfold JS.or. destruct (truthy v) eqn:Hv; cbv iota; [now rewrite Hv|].
  destruct (truthy d); reflexivity.
Qed.

Lemma Boolean_idem (v : value) : Boolean (Boolean v) = Boolean v.
Proof. reflexivity. Qed.

Lemma array_or_idem (v d d' : value) :
  isArray d = true -> array_or (array_or v d) d' = array_or v d.
Proof.
  intros Hd. unfold array_or.
  destruct (isArray v) eqn:Hv; cbv iota; [now rewrite Hv|now rewrite Hd].
Qed.

Lemma number_or_idem (env : Env) (v : value) (d : float) :
  number_or env (number_or env v d) d = number_or env v d.
Proof.
  unfold number_or, JS.or.
  destruct (truthy (Num (Number env v))) eqn:Hv; cbv iota; cbn [Number].
  - now rewrite Hv.
  - destruct (truthy (Num d)); reflexivity.
Qed.

Lemma originalText_idem (ot t : value) :
  JS.or (JS.or (JS.or (JS.or ot t) (Str "")) (JS.or t (Str ""))) (Str "")
  = JS.or (JS.or ot t) (Str "").
Proof.
  unfold JS.or.
  destruct (truthy ot) eqn:Hot, (truthy t) eqn:Ht;
    repeat (cbv iota; rewrite ?Hot, ?Ht); reflexivity.
Qed.

Lemma is_str_inv (v : value) (s : string) : is_str v s = true -> v = Str s.
Proof.
  destruct v; simpl; try discriminate.
  intros H. apply String.eqb_eq in H. now subst.
Qed.

Ltac settle B :=
  repeat match goal with
         | |- context [assign ?F B] => rewrite (assign_same F B)
         end.

Ltac look_up B :=
  cbn [fst snd get]; unfold B; repeat rewrite lookup_assign;
  cbv beta iota delta [rev app lookup String.eqb Ascii.eqb Bool.eqb].

(** An element that has been through the normaliser is a fixed point of
    it, whatever the clock, the position and the state of the random
    source on the second pass -- provided the first pass left it a truthy
    [seed], [versionNonce] and [updated] (a random draw of 0, or a clock
    reading of 0, would be taken for missing and replaced). *)
Theorem normalizeElement_idempotent (env : Env) (now_ now' : Z)
    (used used' : nat) (element : value) (index index' : nat) :
  let out := fst (normalizeElement env now_ used element index) in
  truthy (get out "seed") = true ->
  truthy (get out "versionNonce") = true ->
  truthy (get out "updated") = true ->
  normalizeElement env now' used' out index' = (out, used').
Proof.
  cbv zeta.
  remember (fst (normalizeElement env now_ used element index)) as out eqn:Hout.
  unfold normalizeElement in Hout.
  destruct (or_random env (get (Obj (spread element)) "seed") used) as [seed u1].
  destruct (or_random env (get (Obj (spread element)) "versionNonce") u1)
    as [nonce u2].
  cbv zeta in Hout.
  set (ty := get (Obj (spread element)) "type") in Hout.
  destruct (is_str ty "text") eqn:Htext,
    (is_str ty "arrow" || is_str ty "line") eqn:Harrow,
    (is_str ty "freedraw") eqn:Hfree.
  all: try (apply is_str_inv in Htext; rewrite Htext in Harrow, Hfree;
            simpl in Harrow, Hfree; discriminate).
  all: try (apply is_str_inv in Hfree; rewrite Hfree in Harrow;
            simpl in Harrow; discriminate).
  all: cbn [fst] in Hout;
    match type of Hout with _ = Obj ?b => set (B := b) in Hout end;
    subst out; intros Hseed Hnonce Hupd.
  all: assert (Hty : get (Obj B) "type" = ty)
         by (unfold B; repeat rewrite get_assign; reflexivity).
  all: unfold normalizeElement; cbn [spread];
       rewrite Hty, Htext, Harrow, Hfree;
       unfold or_random; rewrite Hseed, Hnonce; cbv beta iota zeta.
  all: settle B.
  all: try reflexivity.
  all: repeat apply Forall_cons; try apply Forall_nil.
  all: cbn [get] in Hupd; unfold B in Hupd;
       repeat rewrite lookup_assign in Hupd;
       cbv beta iota delta [rev app lookup String.eqb Ascii.eqb Bool.eqb]
         in Hupd.
  all: look_up B; f_equal; symmetry.
  all: first
         [ reflexivity
         | apply or_idem
         | apply Boolean_idem
         | apply number_or_idem
         | apply array_or_idem; reflexivity
         | apply originalText_idem
         | apply or_truthy; exact Hupd
         | apply or_truthy; unfold JS.or;
           destruct (truthy (get (Obj (spread element)) "id")) eqn:Hid;
           [exact Hid|reflexivity] ].
Qed.

Lemma normalizeElement_idempotent_witness :
  let out := fst (normalizeElement (sample_env NetworkError) sample_clock 0
                    sample_rectangle 0) in
  normalizeElement (sample_env NetworkError) (sample_clock + 1000) 2 out 5
  = (out, 2%nat).
Proof.
  cbv zeta. apply normalizeElement_idempotent; vm_compute; reflexivity.
Defined.

(** ** When the surface refuses an update *)

Lemma nonempty_length (e : value) (l : list value) :
  (0 <? Z.of_nat (List.length (e :: l))) = true.
Proof. apply Z.ltb_lt. simpl List.length. lia. Qed.

Lemma handleCanvasUpdate_refused (env : Env) (payload : DrawPayload)
    (w : World) :
  apiRef w = true ->
  refuses env payload w ->
  run (handleCanvasUpdate env payload) w
  = with_flag true
      (with_rand_used
         (snd (normalizeElements env (now w) (rand_used w)
                 (payload_elements payload) 0)) w).
Proof.
  intros Hapi Href. unfold run, refuses in *.
  unfold handleCanvasUpdate, normalized_update, retry_update, emptying_update,
    payload_elements in *.
  rewrite Hapi.
  destruct (match p_elements payload with Arr l => l | _ => [] end)
    as [|e l] eqn:Hel.
  - change (0 <? Z.of_nat (List.length (@nil value))) with false. cbv iota.
    unfold try_catch at 1, bind at 1.
    rewrite applyUnderFlag_refused by exact Href.
    destruct w; reflexivity.
  - destruct Href as [H1 H2].
    rewrite nonempty_length.
    unfold try_catch at 1, bind at 1, gets at 1, bind at 1, gets at 1.
    destruct (normalizeElements env (now w) (rand_used w) (e :: l) 0)
      as [processed used'] eqn:Hn.
    cbn [fst snd] in *.
    unfold bind at 1, modify at 1.
    unfold try_catch at 1, bind at 1.
    rewrite applyUnderFlag_refused by exact H1.
    unfold try_catch at 1, bind at 1.
    rewrite applyUnderFlag_refused by exact H2.
    destruct w; reflexivity.
Qed.

Lemma elapse_flag_stuck (env : Env) (ms : nat) :
  forall w,
    isUpdatingFromRestore w = true ->
    remote_silent env (lastUpdateTime w) ->
    clears (timers w) = [] ->
    isUpdatingFromRestore (elapse env ms w) = true.
Proof.
  induction ms as [|ms IH]; intros w Hf Hs Hc; [exact Hf|].
  simpl. pose proof (flag_view_tick env w Hs) as Hv. cbv zeta in Hv.
  rewrite Hc in Hv. cbn [filter flat_map app] in Hv.
  apply flag_view_inv in Hv as (_ & Hf' & Ht' & Hc').
  apply IH; [congruence|rewrite Ht'; exact Hs|exact Hc'].
Qed.

(** When the surface throws on the update (on both attempts, for a payload
    with elements), [handleCanvasUpdate] has raised the flag and nothing
    lowers it: no reset was queued.  Nothing was applied or stored, and
    from then on -- until a later update is accepted -- every notification
    of the surface is dropped, so the user's edits are not saved. *)
Theorem refused_update_leaves_flag_up (env : Env) (payload : DrawPayload)
    (w : World) :
  apiRef w = true ->
  refuses env payload w ->
  remote_silent env (lastUpdateTime w) ->
  clears (timers w) = [] ->
  let w' := run (handleCanvasUpdate env payload) w in
  scene_log w' = scene_log w
  /\ idb w' = idb w
  /\ timers w' = timers w
  /\ forall ms,
       isUpdatingFromRestore (elapse env ms w') = true
       /\ forall elements appState files,
            run (onChange env elements appState files) (elapse env ms w')
            = elapse env ms w'.
Proof.
  intros Hapi Href Hs Hc. cbv zeta.
  rewrite (handleCanvasUpdate_refused env payload w Hapi Href).
  set (w' := with_flag true _).
  splits; try reflexivity.
  intros ms.
  assert (Hf : isUpdatingFromRestore (elapse env ms w') = true)
    by (apply elapse_flag_stuck; [reflexivity|exact Hs|exact Hc]).
  split; [exact Hf|].
  intros elements appState files. unfold run.
  rewrite (onChange_suppressed env elements appState files _ Hf). reflexivity.
Qed.

Lemma refused_update_leaves_flag_up_witness :
  isUpdatingFromRestore
    (elapse refusing_env 5000
       (run (handleCanvasUpdate refusing_env
               (mkDrawPayload (Arr [sample_rectangle]) Undefined Undefined))
          sample_mounted)) = true.
Proof.
  refine (proj1 (proj2 (proj2 (proj2
            (refused_update_leaves_flag_up refusing_env
               (mkDrawPayload (Arr [sample_rectangle]) Undefined Undefined)
               sample_mounted eq_refl _ _ eq_refl))) 5000%nat)).
  - split; reflexivity.
  - intros t. reflexivity.
Defined.

Lemma handleCanvasUpdate_retried (env : Env) (payload : DrawPayload)
    (w : World) :
  apiRef w = true ->
  healthy (idb w) ->
  payload_elements payload <> [] ->
  updateScene_throws env (normalized_update env payload w) = true ->
  updateScene_throws env (retry_update env payload w) = false ->
  let processed :=
    normalizeElements env (now w) (rand_used w) (payload_elements payload) 0 in
  let record :=
    mkCanvasData (Arr (fst processed)) (JS.or (p_appState payload) (Obj []))
      (Num (num_of_Z (now w))) in
  run (handleCanvasUpdate env payload) w
  = with_idb (put_record record (set_db true (idb w)))
      (applied_under_flag (retry_update env payload w)
         (with_rand_used (snd processed) w)).
Proof.
  intros Hapi Hh Hne H1 H2. cbv zeta. unfold run.
  unfold handleCanvasUpdate, normalized_update, retry_update,
    payload_elements in *.
  rewrite Hapi.
  destruct (match p_elements payload with Arr l => l | _ => [] end)
    as [|e l] eqn:Hel; [congruence|].
  rewrite nonempty_length.
  unfold try_catch at 1, bind at 1, gets at 1, bind at 1, gets at 1.
  destruct (normalizeElements env (now w) (rand_used w) (e :: l) 0)
    as [processed used'] eqn:Hn.
  cbn [fst snd] in *.
  unfold bind at 1, modify at 1.
  unfold try_catch at 1, bind at 1.
  rewrite applyUnderFlag_refused by exact H1.
  unfold try_catch at 1, bind at 1.
  rewrite applyUnderFlag_accepted by exact H2.
  unfold try_catch.
  rewrite saveCanvasData_healthy by (destruct w; exact Hh).
  destruct w; reflexivity.
Qed.

(** When the surface throws on the first attempt only, the second one --
    without [files] -- goes through: the surface takes the normalised
    elements with no [files] key, the record is stored, the flag is up and
    its reset is queued. *)
Theorem retry_drops_files (env : Env) (payload : DrawPayload) (w : World) :
  apiRef w = true ->
  healthy (idb w) ->
  payload_elements payload <> [] ->
  updateScene_throws env (normalized_update env payload w) = true ->
  updateScene_throws env (retry_update env payload w) = false ->
  let w' := run (handleCanvasUpdate env payload) w in
  let processed :=
    fst (normalizeElements env (now w) (rand_used w)
           (payload_elements payload) 0) in
  scene_log w'
  = mkSceneUpdate (Arr processed) (ensureCollaboratorsMap (p_appState payload))
      Undefined :: scene_log w
  /\ current (idb w')
     = Some (mkCanvasData (Arr processed) (JS.or (p_appState payload) (Obj []))
               (Num (num_of_Z (now w))))
  /\ isUpdatingFromRestore w' = true
  /\ timers w'
     = timers w ++ [mkTimer (next_timer w) (now w + ECHO_WINDOW_MS) Timeout
                      ClearRestoreFlag].
Proof.
  intros Hapi Hh Hne H1 H2. cbv zeta.
  rewrite (handleCanvasUpdate_retried env payload w Hapi Hh Hne H1 H2).
  splits; reflexivity.
Qed.

Lemma retry_drops_files_witness :
  upd_files
    (hd (mkSceneUpdate Null Null Null)
       (scene_log
          (run (handleCanvasUpdate files_averse_env
                  (mkDrawPayload (Arr [sample_rectangle]) Undefined
                     (Obj [("f1", Str "image")])))
             sample_mounted)))
  = Undefined.
Proof.
  rewrite (proj1 (retry_drops_files files_averse_env
                    (mkDrawPayload (Arr [sample_rectangle]) Undefined
                       (Obj [("f1", Str "image")]))
                    sample_mounted eq_refl
                    (conj eq_refl (conj eq_refl (conj eq_refl eq_refl)))
                    ltac:(discriminate) eq_refl eq_refl)).
  reflexivity.
Defined.

(** ** A poll that comes too early *)

(** A poll that detects a new token while the surface has not handed over
    its API yet takes the token and drops the document: nothing is applied
    or stored.  As long as the remote keeps reporting that token, no later
    poll forwards the document either -- the token is compared with
    itself.  (A token compares equal to itself when it is a string, a
    boolean or a number.) *)
Theorem poll_before_surface_is_ready (env : Env) (w : World) (token : value)
    (payload : DrawPayload) :
  apiRef w = false ->
  poll_observation (remote env (now w)) (lastUpdateTime w)
  = Some (token, payload) ->
  run (pollTick env) w
  = with_lastUpdateTime token (with_fetch_log (now w :: fetch_log w) w)
  /\ (strict_eq token token = true ->
      forall w2 data,
        lastUpdateTime w2 = token ->
        remote env (now w2) = Response true (Some data) ->
        get (get data "canvas") "updated_at" = token ->
        run (pollTick env) w2 = with_fetch_log (now w2 :: fetch_log w2) w2).
Proof.
  intros Hapi Hobs. split.
  - unfold run. rewrite pollTick_value. cbv zeta. rewrite Hobs.
    unfold handleCanvasUpdate. cbn [apiRef with_lastUpdateTime with_fetch_log].
    rewrite Hapi. reflexivity.
  - intros Hself w2 data Hlast Hrem Htok.
    unfold run. rewrite pollTick_value. cbv zeta. rewrite Hrem.
    unfold poll_observation, poll_detects_update.
    rewrite Htok, Hlast, Hself. cbn [negb]. rewrite andb_false_r.
    destruct data; reflexivity.
Qed.

Lemma poll_before_surface_is_ready_witness :
  let env := sample_env (canvas_response [sample_rectangle] (Str "v1")) in
  let w := initial (working_store None) sample_clock in
  let w1 := run (pollTick env) w in
  scene_log w1 = [] /\ lastUpdateTime w1 = Str "v1"
  /\ scene_log (run (pollTick env) (with_apiRef true w1)) = [].
Proof.
  cbv zeta.
  destruct (poll_before_surface_is_ready
              (sample_env (canvas_response [sample_rectangle] (Str "v1")))
              (initial (working_store None) sample_clock)
              (Str "v1")
              (mkDrawPayload (Arr [sample_rectangle]) (Obj []) (Obj []))
              eq_refl eq_refl) as [H1 H2].
  rewrite H1. split; [reflexivity|split; [reflexivity|]].
  erewrite (H2 eq_refl); reflexivity.
Defined.

(** ** A debounced save that fails *)

Lemma fire_timer_unwritable (env : Env) (t : Timer) (w : World) :
  put_fails (idb w) = true ->
  remote_silent env (lastUpdateTime w) ->
  let w' := fire_timer env t w in
  put_fails (idb w') = true
  /\ lastUpdateTime w' = lastUpdateTime w
  /\ contents (idb w') = contents (idb w)
  /\ lastSaveDataRef w' = lastSaveDataRef w
  /\ now w' = now w.
Proof.
  intros Hput Hs. cbv zeta. unfold fire_timer, fire.
  destruct (action t) as [|elements appState|] eqn:Ha.
  - destruct (kind t); splits; assumption || reflexivity.
  - unfold run, try_catch. rewrite saveCanvasData_value, Hput.
    destruct (openable (idb w)), (kind t); cbn; splits;
      assumption || reflexivity.
  - unfold run. rewrite pollTick_value. cbv zeta. rewrite (Hs (now w)).
    destruct (kind t); cbn; splits; assumption || reflexivity.
Qed.

Lemma fold_fire_unwritable (env : Env) (ready : list Timer) :
  forall w,
    put_fails (idb w) = true ->
    remote_silent env (lastUpdateTime w) ->
    let w' := fold_left (fun acc t => fire_timer env t acc) ready w in
    put_fails (idb w') = true
    /\ lastUpdateTime w' = lastUpdateTime w
    /\ contents (idb w') = contents (idb w)
    /\ lastSaveDataRef w' = lastSaveDataRef w
    /\ now w' = now w.
Proof.
  induction ready as [|t ready IH]; intros w Hput Hs; cbv zeta.
  - splits; assumption || reflexivity.
  - simpl.
    destruct (fire_timer_unwritable env t w Hput Hs) as (H1 & H2 & H3 & H4 & H5).
    destruct (IH (fire_timer env t w) H1) as (G1 & G2 & G3 & G4 & G5).
    { rewrite H2. exact Hs. }
    splits; congruence.
Qed.

Lemma elapse_unwritable (env : Env) (ms : nat) :
  forall w,
    put_fails (idb w) = true ->
    remote_silent env (lastUpdateTime w) ->
    contents (idb (elapse env ms w)) = contents (idb w)
    /\ lastSaveDataRef (elapse env ms w) = lastSaveDataRef w.
Proof.
  induction ms as [|ms IH]; intros w Hput Hs; [split; reflexivity|].
  simpl.
  assert (Ht : put_fails (idb (tick env w)) = true
               /\ lastUpdateTime (tick env w) = lastUpdateTime w
               /\ contents (idb (tick env w)) = contents (idb w)
               /\ lastSaveDataRef (tick env w) = lastSaveDataRef w
               /\ now (tick env w) = now w + 1).
  { unfold tick. cbv zeta.
    apply (fold_fire_unwritable env _
             (with_timers _ (with_now (now w + 1) w))); assumption. }
  destruct Ht as (H1 & H2 & H3 & H4 & _).
  destruct (IH (tick env w) H1) as [G1 G2].
  { rewrite H2. exact Hs. }
  split; congruence.
Qed.

(** When the store refuses writes, an edit is lost for good: the debounced
    save fails quietly, and because the hash was recorded when the save
    was scheduled, not when it succeeded, a later notification with the
    same content is taken for a duplicate and schedules nothing.  However
    long one waits, nothing is written. *)
Theorem failed_save_is_not_retried (env : Env) (n n' : Notification)
    (w : World) :
  isUpdatingFromRestore w = false ->
  put_fails (idb w) = true ->
  remote_silent env (lastUpdateTime w) ->
  dataHash env n' = dataHash env n ->
  forall ms,
    let w' := elapse env ms (notify env n w) in
    contents (idb w') = contents (idb w)
    /\ notify env n' w' = w'.
Proof.
  intros Hflag Hput Hs Hsame ms. cbv zeta.
  assert (Hidb : idb (notify env n w) = idb w
                 /\ lastUpdateTime (notify env n w) = lastUpdateTime w).
  { destruct (String.eqb_spec (dataHash env n) (lastSaveDataRef w)) as [He|Hne].
    - rewrite (notify_same_hash env n w He). split; reflexivity.
    - rewrite (notify_new_hash env n w Hflag Hne). split; reflexivity. }
  destruct Hidb as [Hidb Htok].
  destruct (elapse_unwritable env ms (notify env n w)) as [Hc Hh].
  { rewrite Hidb. exact Hput. }
  { rewrite Htok. exact Hs. }
  split.
  - rewrite Hc, Hidb. reflexivity.
  - apply notify_same_hash.
    rewrite Hh, (notify_records_hash env n w Hflag). exact Hsame.
Qed.

Lemma failed_save_is_not_retried_witness :
  let env := sample_env NetworkError in
  let w := with_apiRef true (initial (read_only_store None) sample_clock) in
  let w' := elapse env 400 (notify env sample_burst_first w) in
  put_log (idb w') = [] /\ notify env sample_burst_first w' = w'.
Proof.
  cbv zeta.
  destruct (failed_save_is_not_retried (sample_env NetworkError)
              sample_burst_first sample_burst_first
              (with_apiRef true (initial (read_only_store None) sample_clock))
              eq_refl eq_refl (fun t => eq_refl) eq_refl 400%nat) as [H1 H2].
  split; [|exact H2].
  exact (f_equal snd H1).
Defined.

(** ** Repair when the record cannot be written back *)

Lemma repairData_unwritable (w : World) :
  put_fails (idb w) = true ->
  repairData w =
  if openable (idb w) then
    if get_fails (idb w) then
      if delete_fails (idb w)
      then (Ok false, with_idb (set_db true (idb w)) w)
      else (Ok true, with_idb (delete_record (set_db true (idb w))) w)
    else
      match current (idb w) with
      | None => (Ok true, with_idb (set_db true (idb w)) w)
      | Some _ =>
          if delete_fails (idb w)
          then (Ok false, with_idb (set_db true (idb w)) w)
          else (Ok true, with_idb (delete_record (set_db true (idb w))) w)
      end
  else (Ok false, w).
Proof.
  intros Hput. unfold repairData, try_catch, bind, ret, gets.
  rewrite loadCanvasData_value.
  destruct (openable (idb w)) eqn:Hop.
  - destruct (get_fails (idb w)) eqn:Hget.
    + rewrite clearCanvasData_value.
      cbn [idb with_idb openable set_db db orb delete_fails].
      destruct (delete_fails (idb w)); destruct w; reflexivity.
    + destruct (current (idb w)) as [r|]; [|reflexivity].
      rewrite saveCanvasData_value.
      cbn [idb with_idb openable set_db db orb put_fails]. rewrite Hput.
      rewrite clearCanvasData_value.
      cbn [idb with_idb openable set_db db orb delete_fails].
      destruct (delete_fails (idb w)); destruct w; reflexivity.
  - rewrite clearCanvasData_value, Hop. reflexivity.
Qed.

(** When the record can be read but not written back, [repairData] falls
    into its catch and deletes it: a store that has turned read-only loses
    its record at the next repair.  Only if the delete fails as well does
    [repairData] answer [false], with the record left in place. *)
Theorem repairData_deletes_unwritable_record (w : World) (r : CanvasData) :
  readable (idb w) = true ->
  current (idb w) = Some r ->
  put_fails (idb w) = true ->
  put_log (idb (run repairData w)) = put_log (idb w)
  /\ if delete_fails (idb w)
     then fst (repairData w) = Ok false
          /\ current (idb (run repairData w)) = Some r
     else fst (repairData w) = Ok true
          /\ current (idb (run repairData w)) = None.
Proof.
  intros Hr Hc Hput. unfold run.
  rewrite (repairData_unwritable w Hput).
  rewrite readable_openable in Hr. apply andb_true_iff in Hr as [Hop Hget].
  apply negb_true_iff in Hget. rewrite Hop, Hget, Hc.
  destruct (delete_fails (idb w)); cbn; rewrite ?Hc; splits; reflexivity.
Qed.

Lemma repairData_deletes_unwritable_record_witness :
  current (idb (run repairData
     (initial (read_only_store
                 (Some (mkCanvasData (Arr [sample_rectangle]) (Obj []) (Num 5))))
        sample_clock))) = None.
Proof.
  exact (proj2 (proj2 (repairData_deletes_unwritable_record
                  (initial (read_only_store
                     (Some (mkCanvasData (Arr [sample_rectangle]) (Obj []) (Num 5))))
                     sample_clock)
                  (mkCanvasData (Arr [sample_rectangle]) (Obj []) (Num 5))
                  eq_refl eq_refl eq_refl))).
Defined.

(** With a surface that takes the update, what [handleCanvasUpdate]
    leaves behind, whatever the store does. *)
Lemma handleCanvasUpdate_accepted (env : Env) (payload : DrawPayload)
    (w : World) :
  apiRef w = true ->
  (forall u, updateScene_throws env u = false) ->
  exists d,
    run (handleCanvasUpdate env payload) w
    = with_idb d
        (applied_under_flag
           match payload_elements payload with
           | [] => emptying_update payload
           | _ :: _ => normalized_update env payload w
           end
           (with_rand_used
              (snd (normalizeElements env (now w) (rand_used w)
                      (payload_elements payload) 0)) w))
    /\ (payload_elements payload <> [] -> put_fails (idb w) = true ->
        contents d = contents (idb w))
    /\ (payload_elements payload = [] -> delete_fails (idb w) = true ->
        contents d = contents (idb w)).
Proof.
  intros Hapi Hacc.
  unfold run, handleCanvasUpdate, normalized_update, emptying_update,
    payload_elements.
  rewrite Hapi.
  destruct (match p_elements payload with Arr l => l | _ => [] end)
    as [|e l] eqn:Hel.
  - change (0 <? Z.of_nat (List.length (@nil value))) with false. cbv iota.
    unfold try_catch at 1, bind at 1.
    rewrite applyUnderFlag_accepted by apply Hacc.
    unfold try_catch, ret. rewrite clearCanvasData_value.
    cbn [idb applied_under_flag with_next_timer with_timers with_scene_log
         with_flag].
    destruct (openable (idb w)); [destruct (delete_fails (idb w)) eqn:Hd|];
      cbn [fst snd];
      eexists; (split; [destruct w; reflexivity|]);
      split; intros; try congruence; reflexivity.
  - rewrite nonempty_length.
    unfold try_catch at 1, bind at 1, gets at 1, bind at 1, gets at 1.
    destruct (normalizeElements env (now w) (rand_used w) (e :: l) 0)
      as [processed used'] eqn:Hn.
    cbn [fst snd].
    unfold bind at 1, modify at 1.
    unfold try_catch at 1, bind at 1.
    rewrite applyUnderFlag_accepted by apply Hacc.
    unfold try_catch, ret. rewrite saveCanvasData_value.
    cbn [idb applied_under_flag with_next_timer with_timers with_scene_log
         with_flag with_rand_used].
    destruct (openable (idb w)); [destruct (put_fails (idb w)) eqn:Hd|];
      cbn [fst snd];
      eexists; (split; [destruct w; reflexivity|]);
      split; intros; try congruence; reflexivity.
Qed.

(** ** Start-up when the store misbehaves *)

Lemma initializeStorage_total (env : Env) (w : World) :
  fst (initializeStorage env w) = Ok tt.
Proof.
  unfold initializeStorage.
  match goal with
  | |- fst (try_catch ?body ?handler w) = _ =>
      destruct (try_catch_total body handler) with (w := w) as (a & w' & H)
  end.
  - apply try_catch_total, ret_total.
  - rewrite H. destruct a. reflexivity.
Qed.

Lemma repairData_keeps_surface (w : World) :
  fetch_log (snd (repairData w)) = fetch_log w
  /\ scene_log (snd (repairData w)) = scene_log w.
Proof.
  apply (frame_repairData
           (fun w' => fetch_log w' = fetch_log w /\ scene_log w' = scene_log w)).
  - intros d w' H. exact H.
  - split; reflexivity.
Qed.

(** Start-up never rejects.  If the store cannot be opened, it gives up
    before asking the remote: no request is issued and nothing is put on
    the surface, whatever the remote holds; with no connection from
    before, the world is left exactly as it was. *)
Theorem startup_without_store (env : Env) (w : World) :
  fst (initializeStorage env w) = Ok tt
  /\ (open_fails (idb w) = true ->
      fetch_log (run (initializeStorage env) w) = fetch_log w
      /\ scene_log (run (initializeStorage env) w) = scene_log w
      /\ (db (idb w) = false -> run (initializeStorage env) w = w)).
Proof.
  split; [apply initializeStorage_total|].
  intros Hop.
  assert (Hv : run (initializeStorage env) w = snd (repairData w)).
  { unfold run, initializeStorage.
    unfold try_catch at 1, bind at 1, init. rewrite Hop.
    destruct (repairData_total w) as (b & w' & Hr).
    unfold try_catch, bind, ret. rewrite Hr. reflexivity. }
  rewrite Hv.
  pose proof (repairData_keeps_surface w) as [Hf Hsc].
  splits; [exact Hf|exact Hsc|].
  intros Hdb.
  assert (Hno : openable (idb w) = false)
    by (unfold openable; rewrite Hdb, Hop; reflexivity).
  unfold repairData, try_catch, bind, ret.
  rewrite loadCanvasData_value, Hno.
  rewrite clearCanvasData_value, Hno. reflexivity.
Qed.

Lemma startup_without_store_witness :
  let env := sample_env (canvas_response [sample_rectangle] (Num 100)) in
  let w := with_apiRef true
             (initial (mkIDB true false false false false None []) sample_clock) in
  fetch_log (run (initializeStorage env) w) = []
  /\ scene_log (run (initializeStorage env) w) = [].
Proof.
  cbv zeta.
  destruct (proj2 (startup_without_store
                     (sample_env (canvas_response [sample_rectangle] (Num 100)))
                     (with_apiRef true
                        (initial (mkIDB true false false false false None [])
                           sample_clock)))
              eq_refl) as (H1 & H2 & _).
  split; [exact H1|exact H2].
Defined.

Lemma repairData_unwritable_state (w : World) :
  put_fails (idb w) = true ->
  exists b d,
    repairData w = (Ok b, with_idb d w)
    /\ put_fails d = true
    /\ put_log d = put_log (idb w)
    /\ (db (idb w) = true -> db d = true).
Proof.
  intros Hput. rewrite (repairData_unwritable w Hput).
  destruct (openable (idb w)).
  - destruct (get_fails (idb w)); [|destruct (current (idb w))];
      destruct (delete_fails (idb w));
      eexists _, _; (split; [reflexivity|]); cbn; auto.
  - exists false, (idb w). rewrite with_idb_same. auto.
Qed.

Lemma fetchBackendData_unwritable (env : Env) (w : World) :
  db (idb w) = true ->
  put_fails (idb w) = true ->
  let logged := with_fetch_log (now w :: fetch_log w) w in
  fetchBackendData env w =
  match backend_document (remote env (now w)) with
  | Some canvas => (Ok canvas, logged)
  | None => (Ok Null, logged)
  end.
Proof.
  intros Hdb Hput. cbv zeta.
  unfold fetchBackendData, fetch_canvas, backend_document.
  unfold try_catch at 1, bind at 1.
  destruct (remote env (now w)) as [|ok body]; [reflexivity|].
  cbn [fst snd]. destruct ok; [|reflexivity].
  destruct body as [data|]; [|reflexivity].
  unfold json, bind at 1, ret at 1.
  destruct data; unfold member, bind at 1, throw, ret at 1; try reflexivity;
    cbv beta iota;
    match goal with |- context [truthy ?c && truthy ?e] =>
      destruct (truthy c && truthy e) end; try reflexivity;
    unfold bind, try_catch, ret;
    rewrite saveCanvasData_value;
    unfold openable; cbn [idb with_fetch_log]; rewrite Hdb, Hput; cbn [orb];
    rewrite set_db_idem by exact Hdb;
    destruct w; reflexivity.
Qed.

(** When the store opens but refuses writes, start-up still shows the
    remote document: the failed save is swallowed and the document goes to
    the surface as received; nothing is written. *)
Theorem startup_applies_what_it_cannot_save (env : Env) (w : World)
    (canvas : value) :
  apiRef w = true ->
  open_fails (idb w) = false ->
  put_fails (idb w) = true ->
  backend_document (remote env (now w)) = Some canvas ->
  (forall u, updateScene_throws env u = false) ->
  let w' := run (initializeStorage env) w in
  scene_log w'
  = mkSceneUpdate (get canvas "elements")
      (ensureCollaboratorsMap (get canvas "appState"))
      (JS.or (get canvas "files") (Obj [])) :: scene_log w
  /\ put_log (idb w') = put_log (idb w).
Proof.
  intros Hapi Hop Hput Hb Hacc. cbv zeta.
  set (u := mkSceneUpdate _ _ _).
  enough (Hv : exists d, put_log d = put_log (idb w)
                 /\ run (initializeStorage env) w
                    = with_scene_log (u :: scene_log w)
                        (with_fetch_log (now w :: fetch_log w) (with_idb d w))).
  { destruct Hv as (d & Hl & ->). split; [reflexivity|exact Hl]. }
  unfold run, initializeStorage.
  unfold try_catch at 1, bind at 1, init. rewrite Hop.
  set (w1 := with_idb (set_db true (idb w)) w).
  destruct (repairData_unwritable_state w1) as (b & d & Hr & Hp & Hl & Hd);
    [exact Hput|].
  specialize (Hd eq_refl).
  unfold bind at 1. rewrite Hr.
  unfold bind at 1.
  rewrite (fetchBackendData_unwritable env (with_idb d w1) Hd Hp).
  change (now (with_idb d w1)) with (now w). rewrite Hb.
  rewrite (backend_document_truthy _ _ Hb).
  unfold bind, ret, gets, updateScene.
  cbn [apiRef with_fetch_log with_idb w1]. rewrite Hapi.
  cbn [upd_elements upd_appState upd_files]. rewrite Hacc.
  exists d. split; [exact Hl|]. destruct w; reflexivity.
Qed.

Lemma startup_applies_what_it_cannot_save_witness :
  surface_elements
    (run (initializeStorage
            (sample_env (canvas_response [sample_rectangle] (Num 100))))
       (with_apiRef true (initial (read_only_store None) sample_clock)))
  = Arr [sample_rectangle].
Proof.
  unfold surface_elements.
  rewrite (proj1 (startup_applies_what_it_cannot_save
                    (sample_env (canvas_response [sample_rectangle] (Num 100)))
                    (with_apiRef true (initial (read_only_store None) sample_clock))
                    _ eq_refl eq_refl eq_refl eq_refl (fun _ => eq_refl))).
  reflexivity.
Defined.

(** ** Start-up runs once *)

Lemma initializeStorage_keeps_apiRef (env : Env) (w : World) :
  apiRef (run (initializeStorage env) w) = apiRef w.
Proof.
  apply (frame_initializeStorage (fun w' => apiRef w' = apiRef w));
    try (intros; assumption).
  reflexivity.
Qed.

Lemma with_apiRef_same (w : World) :
  apiRef w = true -> with_apiRef true w = w.
Proof. destruct w; simpl; intros ->; reflexivity. Qed.

(** The surface may hand over its API more than once, and the component
    may render any number of times; the restore runs the first time the
    start-up effect finds the handle, and only then.  Afterwards a second
    hand-over, a render, or both change nothing: no second request, no
    second apply, no second repair. *)
Theorem startup_runs_once (env : Env) (w : World) :
  initEffect env (excalidrawAPI (initEffect env (excalidrawAPI w)))
  = initEffect env (excalidrawAPI w)
  /\ isInitialized (initEffect env (excalidrawAPI w)) = true
  /\ apiRef (initEffect env (excalidrawAPI w)) = true
  /\ initEffect env (initEffect env (excalidrawAPI w))
     = initEffect env (excalidrawAPI w)
  /\ excalidrawAPI (initEffect env (excalidrawAPI w))
     = initEffect env (excalidrawAPI w).
Proof.
  assert (Hdone : isInitialized (initEffect env (excalidrawAPI w)) = true
                  /\ apiRef (initEffect env (excalidrawAPI w)) = true).
  { unfold excalidrawAPI, initEffect.
    change (apiRef (with_apiRef true w)) with true.
    change (isInitialized (with_apiRef true w)) with (isInitialized w).
    destruct (isInitialized w) eqn:Hi; cbn [andb negb].
    - split; [exact Hi|reflexivity].
    - split; [reflexivity|].
      change (apiRef (with_isInitialized true ?x)) with (apiRef x).
      exact (initializeStorage_keeps_apiRef env (with_apiRef true w)). }
  destruct Hdone as [Hi Ha]. splits; [|exact Hi|exact Ha| |].
  - generalize dependent (initEffect env (excalidrawAPI w)). intros w1 Hi Ha.
    unfold excalidrawAPI, initEffect.
    change (apiRef (with_apiRef true w1)) with true.
    change (isInitialized (with_apiRef true w1)) with (isInitialized w1).
    rewrite Hi. cbn [andb negb]. apply with_apiRef_same, Ha.
  - generalize dependent (initEffect env (excalidrawAPI w)). intros w1 Hi Ha.
    unfold initEffect. rewrite Hi, Ha. reflexivity.
  - apply with_apiRef_same, Ha.
Qed.

(** ** Timer handles *)

(** Cancelling timers leaves the remaining handles distinct. *)
Lemma distinct_handles_filter (keep : Timer -> bool) (ts : list Timer) :
  NoDup (map tid ts) -> NoDup (map tid (filter keep ts)).
Proof.
  intros Hnd. induction ts as [|t ts IH]; simpl; [constructor|].
  simpl in Hnd. apply NoDup_cons_iff in Hnd as [Hfresh Hrest].
  destruct (keep t); simpl; [|exact (IH Hrest)].
  apply NoDup_cons_iff. split; [|exact (IH Hrest)].
  intros Hin. apply Hfresh.
  apply in_map_iff in Hin as (t' & Hid & Hin).
  apply filter_In in Hin as [Hin _].
  apply in_map_iff. exists t'. split; assumption.
Qed.

Lemma split_by_due {A} (p : A -> bool) (l : list A) :
  Permutation (filter (fun x => negb (p x)) l ++ filter p l) l.
Proof.
  induction l as [|x l IH]; simpl; [constructor|].
  destruct (p x); simpl.
  - apply Permutation_sym, Permutation_cons_app, Permutation_sym, IH.
  - constructor. exact IH.
Qed.

Lemma handles_queue (rest : list Timer) (due_at : Z) (k : TimerKind)
    (a : TimerAction) (w : World) :
  handles_ok rest w ->
  handles_ok rest
    (with_next_timer (Pos.succ (next_timer w))
       (with_timers (timers w ++ [mkTimer (next_timer w) due_at k a]) w)).
Proof.
  intros [Hnd Hlt]. unfold handles_ok in *.
  cbn [timers next_timer with_timers with_next_timer].
  assert (Hp : Permutation ((timers w ++ [mkTimer (next_timer w) due_at k a]) ++ rest)
                 (mkTimer (next_timer w) due_at k a :: timers w ++ rest)).
  { rewrite <- app_assoc. simpl. apply Permutation_sym, Permutation_middle. }
  split.
  - apply (Permutation_NoDup (Permutation_sym (Permutation_map tid Hp))).
    simpl. constructor; [|exact Hnd].
    intros Hin. apply in_map_iff in Hin as (t & Ht & Hin).
    rewrite Forall_forall in Hlt. specialize (Hlt t Hin). lia.
  - apply (Permutation_Forall (Permutation_sym Hp)).
    constructor; [simpl; lia|].
    eapply Forall_impl; [|exact Hlt]. simpl. intros t Ht. lia.
Qed.

Lemma handles_lower (rest : list Timer) (w : World) :
  handles_ok rest w ->
  handles_ok rest (snd (setTimeout ClearRestoreFlag ECHO_WINDOW_MS w)).
Proof. intros H. unfold setTimeout. cbn [snd]. apply handles_queue, H. Qed.

Lemma handles_pollTick (env : Env) (rest : list Timer) :
  preserves (handles_ok rest) (pollTick env).
Proof.
  apply frame_pollTick; try (intros; assumption).
  apply handles_lower.
Qed.

Lemma handles_handleCanvasUpdate (env : Env) (payload : DrawPayload)
    (rest : list Timer) :
  preserves (handles_ok rest) (handleCanvasUpdate env payload).
Proof.
  apply frame_handleCanvasUpdate; try (intros; assumption).
  apply handles_lower.
Qed.

Lemma handles_initializeStorage (env : Env) (rest : list Timer) :
  preserves (handles_ok rest) (initializeStorage env).
Proof. apply frame_initializeStorage; intros; assumption. Qed.

Lemma handles_filter (p : Timer -> bool) (w : World) :
  handles_ok [] w -> handles_ok [] (with_timers (filter p (timers w)) w).
Proof.
  intros [Hnd Hlt]. unfold handles_ok in *.
  cbn [timers next_timer with_timers]. rewrite app_nil_r in *. split.
  - apply distinct_handles_filter, Hnd.
  - rewrite Forall_forall in *. intros t Ht.
    apply filter_In in Ht as [Ht _]. apply Hlt, Ht.
Qed.

Lemma handles_onChange (env : Env) (elements appState files : value) :
  preserves (handles_ok []) (onChange env elements appState files).
Proof.
  intros w H.
  unfold onChange, bind, gets, ret, modify, clearTimeout, setTimeout.
  destruct (isUpdatingFromRestore w); [exact H|].
  destruct (negb (truthy elements)); [exact H|].
  destruct (iter_spread elements w) as [[mutableElements|] w'] eqn:Hit;
    (assert (w' = w) as ->
       by (unfold iter_spread, ret, throw in Hit; destruct elements; congruence));
    [|exact H].
  cbn [lastSaveDataRef].
  match goal with |- context [String.eqb ?h (lastSaveDataRef w)] =>
    destruct (String.eqb h (lastSaveDataRef w)); [exact H|]
  end.
  cbn [snd fst saveTimeoutRef with_lastSaveDataRef].
  destruct (saveTimeoutRef w) as [id|]; cbn [snd fst].
  - exact (handles_queue [] _ _ _ _
             (handles_filter _ (with_lastSaveDataRef _ w) H)).
  - exact (handles_queue [] _ _ _ (with_lastSaveDataRef _ w) H).
Qed.

Lemma handles_fire_timer (env : Env) (t : Timer) (rest : list Timer)
    (w : World) :
  handles_ok (t :: rest) w -> handles_ok rest (fire_timer env t w).
Proof.
  intros H. unfold fire_timer.
  assert (Hf : handles_ok (t :: rest) (fire env (action t) w)).
  { unfold fire. destruct (action t); unfold run.
    - exact H.
    - apply preserves_try_catch;
        [apply frame_saveCanvasData; intros; assumption
        |apply preserves_ret|exact H].
    - apply handles_pollTick, H. }
  set (w1 := fire env (action t) w) in *. clearbody w1.
  destruct Hf as [Hnd Hlt]. unfold handles_ok.
  destruct (kind t) as [|p].
  - split.
    + rewrite map_app in *. simpl in Hnd. apply NoDup_remove_1 in Hnd. exact Hnd.
    + apply Forall_app in Hlt as [H1 H2]. inversion H2; subst.
      apply Forall_app. split; assumption.
  - cbn [timers next_timer with_timers].
    rewrite <- app_assoc. simpl. split.
    + rewrite map_app in *. exact Hnd.
    + apply Forall_app in Hlt as [H1 H2]. inversion H2; subst.
      apply Forall_app. split; [exact H1|]. constructor; assumption.
Qed.

Lemma handles_tick (env : Env) (w : World) :
  handles_ok [] w -> handles_ok [] (tick env w).
Proof.
  intros [Hnd Hlt]. rewrite app_nil_r in *. unfold tick.
  cbn [now timers with_now].
  set (ready := filter (is_due (now w + 1)) (timers w)).
  set (w1 := with_timers _ (with_now (now w + 1) w)).
  assert (H1 : handles_ok ready w1).
  { unfold handles_ok, w1, ready. cbn [timers next_timer with_timers with_now].
    pose proof (split_by_due (is_due (now w + 1)) (timers w)) as Hp.
    split.
    - apply (Permutation_NoDup (Permutation_sym (Permutation_map tid Hp))), Hnd.
    - apply (Permutation_Forall (Permutation_sym Hp)), Hlt. }
  clearbody w1 ready. revert w1 H1.
  induction ready as [|t ready IH]; intros w1 H1; simpl.
  - exact H1.
  - apply IH, handles_fire_timer, H1.
Qed.

Lemma handles_elapse (env : Env) (ms : nat) (w : World) :
  handles_ok [] w -> handles_ok [] (elapse env ms w).
Proof.
  revert w. induction ms as [|k IH]; intros w H; simpl.
  - exact H.
  - apply IH, handles_tick, H.
Qed.

Lemma handles_step (env : Env) (w : World) (e : Event) :
  handles_ok [] w -> handles_ok [] (step env w e).
Proof.
  intros H. destruct e as [isTauri| | |elements appState files|payload|ms]; simpl.
  - unfold startWatch. destruct isTauri; [exact H|].
    unfold run, setInterval. cbn [snd negb].
    exact (handles_queue [] _ _ _ (with_lastUpdateTime (Str "") w) H).
  - exact H.
  - unfold initEffect.
    destruct (apiRef w && negb (isInitialized w)); [|exact H].
    exact (handles_initializeStorage env [] w H).
  - apply handles_onChange, H.
  - apply handles_handleCanvasUpdate, H.
  - apply handles_elapse, H.
Qed.

Lemma run_events_invariant (P : World -> Prop) (env : Env) :
  (forall w e, P w -> P (step env w e)) ->
  forall events w, P w -> P (run_events env events w).
Proof.
  intros Hstep events. unfold run_events.
  induction events as [|e es IH]; intros w Hw; simpl.
  - exact Hw.
  - apply IH, Hstep, Hw.
Qed.

Lemma same_handle_once (l : list Timer) (id : positive) :
  NoDup (map tid l) ->
  Forall (fun t => tid t = id) l ->
  (List.length l <= 1)%nat.
Proof.
  intros Hnd Hall.
  destruct l as [|a [|b l]]; simpl; try lia.
  exfalso. inversion Hall as [|? ? Ha Hall']; subst.
  inversion Hall' as [|? ? Hb _]; subst.
  inversion Hnd as [|? ? Hnotin _]; subst.
  apply Hnotin. simpl. left. exact Hb.
Qed.

(** Whatever has happened since the component mounted -- edits, pushes,
    polls, start-up, time passing, in any order -- at most one debounced
    save is pending at any moment, and it is the one [saveTimeoutRef]
    names: an edit always cancels the save scheduled before it. *)
Theorem at_most_one_pending_save (env : Env) (d : IDB) (t0 : Z)
    (events : list Event) :
  let w := run_events env events (initial d t0) in
  (List.length (saves (timers w)) <= 1)%nat
  /\ forall t, In t (saves (timers w)) ->
       saveTimeoutRef w = Some (tid t) /\ kind t = Timeout.
Proof.
  cbv zeta.
  assert (Ht : tracked (run_events env events (initial d t0))).
  { apply run_events_invariant; [intros; apply tracked_step; assumption|].
    constructor. }
  assert (Hh : handles_ok [] (run_events env events (initial d t0))).
  { apply run_events_invariant; [intros; apply handles_step; assumption|].
    split; constructor. }
  set (w := run_events env events (initial d t0)) in *. clearbody w.
  unfold tracked in Ht. split.
  - destruct Hh as [Hnd _]. rewrite app_nil_r in Hnd.
    destruct (saveTimeoutRef w) as [id|] eqn:Href.
    + apply (same_handle_once _ id).
      * apply distinct_handles_filter, Hnd.
      * eapply Forall_impl; [|exact Ht]. simpl. intros t [Hid _]. congruence.
    + destruct (saves (timers w)) as [|t ts]; simpl; [lia|].
      inversion Ht as [|? ? [Hid _] _]. discriminate.
  - intros t Hin. rewrite Forall_forall in Ht. exact (Ht t Hin).
Qed.

(** ** Unmount *)

Lemma watchEffect_startWatch (isTauri : bool) (w : World) :
  run (watchEffect isTauri) w = startWatch isTauri w.
Proof. unfold watchEffect, startWatch. destruct isTauri; reflexivity. Qed.

Lemma polls_under_step (env : Env) (h : option positive) (w : World)
    (e : Event) :
  is_mount e = false -> polls_under h w -> polls_under h (step env w e).
Proof.
  intros He H.
  destruct e as [isTauri| | |elements appState files|payload|ms]; simpl.
  - discriminate.
  - exact H.
  - unfold initEffect.
    destruct (apiRef w && negb (isInitialized w)); [|exact H].
    exact (frame_initializeStorage (polls_under h)
             (fun _ _ H0 => H0) (fun _ _ H0 => H0) (fun _ _ _ H0 => H0)
             env w H).
  - apply polls_under_onChange, H.
  - apply (frame_handleCanvasUpdate (polls_under h));
      try (intros; assumption).
    apply polls_under_lower.
  - apply polls_under_elapse, H.
Qed.

Lemma unmount_leaves_resets (h : option positive) (w : World) :
  tracked w -> polls_under h w -> only_resets (run (unmount h) w).
Proof.
  intros Htr Hp.
  assert (Hv : timers (run (unmount h) w)
               = filter (fun t => match h with
                                  | Some id => negb (Pos.eqb (tid t) id)
                                  | None => true
                                  end)
                   (filter (fun t => match saveTimeoutRef w with
                                     | Some id => negb (Pos.eqb (tid t) id)
                                     | None => true
                                     end) (timers w))).
  { unfold run, unmount, cleanupSaveTimeout, watchCleanup, clearInterval,
      clearTimeout, bind, gets, modify, ret.
    assert (Hall : forall l : list Timer, filter (fun _ => true) l = l).
    { induction l as [|x l IH]; simpl; [|rewrite IH]; reflexivity. }
    destruct (saveTimeoutRef w), h; cbn; rewrite ?Hall; reflexivity. }
  unfold only_resets. rewrite Hv. apply Forall_forall. intros t Ht.
  apply filter_In in Ht as [Ht Hh]. apply filter_In in Ht as [Ht Hr].
  unfold tracked, polls_under in *. rewrite Forall_forall in Htr, Hp.
  destruct (action t) eqn:Ha; [reflexivity| |].
  - assert (Hs : In t (saves (timers w)))
      by (apply filter_In; split; [exact Ht|unfold is_save; now rewrite Ha]).
    destruct (Htr t Hs) as [Hid _]. rewrite Hid, Pos.eqb_refl in Hr.
    discriminate.
  - assert (Hs : In t (polls (timers w)))
      by (apply filter_In; split; [exact Ht|unfold is_poll; now rewrite Ha]).
    rewrite (Hp t Hs), Pos.eqb_refl in Hh. discriminate.
Qed.

Lemma only_resets_fire (env : Env) (t : Timer) (w : World) :
  action t = ClearRestoreFlag ->
  only_resets w ->
  only_resets (fire_timer env t w)
  /\ idb (fire_timer env t w) = idb w
  /\ fetch_log (fire_timer env t w) = fetch_log w
  /\ scene_log (fire_timer env t w) = scene_log w.
Proof.
  intros Ha H. unfold fire_timer, fire. rewrite Ha.
  destruct (kind t); splits; try reflexivity; [exact H|].
  unfold only_resets in *. cbn [timers with_timers with_flag].
  apply Forall_app. split; [exact H|]. constructor; [reflexivity|constructor].
Qed.

Lemma only_resets_tick (env : Env) (w : World) :
  only_resets w ->
  only_resets (tick env w)
  /\ idb (tick env w) = idb w
  /\ fetch_log (tick env w) = fetch_log w
  /\ scene_log (tick env w) = scene_log w.
Proof.
  intros H. unfold tick. cbn [now timers with_now].
  assert (Hready : Forall (fun t => action t = ClearRestoreFlag)
                     (filter (is_due (now w + 1)) (timers w))).
  { unfold only_resets in H. rewrite Forall_forall in *. intros t Ht.
    apply filter_In in Ht as [Ht _]. apply H, Ht. }
  set (w1 := with_timers _ (with_now (now w + 1) w)).
  assert (H1 : only_resets w1
               /\ idb w1 = idb w /\ fetch_log w1 = fetch_log w
               /\ scene_log w1 = scene_log w).
  { splits; try reflexivity.
    unfold only_resets, w1 in *. cbn [timers with_timers with_now].
    rewrite Forall_forall in *. intros t Ht.
    apply filter_In in Ht as [Ht _]. apply H, Ht. }
  clearbody w1. revert w1 H1.
  induction Hready as [|t ready Ht _ IH]; intros w1 H1; simpl.
  - exact H1.
  - destruct H1 as (G0 & G1 & G2 & G3).
    destruct (only_resets_fire env t w1 Ht G0) as (F0 & F1 & F2 & F3).
    apply IH. splits; congruence.
Qed.

Lemma only_resets_elapse (env : Env) (ms : nat) :
  forall w,
    only_resets w ->
    only_resets (elapse env ms w)
    /\ idb (elapse env ms w) = idb w
    /\ fetch_log (elapse env ms w) = fetch_log w
    /\ scene_log (elapse env ms w) = scene_log w.
Proof.
  induction ms as [|k IH]; intros w H; simpl.
  - splits; [exact H|reflexivity..].
  - destruct (only_resets_tick env w H) as (G0 & G1 & G2 & G3).
    destruct (IH (tick env w) G0) as (F0 & F1 & F2 & F3).
    splits; congruence.
Qed.

(** *** A poll in flight

    The poll callback is [async]: between the request and its answer other
    things happen, the cleanups among them, and [clearInterval] does not
    reach a callback that has started. *)

(** The callback is the request followed by that. *)
Lemma pollTick_resumes (env : Env) (w : World) :
  pollTick env w
  = match fetch_canvas env w with
    | (Ok response, w1) => pollAnswered env response w1
    | (Throw, w1) => (Ok tt, w1)
    end.
Proof.
  unfold pollTick, pollAnswered, fetch_canvas, try_catch, bind.
  destruct (remote env (now w)); reflexivity.
Qed.

Lemma pollAnswered_value (env : Env) (ok : bool) (body : option value)
    (w : World) :
  pollAnswered env (ok, body) w =
  match poll_observation (Response ok body) (lastUpdateTime w) with
  | Some (token, payload) =>
      handleCanvasUpdate env payload (with_lastUpdateTime token w)
  | None => (Ok tt, w)
  end.
Proof.
  unfold pollAnswered, poll_observation.
  unfold try_catch at 1. cbn [fst snd].
  destruct ok; [|reflexivity].
  destruct body as [data|]; [|reflexivity].
  unfold json, bind at 1, ret at 1.
  destruct data; unfold member, bind, throw, ret, gets, modify;
    try reflexivity.
  all: cbn [fst snd]; cbv beta iota;
    match goal with
    | |- context [poll_detects_update ?c ?l] =>
        destruct (poll_detects_update c l)
    end; try reflexivity;
    match goal with
    | |- context [handleCanvasUpdate ?e ?p ?w0] =>
        pose proof (handleCanvasUpdate_total e p w0) as Ht;
        destruct (handleCanvasUpdate e p w0) as [[[]|] w']
    end; simpl in Ht; solve [reflexivity | discriminate].
Qed.

(** An answer that comes after the cleanups, carrying a token the channel
    has not seen, is applied like any other. *)
Lemma late_answer_applied (env : Env) (response : bool * option value)
    (token : value) (payload : DrawPayload) (w : World) :
  poll_observation (Response (fst response) (snd response)) (lastUpdateTime w)
  = Some (token, payload) ->
  apiRef w = true ->
  (forall u, updateScene_throws env u = false) ->
  only_resets w ->
  let late := run (pollAnswered env response) w in
  (exists u, scene_log late = u :: scene_log w)
  /\ isUpdatingFromRestore late = true
  /\ fetch_log late = fetch_log w
  /\ only_resets late.
Proof.
  intros Hobs Hapi Hacc Hq. cbv zeta. unfold run.
  destruct response as [ok body]. cbn [fst snd] in Hobs.
  rewrite pollAnswered_value, Hobs.
  destruct (handleCanvasUpdate_accepted env payload
              (with_lastUpdateTime token w) Hapi Hacc) as (d & Hv & _).
  unfold run in Hv. rewrite Hv.
  splits.
  - eexists. reflexivity.
  - reflexivity.
  - reflexivity.
  - unfold only_resets in *.
    cbn [timers with_idb applied_under_flag with_next_timer with_timers
         with_scene_log with_flag with_rand_used with_lastUpdateTime].
    apply Forall_app. split; [exact Hq|]. repeat constructor.
Qed.

(** After unmount.  Once both cleanups have run -- the pending debounced
    save cancelled, the poll stopped -- only resets of the echo flag are
    pending, and so it stays: however much time passes, the timers that
    come due are resets, and they ask the remote nothing, write nothing to
    the store and hand nothing to the surface.  A callback that had
    already started is not stopped.  When a poll that was awaiting its
    [fetch] gets its answer after the cleanups, with a token the channel
    has not seen, the document still goes to the surface under the echo
    flag; no request is made, and still only resets are pending.  This
    holds after any history of the mounted component. *)
Theorem unmount_quiesces (env : Env) (d : IDB) (t0 : Z) (isTauri : bool)
    (pollInterval : option positive) (events : list Event) :
  fst (watchEffect isTauri (initial d t0)) = Ok pollInterval ->
  Forall (fun e => is_mount e = false) events ->
  let w := run_events env events (run (watchEffect isTauri) (initial d t0)) in
  let w' := run (unmount pollInterval) w in
  only_resets w'
  /\ (forall ms,
        only_resets (elapse env ms w')
        /\ idb (elapse env ms w') = idb w'
        /\ fetch_log (elapse env ms w') = fetch_log w'
        /\ scene_log (elapse env ms w') = scene_log w')
  /\ (forall ms response token payload,
        let w1 := elapse env ms w' in
        poll_observation (Response (fst response) (snd response))
          (lastUpdateTime w1) = Some (token, payload) ->
        apiRef w1 = true ->
        (forall u, updateScene_throws env u = false) ->
        let late := run (pollAnswered env response) w1 in
        (exists u, scene_log late = u :: scene_log w')
        /\ isUpdatingFromRestore late = true
        /\ fetch_log late = fetch_log w'
        /\ only_resets late).
Proof.
  intros Hh Hev. cbv zeta.
  set (w0 := run (watchEffect isTauri) (initial d t0)).
  assert (Ht0 : tracked w0).
  { unfold w0. rewrite watchEffect_startWatch.
    exact (tracked_step env (initial d t0) (Mount isTauri)
             (Forall_nil _)). }
  assert (Hp0 : polls_under pollInterval w0).
  { unfold w0, run. unfold watchEffect in *.
    destruct isTauri; cbn in Hh |- *.
    - injection Hh as <-. constructor.
    - injection Hh as <-. repeat constructor. }
  clearbody w0.
  assert (Hinv : tracked (run_events env events w0)
                 /\ polls_under pollInterval (run_events env events w0)).
  { unfold run_events. revert w0 Ht0 Hp0.
    induction Hev as [|e es He _ IH]; intros w0 Ht0 Hp0; simpl.
    - split; assumption.
    - apply IH; [apply tracked_step, Ht0|apply polls_under_step; assumption]. }
  destruct Hinv as [Ht Hp].
  pose proof (unmount_leaves_resets pollInterval _ Ht Hp) as Hq.
  split; [exact Hq|]. split.
  - intros ms. exact (only_resets_elapse env ms _ Hq).
  - intros ms response token payload Hobs Hapi Hacc.
    destruct (only_resets_elapse env ms _ Hq) as (Hq1 & _ & Hf1 & Hs1).
    destruct (late_answer_applied env response token payload _
                Hobs Hapi Hacc Hq1) as ((u & Hu) & Hflag & Hf & Hq2).
    splits.
    + exists u. rewrite Hu, Hs1. reflexivity.
    + exact Hflag.
    + rewrite Hf, Hf1. reflexivity.
    + exact Hq2.
Qed.

Lemma unmount_quiesces_witness :
  let env := sample_env (canvas_response [sample_rectangle] (Str "v1")) in
  let w := run_events env sample_session
             (run (watchEffect false) (initial (working_store None) sample_clock)) in
  let w' := run (unmount (Some 1%positive)) w in
  saves (timers w) <> [] /\ polls (timers w) <> []
  /\ put_log (idb (elapse env 5000 w')) = put_log (idb w')
  /\ fetch_log (elapse env 5000 w') = fetch_log w'
  /\ isUpdatingFromRestore
       (run (pollAnswered env late_response) (elapse env 50 w')) = true.
Proof.
  cbv zeta.
  destruct (unmount_quiesces
              (sample_env (canvas_response [sample_rectangle] (Str "v1")))
              (working_store None) sample_clock false (Some 1%positive)
              sample_session eq_refl)
    as (_ & H1 & H2).
  - repeat constructor.
  - destruct (H1 5000%nat) as (_ & Hi & Hf & _).
    destruct (H2 50%nat late_response (Str "v2")
                (mkDrawPayload (Arr [local_ellipse]) (Obj []) (Obj [])))
      as (_ & Hflag & _).
    + vm_compute. reflexivity.
    + vm_compute. reflexivity.
    + intros u. reflexivity.
    + cbv zeta in Hi, Hf. rewrite Hi, Hf.
      split; [vm_compute; discriminate|].
      split; [vm_compute; discriminate|].
      split; [reflexivity|]. split; [reflexivity|]. exact Hflag.
Defined.

(** ** Start-up and the first poll *)

Lemma with_timers_same (w : World) : with_timers (timers w) w = w.
Proof. destruct w; reflexivity. Qed.

(** While no timer comes due, time only moves the clock. *)
Lemma elapse_idle_clock (env : Env) (ms : nat) :
  forall w,
    Forall (fun t => now w + Z.of_nat ms < due t) (timers w) ->
    elapse env ms w = with_now (now w + Z.of_nat ms) w.
Proof.
  induction ms as [|k IH]; intros w H.
  - simpl. rewrite Z.add_0_r. destruct w; reflexivity.
  - assert (Ht : tick env w = with_now (now w + 1) w).
    { unfold tick. cbn [now timers with_now].
      assert (Hr : filter (is_due (now w + 1)) (timers w) = []).
      { apply filter_all_false. eapply Forall_impl; [|exact H].
        intros t Ht. simpl in Ht. unfold is_due. apply Z.leb_gt. lia. }
      assert (Hw : filter (fun t => negb (is_due (now w + 1) t)) (timers w)
                   = timers w).
      { clear Hr. induction (timers w) as [|t ts IHt]; [reflexivity|].
        inversion H as [|? ? Ht Hts]; subst. simpl.
        replace (is_due (now w + 1) t) with false
          by (symmetry; unfold is_due; apply Z.leb_gt; lia).
        simpl. f_equal. apply IHt, Hts. }
      rewrite Hr, Hw. simpl. destruct w; reflexivity. }
    simpl. rewrite Ht. rewrite IH.
    + cbn [now with_now].
      replace (now w + 1 + Z.of_nat k) with (now w + Z.of_nat (S k)) by lia.
      destruct w; reflexivity.
    + cbn [now timers with_now]. eapply Forall_impl; [|exact H].
      intros t Hlt. simpl in Hlt. lia.
Qed.

Lemma truthy_not_empty_string (v : value) :
  truthy v = true -> strict_eq v (Str "") = false.
Proof.
  destruct v as [| |b|f|s|l|ps|es]; try reflexivity.
  simpl. intros H. apply negb_true_iff in H. exact H.
Qed.

Lemma startup_document_is_polled (fr : FetchResult) (canvas : value) :
  backend_document fr = Some canvas ->
  truthy (get canvas "updated_at") = true ->
  poll_observation fr (Str "")
  = Some (get canvas "updated_at",
          mkDrawPayload (get canvas "elements") (get canvas "app_state")
            (get canvas "files")).
Proof.
  intros Hb Ht.
  pose proof (backend_document_truthy fr canvas Hb) as Hc.
  destruct fr as [|[] [data|]]; try discriminate.
  assert (Hd : canvas = get data "canvas"
               /\ data <> Undefined /\ data <> Null).
  { unfold backend_document in Hb.
    destruct data; try discriminate;
      match type of Hb with
      | (if ?c then _ else _) = _ => destruct c; [|discriminate]
      end;
      injection Hb as <-; splits; try reflexivity; discriminate. }
  destruct Hd as (Hcv & Hu & Hn).
  unfold poll_observation.
  destruct data; try congruence; cbv zeta; rewrite <- Hcv;
    unfold poll_detects_update;
    rewrite Hc, Ht, (truthy_not_empty_string _ Ht); reflexivity.
Qed.

(** In a browser the remote document is applied twice at start-up.  The
    restore applies it as received, reading its app state under
    [appState]; it does not record the token.  The poll channel starts
    from the empty token, so the first poll, one second after mount, takes
    the same document for new and applies it again -- normalised this
    time, reading the app state under [app_state] -- and stores it again. *)
Theorem first_poll_reapplies_startup_document (env : Env) (d : IDB) (t0 : Z)
    (fr : FetchResult) (canvas e : value) (l : list value) :
  (forall t, remote env t = fr) ->
  backend_document fr = Some canvas ->
  get canvas "elements" = Arr (e :: l) ->
  truthy (get canvas "updated_at") = true ->
  healthy d ->
  (forall u, updateScene_throws env u = false) ->
  let w := run_events env [Mount false; ApiReady; Render; Elapse 1000] (initial d t0) in
  let processed := fst (normalizeElements env (t0 + 1000) 0 (e :: l) 0) in
  scene_log w
  = [ mkSceneUpdate (Arr processed)
        (ensureCollaboratorsMap (get canvas "app_state"))
        (JS.or (get canvas "files") (Obj []));
      mkSceneUpdate (Arr (e :: l))
        (ensureCollaboratorsMap (get canvas "appState"))
        (JS.or (get canvas "files") (Obj [])) ]
  /\ current (idb w)
     = Some (mkCanvasData (Arr processed)
               (JS.or (get canvas "app_state") (Obj []))
               (Num (num_of_Z (t0 + 1000))))
  /\ fetch_log w = [t0 + 1000; t0]
  /\ lastUpdateTime w = get canvas "updated_at".
Proof.
  intros Hrem Hb Hel Htok Hh Hacc. cbv zeta.
  set (u1 := mkSceneUpdate (Arr (e :: l)) _ _).
  set (d1 := put_record
               (mkCanvasData (Arr (e :: l))
                  (JS.or (get canvas "appState") (Obj []))
                  (Num (num_of_Z t0)))
               (store_after_repair t0 d)).
  set (poll := fun due_at => mkTimer 1 due_at (Interval POLL_PERIOD_MS) PollTick).
  set (w1 := mkWorld t0 d1 0 true true [u1] false None "" (Str "")
               [poll (t0 + POLL_PERIOD_MS)] 2%positive [t0]).
  assert (Hstart : run_events env [Mount false; ApiReady; Render] (initial d t0) = w1).
  { unfold run_events. cbn [fold_left step].
    unfold excalidrawAPI, initEffect.
    change (startWatch false (initial d t0))
      with (mkWorld t0 d 0 false false [] false None "" (Str "")
              [poll (t0 + POLL_PERIOD_MS)] 2%positive []).
    cbn [apiRef isInitialized with_apiRef andb negb].
    unfold run.
    rewrite initializeStorage_value; [|reflexivity|exact Hh|intros; apply Hacc].
    unfold restore_update, restore_store. cbn [now].
    rewrite Hrem, Hb, Hel. reflexivity. }
  assert (Hh1 : healthy d1).
  { destruct Hh as (H1 & H2 & H3 & H4). unfold d1, store_after_repair.
    destruct (current d); repeat split; assumption. }
  set (w2 := with_now (t0 + 999) w1).
  assert (Hwait : elapse env 999 w1 = w2).
  { rewrite elapse_idle_clock; [reflexivity|].
    repeat constructor. unfold w1, poll, POLL_PERIOD_MS. simpl. lia. }
  set (payload := mkDrawPayload (get canvas "elements") (get canvas "app_state")
                    (get canvas "files")).
  set (w3 := with_lastUpdateTime (get canvas "updated_at")
               (with_fetch_log [t0 + 1000; t0]
                  (with_timers [] (with_now (t0 + 1000) w1)))).
  assert (Hpoll : tick env w2
                  = with_timers
                      (timers (run (handleCanvasUpdate env payload) w3)
                       ++ [poll (t0 + POLL_PERIOD_MS + POLL_PERIOD_MS)])
                      (run (handleCanvasUpdate env payload) w3)).
  { unfold tick. cbn [now timers with_now w2 w1].
    assert (Hdue : is_due (t0 + 999 + 1) (poll (t0 + POLL_PERIOD_MS)) = true).
    { unfold is_due, poll, POLL_PERIOD_MS. simpl. apply Z.leb_le. lia. }
    cbn [filter]. rewrite Hdue. cbn [negb fold_left].
    unfold fire_timer. cbn [action kind poll fire tid due].
    unfold run at 1 2. rewrite pollTick_value. cbv zeta.
    rewrite Hrem.
    change (lastUpdateTime (with_timers [] (with_now (t0 + 999 + 1) w2)))
      with (Str "").
    rewrite (startup_document_is_polled fr canvas Hb Htok).
    replace (t0 + 999 + 1) with (t0 + 1000) by lia.
    reflexivity. }
  set (w := run_events env [Mount false; ApiReady; Render; Elapse 1000] (initial d t0)).
  assert (Hw : w = tick env w2).
  { unfold w.
    change [Mount false; ApiReady; Render; Elapse 1000]
      with ([Mount false; ApiReady; Render] ++ [Elapse 1000]).
    unfold run_events in *. rewrite fold_left_app, Hstart.
    cbn [fold_left step].
    change 1000%nat with (999 + 1)%nat. rewrite elapse_add, Hwait.
    reflexivity. }
  rewrite Hw, Hpoll.
  assert (Hne : payload_elements payload <> []).
  { unfold payload_elements, payload. cbn [p_elements]. rewrite Hel.
    discriminate. }
  unfold run.
  rewrite (handleCanvasUpdate_nonempty env payload w3 eq_refl Hne (Hacc _) Hh1).
  cbv zeta. unfold normalized_update, payload_elements.
  cbn [p_elements p_appState p_files payload]. rewrite Hel.
  splits; reflexivity.
Qed.

Lemma first_poll_reapplies_startup_document_witness :
  let env := sample_env (canvas_response [sample_rectangle] (Str "v1")) in
  let w := run_events env [Mount false; ApiReady; Render; Elapse 1000]
             (initial (working_store None) sample_clock) in
  List.length (scene_log w) = 2%nat
  /\ fetch_log w = [sample_clock + 1000; sample_clock].
Proof.
  cbv zeta.
  destruct (first_poll_reapplies_startup_document
              (sample_env (canvas_response [sample_rectangle] (Str "v1")))
              (working_store None) sample_clock
              (canvas_response [sample_rectangle] (Str "v1"))
              (Obj [("elements", Arr [sample_rectangle]); ("app_state", Obj []);
                    ("files", Obj []); ("updated_at", Str "v1")])
              sample_rectangle []
              (fun _ => eq_refl) eq_refl eq_refl eq_refl
              (conj eq_refl (conj eq_refl (conj eq_refl eq_refl)))
              (fun _ => eq_refl))
    as (H1 & _ & H3 & _).
  rewrite H1, H3. split; reflexivity.
Defined.

(** ** What a change notification may do *)

(** [onChange] only ever schedules: whatever it is handed, it leaves the
    store, the surface, the echo flag, the poll token and the request log
    alone -- every write it causes happens in the timer, 300 ms later.
    Without elements ([null], [undefined]) it does nothing at all.  Its
    promise rejects exactly when, with the flag down, the elements are
    truthy but cannot be spread; nothing has changed then either. *)
Theorem onChange_only_schedules (env : Env) (elements appState files : value)
    (w : World) :
  let w' := run (onChange env elements appState files) w in
  (idb w' = idb w /\ scene_log w' = scene_log w /\ fetch_log w' = fetch_log w
   /\ isUpdatingFromRestore w' = isUpdatingFromRestore w
   /\ lastUpdateTime w' = lastUpdateTime w /\ now w' = now w)
  /\ (truthy elements = false -> w' = w)
  /\ (fst (onChange env elements appState files w) = Throw <->
      isUpdatingFromRestore w = false /\ truthy elements = true
      /\ iterable elements = false)
  /\ (fst (onChange env elements appState files w) = Throw -> w' = w).
Proof.
  cbv zeta. unfold run.
  unfold onChange, clearTimeout, setTimeout, bind, gets, ret, modify.
  destruct (isUpdatingFromRestore w) eqn:Hf.
  { cbn [fst snd]. rewrite ?Hf.
    splits; try reflexivity; try discriminate.
    split; [discriminate|]. intros (H & _). discriminate. }
  destruct (truthy elements) eqn:Ht; cbn [negb].
  2:{ cbn [fst snd]. rewrite ?Hf.
      splits; try reflexivity; try discriminate.
      split; [discriminate|]. intros (_ & H & _). discriminate. }
  destruct (iter_spread elements w) as [[mutableElements|] w0] eqn:Hit;
    (assert (w0 = w) as ->
       by (unfold iter_spread, ret, throw in Hit; destruct elements; congruence)).
  - assert (Hi : iterable elements = true)
      by (unfold iter_spread, ret, throw in Hit; destruct elements;
          try discriminate; reflexivity).
    cbn [lastSaveDataRef].
    match goal with |- context [String.eqb ?h (lastSaveDataRef w)] =>
      destruct (String.eqb h (lastSaveDataRef w))
    end.
    + cbn [fst snd]. rewrite ?Hf.
      splits; try reflexivity; try discriminate.
      split; [discriminate|]. intros (_ & _ & H). congruence.
    + cbn [fst snd saveTimeoutRef with_lastSaveDataRef].
      destruct (saveTimeoutRef w); cbn [fst snd];
        (splits; try reflexivity; try discriminate; try exact Hf;
         split; [discriminate|]; intros (_ & _ & H); congruence).
  - assert (Hi : iterable elements = false)
      by (unfold iter_spread, ret, throw in Hit; destruct elements;
          try discriminate; reflexivity).
    cbn [fst snd]. rewrite ?Hf.
    splits; try reflexivity; try discriminate.
    split; [intros _; splits; reflexivity || assumption|reflexivity].
Qed.

(** ** A push, whatever the store does *)

(** A remote observation reaches the surface whether or not the store
    works: with an accepting surface, [handleCanvasUpdate] applies the
    update, raises the flag and queues its reset also when the save or the
    delete that follows fails; the failure is swallowed, and a store that
    refuses writes is left as it was. *)
Theorem push_is_applied_whatever_the_store (env : Env) (payload : DrawPayload)
    (w : World) :
  apiRef w = true ->
  (forall u, updateScene_throws env u = false) ->
  let w' := run (handleCanvasUpdate env payload) w in
  scene_log w'
  = match payload_elements payload with
    | [] => emptying_update payload
    | _ :: _ => normalized_update env payload w
    end :: scene_log w
  /\ isUpdatingFromRestore w' = true
  /\ timers w'
     = timers w ++ [mkTimer (next_timer w) (now w + ECHO_WINDOW_MS) Timeout
                      ClearRestoreFlag]
  /\ (payload_elements payload <> [] -> put_fails (idb w) = true ->
      contents (idb w') = contents (idb w))
  /\ (payload_elements payload = [] -> delete_fails (idb w) = true ->
      contents (idb w') = contents (idb w)).
Proof.
  intros Hapi Hacc. cbv zeta.
  destruct (handleCanvasUpdate_accepted env payload w Hapi Hacc)
    as (d & -> & Hsave & Hdel).
  splits; try reflexivity; assumption.
Qed.

Lemma push_is_applied_whatever_the_store_witness :
  let w := with_apiRef true (initial (read_only_store None) sample_clock) in
  let w' := run (handleCanvasUpdate (sample_env NetworkError)
                   (mkDrawPayload (Arr [sample_rectangle]) Undefined Undefined)) w in
  isUpdatingFromRestore w' = true /\ put_log (idb w') = [].
Proof.
  cbv zeta.
  destruct (push_is_applied_whatever_the_store (sample_env NetworkError)
              (mkDrawPayload (Arr [sample_rectangle]) Undefined Undefined)
              (with_apiRef true (initial (read_only_store None) sample_clock))
              eq_refl (fun _ => eq_refl)) as (_ & H2 & _ & H4 & _).
  split; [exact H2|].
  exact (f_equal snd (H4 ltac:(discriminate) eq_refl)).
Defined.

(** ** Inside Tauri *)

Lemma fetchBackendData_logs (env : Env) (w : World) :
  exists r d,
    fetchBackendData env w
    = (r, with_idb d (with_fetch_log (now w :: fetch_log w) w)).
Proof.
  unfold fetchBackendData, fetch_canvas.
  unfold try_catch at 1, bind at 1.
  assert (Hsame : forall r : result value,
            exists r' d,
              (r, with_fetch_log (now w :: fetch_log w) w)
              = (r', with_idb d (with_fetch_log (now w :: fetch_log w) w))).
  { intros r. exists r, (idb w). destruct w; reflexivity. }
  destruct (remote env (now w)) as [|ok body]; [apply Hsame|].
  cbn [fst snd]. destruct ok; [|apply Hsame].
  destruct body as [data|]; [|apply Hsame].
  unfold json, bind at 1, ret at 1.
  destruct data; unfold member, bind at 1, throw, ret at 1;
    try apply Hsame;
    cbv beta iota;
    match goal with |- context [truthy ?c && truthy ?e] =>
      destruct (truthy c && truthy e) end; try apply Hsame;
    unfold bind, try_catch, ret;
    rewrite saveCanvasData_value;
    cbn [idb with_fetch_log];
    (destruct (openable (idb w)); [destruct (put_fails (idb w))|]);
    try apply Hsame;
    eexists _, _; destruct w; reflexivity.
Qed.

Lemma initializeStorage_asks_once (env : Env) (w : World) :
  fetch_log (run (initializeStorage env) w) = fetch_log w
  \/ fetch_log (run (initializeStorage env) w) = now w :: fetch_log w.
Proof.
  assert (Hhandler : forall l w0,
            fetch_log w0 = l ->
            fetch_log (snd (try_catch (repairData ;; ret tt) (ret tt) w0)) = l).
  { intros l w0 H0.
    apply (preserves_try_catch (fun w' => fetch_log w' = l));
      [apply preserves_bind; [|intros; apply preserves_ret]|apply preserves_ret
      |exact H0].
    apply frame_repairData. intros; assumption. }
  remember (fetch_log (run (initializeStorage env) w)) as L eqn:HL.
  unfold run, initializeStorage in HL.
  unfold try_catch at 1, bind at 1 in HL.
  destruct (init w) as [[[]|] w1] eqn:H1.
  2:{ left. rewrite HL. apply Hhandler.
      pose proof (frame_init (fun w' => fetch_log w' = fetch_log w)
                    (fun _ _ H => H) w eq_refl) as Hf.
      rewrite H1 in Hf. exact Hf. }
  assert (G1 : fetch_log w1 = fetch_log w /\ now w1 = now w).
  { pose proof (frame_init
                  (fun w' => fetch_log w' = fetch_log w /\ now w' = now w)
                  (fun _ _ H => H) w (conj eq_refl eq_refl)) as Hf.
    rewrite H1 in Hf. exact Hf. }
  unfold bind at 1 in HL.
  destruct (repairData w1) as [[b|] w2] eqn:H2.
  2:{ left. rewrite HL. apply Hhandler.
      pose proof (frame_repairData (fun w' => fetch_log w' = fetch_log w)
                    (fun _ _ H => H) w1 (proj1 G1)) as Hf.
      rewrite H2 in Hf. exact Hf. }
  assert (G2 : fetch_log w2 = fetch_log w /\ now w2 = now w).
  { pose proof (frame_repairData
                  (fun w' => fetch_log w' = fetch_log w /\ now w' = now w)
                  (fun _ _ H => H) w1 G1) as Hf.
    rewrite H2 in Hf. exact Hf. }
  right. rewrite HL. clear HL L.
  destruct (fetchBackendData_logs env w2) as (r & d3 & H3).
  destruct G2 as [G2 G2n].
  unfold bind at 1. rewrite H3.
  set (w3 := with_idb d3 _).
  assert (G3 : fetch_log w3 = now w :: fetch_log w)
    by (unfold w3; cbn; rewrite G2, G2n; reflexivity).
  clearbody w3.
  destruct r as [backendData|]; [|apply Hhandler, G3].
  match goal with
  | |- fetch_log (snd (match ?m w3 with _ => _ end)) = _ =>
      assert (Hrest : fetch_log (snd (m w3)) = now w :: fetch_log w);
      [|destruct (m w3) as [[[]|] w4]; cbn [snd] in *;
        [exact Hrest|apply Hhandler, Hrest]]
  end.
  match goal with
  | |- fetch_log (snd (?m w3)) = ?l =>
      assert (Hp : preserves (fun w' => fetch_log w' = l) m);
      [|exact (Hp w3 G3)]
  end.
  repeat first
    [ apply frame_loadCanvasData; intros; assumption
    | apply frame_updateScene;
      first [apply ensureCollaboratorsMap_is_map|intros; assumption]
    | preserves_step ].
Qed.

Lemma asked_handleCanvasUpdate (env : Env) (payload : DrawPayload) (w : World) :
  asked (run (handleCanvasUpdate env payload) w) = asked w.
Proof.
  apply (frame_handleCanvasUpdate (fun w' => asked w' = asked w));
    try (intros; assumption); reflexivity.
Qed.

Lemma asked_onChange (env : Env) (elements appState files : value) (w : World) :
  asked (run (onChange env elements appState files) w) = asked w.
Proof.
  assert (Hp : preserves (fun w' => asked w' = asked w)
                 (onChange env elements appState files)).
  { unfold onChange, iter_spread, clearTimeout, setTimeout.
    repeat first
      [ apply preserves_modify; intros w0 H0; exact H0
      | (intros w0 H0; exact H0)
      | preserves_step ]. }
  exact (Hp w eq_refl).
Qed.

Lemma isInitialized_fire_timer (env : Env) (t : Timer) (w : World) :
  isInitialized (fire_timer env t w) = isInitialized w.
Proof.
  unfold fire_timer.
  assert (Hf : isInitialized (fire env (action t) w) = isInitialized w).
  { unfold fire. destruct (action t); unfold run.
    - reflexivity.
    - apply (preserves_try_catch (fun w' => isInitialized w' = isInitialized w));
        [apply frame_saveCanvasData; intros; assumption
        |apply preserves_ret|reflexivity].
    - apply (frame_pollTick (fun w' => isInitialized w' = isInitialized w));
        try (intros; assumption); reflexivity. }
  destruct (kind t); exact Hf.
Qed.

Lemma isInitialized_tick (env : Env) (w : World) :
  isInitialized (tick env w) = isInitialized w.
Proof.
  unfold tick.
  set (w1 := with_timers _ _).
  assert (H1 : isInitialized w1 = isInitialized w) by reflexivity.
  clearbody w1. revert w1 H1.
  induction (filter _ _) as [|t ready IH]; intros w1 H1; simpl.
  - exact H1.
  - apply IH. rewrite isInitialized_fire_timer. exact H1.
Qed.

Lemma silent_tick (env : Env) (w : World) :
  polls (timers w) = [] ->
  polls (timers (tick env w)) = [] /\ asked (tick env w) = asked w.
Proof.
  intros Hp.
  pose proof (poll_view_tick env w) as Hv. cbv zeta in Hv.
  rewrite Hp in Hv. cbn [filter flat_map map rev app] in Hv.
  unfold poll_view in Hv.
  pose proof (f_equal (fun v => snd (fst v)) Hv) as Hf.
  pose proof (f_equal snd Hv) as Ht. cbn [fst snd] in Hf, Ht.
  split; [exact Ht|].
  unfold asked. rewrite Hf, isInitialized_tick. reflexivity.
Qed.

Lemma silent_elapse (env : Env) (ms : nat) :
  forall w,
    polls (timers w) = [] ->
    polls (timers (elapse env ms w)) = [] /\ asked (elapse env ms w) = asked w.
Proof.
  induction ms as [|k IH]; intros w Hp; simpl.
  - split; [exact Hp|reflexivity].
  - destruct (silent_tick env w Hp) as [H1 H2].
    destruct (IH (tick env w) H1) as [G1 G2].
    split; [exact G1|congruence].
Qed.

Lemma isInitialized_elapse (env : Env) (ms : nat) (w : World) :
  isInitialized (elapse env ms w) = isInitialized w.
Proof.
  revert w. induction ms as [|k IH]; intros w; simpl; [reflexivity|].
  rewrite IH. apply isInitialized_tick.
Qed.

(** Only a render runs start-up: without one, [isInitialized] stays as it
    is. *)
Lemma isInitialized_without_render (env : Env) (events : list Event) :
  Forall (fun e => e <> Render) events ->
  forall w, isInitialized (run_events env events w) = isInitialized w.
Proof.
  unfold run_events.
  induction 1 as [|e es He _ IH]; intros w; simpl; [reflexivity|].
  rewrite IH.
  destruct e as [isTauri| | |elements appState files|payload|ms]; simpl.
  - unfold startWatch. destruct isTauri; reflexivity.
  - reflexivity.
  - contradiction He. reflexivity.
  - exact (f_equal snd (asked_onChange env elements appState files w)).
  - exact (f_equal snd (asked_handleCanvasUpdate env payload w)).
  - apply isInitialized_elapse.
Qed.

(** Inside Tauri the component asks the remote at most once: no poll is
    ever started, and the only request is the one start-up makes, the
    first time the start-up effect runs with the API handle stored.  Until
    start-up has run nothing has been asked; in particular the hand-over
    of the API alone, without a render after it, asks nothing.  This holds
    for every history without a browser-mode mount. *)
Theorem inside_tauri_one_request (env : Env) (d : IDB) (t0 : Z)
    (events : list Event) :
  Forall (fun e => e <> Mount false) events ->
  let w := run_events env events (initial d t0) in
  polls (timers w) = []
  /\ (List.length (fetch_log w) <= 1)%nat
  /\ (isInitialized w = false -> fetch_log w = [])
  /\ (Forall (fun e => e <> Render) events -> fetch_log w = []).
Proof.
  intros Hev. cbv zeta.
  enough (Hmain : polls (timers (run_events env events (initial d t0))) = []
                  /\ (List.length
                        (fetch_log (run_events env events (initial d t0))) <= 1)%nat
                  /\ (isInitialized (run_events env events (initial d t0)) = false ->
                      fetch_log (run_events env events (initial d t0)) = [])).
  { destruct Hmain as (H1 & H2 & H3). splits; try assumption.
    intros Hnr. apply H3.
    rewrite (isInitialized_without_render env events Hnr). reflexivity. }
  unfold run_events.
  assert (H0 : polls (timers (initial d t0)) = []
               /\ (List.length (fetch_log (initial d t0)) <= 1)%nat
               /\ (isInitialized (initial d t0) = false ->
                   fetch_log (initial d t0) = [])).
  { splits; [reflexivity|simpl; lia|reflexivity]. }
  revert H0. generalize (initial d t0).
  induction Hev as [|e es He _ IH]; intros w Hw; simpl; [exact Hw|].
  apply IH. clear IH. destruct Hw as (Hp & Hlen & Hnone).
  destruct e as [isTauri| | |elements appState files|payload|ms]; simpl.
  - destruct isTauri; [|congruence]. splits; assumption.
  - splits; assumption.
  - unfold initEffect.
    destruct (apiRef w) eqn:Hapi; cbn [andb]; [|splits; assumption].
    destruct (isInitialized w) eqn:Hi; cbn [negb].
    + splits; [exact Hp|exact Hlen|congruence].
    + specialize (Hnone eq_refl).
      assert (Hpolls : polls_under None (run (initializeStorage env) w)).
      { apply (frame_initializeStorage (polls_under None));
          try (intros; assumption).
        unfold polls_under. rewrite Hp. constructor. }
      unfold polls_under in Hpolls.
      splits.
      * cbn [timers with_isInitialized].
        destruct (polls (timers (run (initializeStorage env) w)))
          as [|t ts]; [reflexivity|].
        inversion Hpolls as [|? ? Hno _]. discriminate.
      * cbn [fetch_log with_isInitialized].
        destruct (initializeStorage_asks_once env w) as [H|H];
          rewrite H; rewrite Hnone; simpl; lia.
      * cbn. discriminate.
  - pose proof (asked_onChange env elements appState files w) as Ha.
    unfold asked in Ha. injection Ha as Hf Hi.
    assert (Hpolls : polls_under None
                       (run (onChange env elements appState files) w)).
    { apply polls_under_onChange. unfold polls_under. rewrite Hp. constructor. }
    unfold polls_under in Hpolls.
    splits.
    + destruct (polls (timers (run (onChange env elements appState files) w)))
        as [|t ts]; [reflexivity|].
      inversion Hpolls as [|? ? Hno _]. discriminate.
    + rewrite Hf. exact Hlen.
    + rewrite Hf, Hi. exact Hnone.
  - pose proof (asked_handleCanvasUpdate env payload w) as Ha.
    unfold asked in Ha. injection Ha as Hf Hi.
    pose proof (poll_view_handleCanvasUpdate env payload w) as Hv.
    unfold poll_view in Hv. injection Hv as _ _ Hpolls.
    splits.
    + rewrite Hpolls. exact Hp.
    + rewrite Hf. exact Hlen.
    + rewrite Hf, Hi. exact Hnone.
  - destruct (silent_elapse env ms w Hp) as [H1 Ha].
    unfold asked in Ha. injection Ha as Hf Hi.
    splits; [exact H1|rewrite Hf; exact Hlen|rewrite Hf, Hi; exact Hnone].
Qed.

(** Inside Tauri, over a live service: the API is handed over at once, the
    component renders again five seconds later.  The one request is made
    at that render. *)
Lemma inside_tauri_one_request_witness :
  let env := sample_env (canvas_response [sample_rectangle] (Str "v1")) in
  let w := run_events env
             [Mount true; ApiReady; Elapse 5000; Render; ApiReady; Render;
              Elapse 5000]
             (initial (working_store None) sample_clock) in
  let w0 := run_events env [Mount true; ApiReady; Elapse 5000]
              (initial (working_store None) sample_clock) in
  fetch_log w = [sample_clock + 5000] /\ polls (timers w) = []
  /\ fetch_log w0 = [].
Proof.
  cbv zeta. split; [vm_compute; reflexivity|]. split.
  - refine (proj1 (inside_tauri_one_request
                     (sample_env (canvas_response [sample_rectangle] (Str "v1")))
                     (working_store None) sample_clock
                     [Mount true; ApiReady; Elapse 5000; Render; ApiReady; Render;
                      Elapse 5000] _)).
    repeat constructor; discriminate.
  - refine (proj2 (proj2 (proj2 (inside_tauri_one_request
                     (sample_env (canvas_response [sample_rectangle] (Str "v1")))
                     (working_store None) sample_clock
                     [Mount true; ApiReady; Elapse 5000] _))) _);
      repeat constructor; discriminate.
Defined.

(** ** The echo flag comes down *)

Lemma reset_pending_applied (rest : list Timer) (d : IDB) (u : SceneUpdate)
    (w : World) :
  reset_pending rest (with_idb d (applied_under_flag u w)).
Proof.
  intros _.
  exists (mkTimer (next_timer w) (now w + ECHO_WINDOW_MS) Timeout ClearRestoreFlag).
  unfold applied_under_flag, ECHO_WINDOW_MS.
  cbn [action due now timers with_idb with_next_timer with_timers
       with_scene_log with_flag].
  split; [reflexivity|]. split; [lia|]. left. split; [|lia].
  apply in_or_app. right. left. reflexivity.
Qed.

Lemma reset_pending_handleCanvasUpdate (env : Env) (payload : DrawPayload)
    (rest : list Timer) (w : World) :
  (forall u, updateScene_throws env u = false) ->
  reset_pending rest w ->
  reset_pending rest (run (handleCanvasUpdate env payload) w).
Proof.
  intros Hacc H. destruct (apiRef w) eqn:Hapi.
  - destruct (handleCanvasUpdate_accepted env payload w Hapi Hacc)
      as (d & -> & _).
    apply reset_pending_applied.
  - unfold run, handleCanvasUpdate. rewrite Hapi. exact H.
Qed.

Lemma reset_pending_pollTick (env : Env) (rest : list Timer) (w : World) :
  (forall u, updateScene_throws env u = false) ->
  reset_pending rest w ->
  reset_pending rest (run (pollTick env) w).
Proof.
  intros Hacc H. unfold run. rewrite pollTick_value. cbv zeta.
  destruct (poll_observation _ _) as [[token payload]|].
  - apply (reset_pending_handleCanvasUpdate env payload rest _ Hacc). exact H.
  - exact H.
Qed.

Lemma reset_pending_onChange (env : Env) (elements appState files : value)
    (w : World) :
  reset_pending [] w ->
  reset_pending [] (run (onChange env elements appState files) w).
Proof.
  intros H. unfold run.
  unfold onChange, clearTimeout, setTimeout, bind, gets, ret, modify.
  destruct (isUpdatingFromRestore w) eqn:Hf; [exact H|].
  destruct (negb (truthy elements)); [exact H|].
  destruct (iter_spread elements w) as [[mutableElements|] w'] eqn:Hit;
    (assert (w' = w) as ->
       by (unfold iter_spread, ret, throw in Hit; destruct elements; congruence));
    [|exact H].
  cbn [lastSaveDataRef].
  match goal with |- context [String.eqb ?h (lastSaveDataRef w)] =>
    destruct (String.eqb h (lastSaveDataRef w)); [exact H|]
  end.
  cbn [snd fst saveTimeoutRef with_lastSaveDataRef].
  intros Hup.
  destruct (saveTimeoutRef w); cbn in Hup; congruence.
Qed.

(** Running a batch member that is not a reset keeps the promise: the reset
    promised is still pending or further down the batch, and what the
    member queued comes on top. *)
Lemma reset_pending_next (t : Timer) (rest extra : list Timer)
    (w1 w2 : World) :
  action t <> ClearRestoreFlag ->
  isUpdatingFromRestore w2 = isUpdatingFromRestore w1 ->
  now w2 = now w1 ->
  timers w2 = timers w1 ++ extra ->
  reset_pending (t :: rest) w1 ->
  reset_pending rest w2.
Proof.
  intros Hnot Hflag Hnow Htimers H Hup. rewrite Hflag in Hup.
  destruct (H Hup) as (t' & Ha & Hdue & Hwhere).
  exists t'. rewrite Hnow, Htimers. split; [exact Ha|]. split; [exact Hdue|].
  destruct Hwhere as [[Hin Hlt]|[<-|Hin]].
  - left. split; [apply in_or_app; left; exact Hin|exact Hlt].
  - contradiction.
  - right. exact Hin.
Qed.

Lemma reset_pending_fire_timer (env : Env) (t : Timer) (rest : list Timer)
    (w : World) :
  (forall u, updateScene_throws env u = false) ->
  reset_pending (t :: rest) w ->
  reset_pending rest (fire_timer env t w).
Proof.
  intros Hacc H. unfold fire_timer.
  destruct (action t) eqn:Ha.
  - intros Hup. exfalso. unfold fire in Hup.
    destruct (kind t); cbn in Hup; discriminate.
  - assert (H1 : reset_pending (t :: rest)
                   (fire env (DebouncedSave elements appState) w)).
    { unfold fire, run.
      apply (preserves_try_catch (reset_pending (t :: rest)));
        [apply frame_saveCanvasData; intros; assumption
        |apply preserves_ret|exact H]. }
    set (w1 := fire env _ w) in *. clearbody w1.
    destruct (kind t).
    + apply (reset_pending_next t rest [] w1 w1); try reflexivity;
        [congruence|now rewrite app_nil_r|exact H1].
    + eapply (reset_pending_next t rest _ w1); try reflexivity;
        [congruence|exact H1].
  - assert (H1 : reset_pending (t :: rest) (fire env PollTick w))
      by (apply reset_pending_pollTick; assumption).
    set (w1 := fire env _ w) in *. clearbody w1.
    destruct (kind t).
    + apply (reset_pending_next t rest [] w1 w1); try reflexivity;
        [congruence|now rewrite app_nil_r|exact H1].
    + eapply (reset_pending_next t rest _ w1); try reflexivity;
        [congruence|exact H1].
Qed.

Lemma reset_pending_tick (env : Env) (w : World) :
  (forall u, updateScene_throws env u = false) ->
  reset_pending [] w -> reset_pending [] (tick env w).
Proof.
  intros Hacc H. unfold tick. cbn [now timers with_now].
  set (ready := filter (is_due (now w + 1)) (timers w)).
  set (w1 := with_timers _ (with_now (now w + 1) w)).
  assert (H1 : reset_pending ready w1).
  { intros Hup. destruct (H Hup) as (t & Ha & Hdue & [[Hin Hlt]|[]]).
    exists t. unfold w1, ready.
    cbn [now timers with_timers with_now]. unfold ECHO_WINDOW_MS in *.
    split; [exact Ha|]. split; [lia|].
    destruct (is_due (now w + 1) t) eqn:Hd.
    - right. apply filter_In. split; assumption.
    - left. split.
      + apply filter_In. split; [exact Hin|]. now rewrite Hd.
      + unfold is_due in Hd. apply Z.leb_gt in Hd. exact Hd. }
  clearbody w1 ready. revert w1 H1.
  induction ready as [|t ready IH]; intros w1 H1; simpl.
  - exact H1.
  - apply IH, reset_pending_fire_timer; assumption.
Qed.

Lemma reset_pending_elapse (env : Env) (ms : nat) (w : World) :
  (forall u, updateScene_throws env u = false) ->
  reset_pending [] w -> reset_pending [] (elapse env ms w).
Proof.
  intros Hacc. revert w. induction ms as [|k IH]; intros w H; simpl.
  - exact H.
  - apply IH, reset_pending_tick; assumption.
Qed.

Lemma reset_pending_step (env : Env) (w : World) (e : Event) :
  (forall u, updateScene_throws env u = false) ->
  reset_pending [] w -> reset_pending [] (step env w e).
Proof.
  intros Hacc H.
  destruct e as [isTauri| | |elements appState files|payload|ms]; simpl.
  - unfold startWatch. destruct isTauri; [exact H|].
    unfold run, setInterval. cbn [snd negb].
    intros Hup. destruct (H Hup) as (t & Ha & Hdue & [[Hin Hlt]|[]]).
    exists t. split; [exact Ha|]. split; [exact Hdue|]. left.
    split; [|exact Hlt]. apply in_or_app. left. exact Hin.
  - exact H.
  - unfold initEffect.
    destruct (apiRef w && negb (isInitialized w)); [|exact H].
    exact (frame_initializeStorage (reset_pending [])
             (fun _ _ H0 => H0) (fun _ _ H0 => H0) (fun _ _ _ H0 => H0)
             env w H).
  - apply reset_pending_onChange; assumption.
  - apply reset_pending_handleCanvasUpdate; assumption.
  - apply reset_pending_elapse; assumption.
Qed.

Lemma reset_pending_run_events (env : Env) (events : list Event) (w : World) :
  (forall u, updateScene_throws env u = false) ->
  reset_pending [] w -> reset_pending [] (run_events env events w).
Proof.
  intros Hacc. revert w. induction events as [|e events IH]; intros w H.
  - exact H.
  - simpl. apply IH, reset_pending_step; assumption.
Qed.

(** When the surface accepts every programmatic update, the echo flag is
    never left up without a way down: in every reachable state in which
    the flag is up, a timer that lowers it is pending, and it is due within
    the next [ECHO_WINDOW_MS] milliseconds.  A change notification cannot
    cancel it: while the flag is up [onChange] returns before it touches a
    timer. *)
Theorem echo_flag_is_never_stuck (env : Env) (d : IDB) (t0 : Z)
    (events : list Event) :
  (forall u, updateScene_throws env u = false) ->
  let w := run_events env events (initial d t0) in
  isUpdatingFromRestore w = true ->
  exists t,
    In t (timers w)
    /\ action t = ClearRestoreFlag
    /\ now w < due t <= now w + ECHO_WINDOW_MS.
Proof.
  intros Hacc w Hup.
  assert (H0 : reset_pending [] (initial d t0)) by (intros Hf; discriminate Hf).
  destruct (reset_pending_run_events env events _ Hacc H0 Hup) as (t & Ha & Hdue & [[Hin Hlt]|[]]).
  exists t. split; [exact Hin|]. split; [exact Ha|]. split; assumption.
Qed.

Lemma echo_flag_is_never_stuck_witness :
  let w := run_events (sample_env NetworkError)
             [ ApiReady;
               Draw (mkDrawPayload (Arr [sample_rectangle]) Undefined Undefined);
               Elapse 40 ]
             (initial (read_only_store None) sample_clock) in
  isUpdatingFromRestore w = true
  /\ exists t,
       In t (timers w)
       /\ action t = ClearRestoreFlag
       /\ now w < due t <= now w + ECHO_WINDOW_MS.
Proof.
  cbv zeta. split; [reflexivity|].
  exact (echo_flag_is_never_stuck (sample_env NetworkError)
           (read_only_store None) sample_clock
           [ ApiReady;
             Draw (mkDrawPayload (Arr [sample_rectangle]) Undefined Undefined);
             Elapse 40 ]
           (fun _ => eq_refl) eq_refl).
Defined.
